(** * shpConverter: DXF <-> Shapefile conversion and CRS sidecar generation

    A shallow embedding of the scripts of the repository
    ([src/shp2dxf.py], [src/dxf2shp.py], [src/makePrj4shp.py] and the
    earlier [shpConverter.py]) together with the properties their
    specification states about them and further properties of the code.

    Conventions of the embedding.
    - A Python [str] is a [string] whose characters are code points below
      128.  Case mapping, white space and digit classes are those of the
      ASCII range; other code points are outside the model.
    - A Python [int] is a [Z].  The floats that are formatted into WKT
      text are short decimals ([Py.dec]); a float found in an attribute
      record is a [spec_float], of which only [int()] is taken.
    - A coordinate pair is a value of a type with decidable equality: the
      scripts only copy and compare coordinates.  A NaN coordinate, which
      is unequal to itself, is outside the model.
    - A raised exception is the [Raise] branch of [Py.Res]; [try] /
      [except Exception] is [Py.try_except].
    - A dictionary is a [gmap]; the files on disk are a [gmap] from path
      to content.
    - The [ezdxf] and [pyshp] libraries are not part of the repository:
      what the scripts read from them is a record field or a section
      variable ([aci2rgb], [int2rgb]), and what they hand to them is
      accumulated in a list. *)

From Stdlib Require Import ZArith Ascii String List Lia Bool.
From Stdlib Require Import DecimalString SpecFloat.
From stdpp Require Import gmap strings list fin_maps.

Local Open Scope Z_scope.

(* ===================================================================== *)
(** * The Python runtime the scripts rely on                              *)
(* ===================================================================== *)

Module Py.

(** ** Exceptions and results *)

Inductive exn : Type :=
| ValueError (msg : string)
| TypeError
| IndexError
| OverflowError
| DXFTableEntryError.

Inductive Res (A : Type) : Type :=
| Ok (a : A)
| Raise (e : exn).
Arguments Ok {A} a.
Arguments Raise {A} e.

Definition bind {A B} (m : Res A) (k : A -> Res B) : Res B :=
  match m with
  | Ok a => k a
  | Raise e => Raise e
  end.

(** [try: body / except Exception: handler] *)
Definition try_except {A} (body : Res A) (handler : Res A) : Res A :=
  match body with
  | Ok a => Ok a
  | Raise _ => handler
  end.

Definition of_option {A} (e : exn) (o : option A) : Res A :=
  match o with
  | Some a => Ok a
  | None => Raise e
  end.

(** ** Characters *)

Definition code (c : ascii) : N := N_of_ascii c.

Definition in_range (lo hi : N) (c : ascii) : bool :=
  ((lo <=? code c) && (code c <=? hi))%N.

Definition isdigit_char (c : ascii) : bool := in_range 48 57 c.

(** White space of [str.strip()]: TAB..CR, FS..US and SPACE. *)
Definition isspace_char (c : ascii) : bool :=
  in_range 9 13 c || in_range 28 32 c.

(** White space that [int()] skips around a literal: TAB..CR and SPACE. *)
Definition int_space (c : ascii) : bool :=
  in_range 9 13 c || (code c =? 32)%N.

Definition lower_char (c : ascii) : ascii :=
  if in_range 65 90 c then ascii_of_N (code c + 32) else c.

Definition upper_char (c : ascii) : ascii :=
  if in_range 97 122 c then ascii_of_N (code c - 32) else c.

Definition ishex_char (c : ascii) : bool :=
  isdigit_char c || in_range 65 70 c || in_range 97 102 c.

Definition digit_val (c : ascii) : Z := Z.of_N (code c) - 48.

Definition hex_val (c : ascii) : Z :=
  if isdigit_char c then Z.of_N (code c) - 48
  else if in_range 65 70 c then Z.of_N (code c) - 55
  else Z.of_N (code c) - 87.

(** ** Strings *)

Fixpoint map_str (f : ascii -> ascii) (s : string) : string :=
  match s with
  | EmptyString => EmptyString
  | String c s' => String (f c) (map_str f s')
  end.

Definition lower : string -> string := map_str lower_char.
Definition upper : string -> string := map_str upper_char.

Fixpoint all_str (p : ascii -> bool) (s : string) : bool :=
  match s with
  | EmptyString => true
  | String c s' => p c && all_str p s'
  end.

(** [s.isdigit()]: at least one character, all of them digits. *)
Definition isdigit (s : string) : bool :=
  match s with
  | EmptyString => false
  | _ => all_str isdigit_char s
  end.

Fixpoint lstrip_by (p : ascii -> bool) (s : string) : string :=
  match s with
  | EmptyString => EmptyString
  | String c s' => if p c then lstrip_by p s' else s
  end.

Fixpoint rstrip_by (p : ascii -> bool) (s : string) : string :=
  match s with
  | EmptyString => EmptyString
  | String c s' =>
      match rstrip_by p s' with
      | EmptyString => if p c then EmptyString else String c EmptyString
      | r => String c r
      end
  end.

(** [s.strip()] *)
Definition strip (s : string) : string :=
  rstrip_by isspace_char (lstrip_by isspace_char s).

(** [s.startswith(p)] *)
Fixpoint startswith (p s : string) : bool :=
  match p, s with
  | EmptyString, _ => true
  | String a p', String b s' => Ascii.eqb a b && startswith p' s'
  | String _ _, EmptyString => false
  end.

(** [s.endswith(suf)]: some tail of [s] is [suf]. *)
Fixpoint endswith (suf s : string) : bool :=
  String.eqb s suf ||
  match s with
  | EmptyString => false
  | String _ s' => endswith suf s'
  end.

(** [s.replace(c, "")] for a one-character [c]. *)
Fixpoint delete_char (x : ascii) (s : string) : string :=
  match s with
  | EmptyString => EmptyString
  | String c s' =>
      if Ascii.eqb c x then delete_char x s' else String c (delete_char x s')
  end.

(** [s.split(sep)] for a one-character separator; never the empty list. *)
Fixpoint split (sep : ascii) (s : string) : list string :=
  match s with
  | EmptyString => [EmptyString]
  | String c s' =>
      if Ascii.eqb c sep then EmptyString :: split sep s'
      else match split sep s' with
           | hd :: tl => String c hd :: tl
           | [] => [String c EmptyString]
           end
  end.

Fixpoint drop_str (n : nat) (s : string) : string :=
  match n, s with
  | O, _ => s
  | S n', String _ s' => drop_str n' s'
  | S _, EmptyString => EmptyString
  end.

Fixpoint take_str (n : nat) (s : string) : string :=
  match n, s with
  | S n', String c s' => String c (take_str n' s')
  | _, _ => EmptyString
  end.

(** Where a slice bound [i] falls in a sequence of length [n]: negative
    bounds count from the end, and the result is clamped to [0..n]. *)
Definition slice_bound (i : Z) (n : Z) : Z :=
  if i <? 0 then Z.max (i + n) 0 else Z.min i n.

(** [s[a:b]] on a string. *)
Definition slice_str (s : string) (a b : Z) : string :=
  let n := Z.of_nat (String.length s) in
  let a' := slice_bound a n in
  let b' := slice_bound b n in
  take_str (Z.to_nat (b' - a')) (drop_str (Z.to_nat a') s).

(** [l[a:b]] on a list. *)
Definition slice {A} (l : list A) (a b : Z) : list A :=
  let n := Z.of_nat (length l) in
  let a' := slice_bound a n in
  let b' := slice_bound b n in
  take (Z.to_nat (b' - a')) (drop (Z.to_nat a') l).

(** [l[i]] for a non-negative index [i]. *)
Definition getitem {A} (l : list A) (i : nat) : Res A :=
  of_option IndexError (l !! i).

(** ** Integers from and to text *)

(** The digits of a decimal literal: digits, with single underscores
    allowed between two digits. [after_digit] tells whether the previous
    character was a digit. *)
Fixpoint int_digits (acc : Z) (after_digit : bool) (s : string) : option Z :=
  match s with
  | EmptyString => if after_digit then Some acc else None
  | String c s' =>
      if isdigit_char c then int_digits (10 * acc + digit_val c) true s'
      else if Ascii.eqb c "_" then
        if after_digit then int_digits acc false s' else None
      else None
  end.

(** [int(s)] for a string [s]; [None] stands for [ValueError]. *)
Definition int_of_str (s : string) : option Z :=
  match rstrip_by int_space (lstrip_by int_space s) with
  | String "+" r => int_digits 0 false r
  | String "-" r => Z.opp <$> int_digits 0 false r
  | t => int_digits 0 false t
  end.

(** [int(s, 16)] as the scripts use it: on a string of hexadecimal digits. *)
Fixpoint hex_digits (acc : Z) (s : string) : option Z :=
  match s with
  | EmptyString => Some acc
  | String c s' =>
      if ishex_char c then hex_digits (16 * acc + hex_val c) s' else None
  end.

Definition int_of_hex (s : string) : option Z :=
  match s with
  | EmptyString => None
  | _ => hex_digits 0 s
  end.

(** [str(n)] / [f"{n}"] for an integer. *)
Definition str_of_int (n : Z) : string :=
  NilZero.string_of_int (Z.to_int n).

(** [int(f)] for a float: truncation towards zero. *)
Definition int_of_float (f : spec_float) : Res Z :=
  match f with
  | S754_zero _ => Ok 0
  | S754_infinity _ => Raise OverflowError
  | S754_nan => Raise (ValueError "cannot convert float NaN to integer")
  | S754_finite sign m e =>
      let mag := if 0 <=? e then Z.pos m * 2 ^ e
                 else Z.pos m / 2 ^ (- e) in
      Ok (if sign then - mag else mag)
  end.

(** ** Numbers in formatted text *)

(** A float that is a short decimal, [mant * 10^-scale].  The floats of
    [makePrj4shp.py] are literals of at most four decimals and sums of a
    small integer and such a literal; for these [repr] prints the decimal
    back. *)
Record dec : Type := mkDec { mant : Z; scale : nat }.

(** A number handed to an f-string: an [int] or a [float]. *)
Inductive num : Type :=
| Int (n : Z)
| Float (d : dec).

(** [n + d] for an integer [n] and a float [d]. *)
Definition add_int_dec (n : Z) (d : dec) : dec :=
  mkDec (n * 10 ^ Z.of_nat (scale d) + mant d) (scale d).

(** Drop the trailing zeros of the fraction. *)
Fixpoint trim_dec (m : Z) (s : nat) : Z * nat :=
  match s with
  | O => (m, O)
  | S s' => if m mod 10 =? 0 then trim_dec (m / 10) s' else (m, s)
  end.

Fixpoint zeros (n : nat) : string :=
  match n with
  | O => EmptyString
  | S n' => String "0" (zeros n')
  end.

(** [repr(d)]: integer part, a point, and the fraction with at least one
    digit. *)
Definition repr_dec (d : dec) : string :=
  let '(m, s) := trim_dec (mant d) (scale d) in
  let p := 10 ^ Z.of_nat s in
  let ip := str_of_int (Z.abs m / p) in
  let fp := str_of_int (Z.abs m mod p) in
  let frac :=
    match s with
    | O => "0"
    | _ => zeros (s - String.length fp) +:+ fp
    end in
  (if m <? 0 then "-" else "") +:+ ip +:+ "." +:+ frac.

(** [f"{x}"] *)
Definition format (x : num) : string :=
  match x with
  | Int n => str_of_int n
  | Float d => repr_dec d
  end.

(** ** Values found in an attribute record *)

(** What pyshp delivers for a field: a null, a logical, a number, a text,
    or something else (a date). *)
Inductive value : Type :=
| VNone
| VBool (b : bool)
| VInt (n : Z)
| VFloat (f : spec_float)
| VStr (s : string)
| VOther.

Definition invalid_literal : exn := ValueError "invalid literal for int()".

(** [int(v)] *)
Definition int (v : value) : Res Z :=
  match v with
  | VNone => Raise TypeError
  | VBool b => Ok (if b then 1 else 0)
  | VInt n => Ok n
  | VFloat f => int_of_float f
  | VStr s => of_option invalid_literal (int_of_str s)
  | VOther => Raise TypeError
  end.

(** [v is not None] *)
Definition is_not_none (v : value) : bool :=
  match v with
  | VNone => false
  | _ => true
  end.

End Py.

Notation "x <- m ;; k" := (Py.bind m (fun x => k))
  (at level 100, m at next level, right associativity).

(** An RGB triple. *)
Definition RGB : Type := Z * Z * Z.

(** The double-quote character, for the literals that contain it. *)
Definition dq : string := String (ascii_of_nat 34) EmptyString.

(* ===================================================================== *)
(** * src/shp2dxf.py                                                      *)
(* ===================================================================== *)

Module shp2dxf.
Import Py.

(** Shape type codes of the shapefile format. *)
Definition POINT : Z := 1.
Definition POLYLINE : Z := 3.
Definition POLYGON : Z := 5.

(** A shape as the reader delivers it: its type code, the flat list of
    its points and, when the attribute exists, the start index of each
    part. *)
Record Shape (P : Type) : Type := mkShape {
  shapeType : Z;
  points : list P;
  parts : option (list Z)
}.
Arguments mkShape {P}.
Arguments shapeType {P}.
Arguments points {P}.
Arguments parts {P}.

(** [_split_parts(shape)]: the generator's yields, in order. *)
Definition _split_parts {P} (shape : Shape P) : list (list P) :=
  let pts := points shape in
  let parts := default [0] (parts shape) in
  let idxs := parts ++ [Z.of_nat (length pts)] in
  map (fun i => slice pts (nth i idxs 0) (nth (S i) idxs 0))
      (seq 0 (length parts)).

(** [{n: i for i, n in enumerate(field_names_lower)}]: a later column of
    the same name replaces an earlier one. *)
Definition name_to_idx (field_names_lower : list string) : gmap string nat :=
  foldl (fun d '(i, n) => <[n := i]> d) ∅
        (imap (fun i n => (i, n)) field_names_lower).

(** The inner function [get_val], called with its candidate names. *)
Fixpoint get_val (d : gmap string nat) (rec : list value)
    (candidates : list string) : Res value :=
  match candidates with
  | [] => Ok VNone
  | c :: cs =>
      match d !! lower c with
      | Some idx => getitem rec idx
      | None => get_val d rec cs
      end
  end.

Definition in_byte (n : Z) : bool := (0 <=? n) && (n <=? 255).

(** A block of the function body either returns a colour ([Some]) or
    falls through to the code after it ([None]). *)
Definition returns_or {A} (blk : Res (option A)) (rest : Res A) : Res A :=
  match blk with
  | Ok (Some c) => Ok c
  | Ok None => rest
  | Raise e => Raise e
  end.

Definition falls_or {A} (blk rest : Res (option A)) : Res (option A) :=
  match blk with
  | Ok None => rest
  | other => other
  end.

(** [R, G, B = int(a), int(b), int(c)] followed by the range test. *)
Definition three_ints (a b c : value) : Res (option RGB) :=
  R <- int a ;; G <- int b ;; B <- int c ;;
  if in_byte R && in_byte G && in_byte B then Ok (Some (R, G, B))
  else Ok None.

(** Block 1 of [_parse_rgb_from_record]: the RGB_text column. *)
Definition rgb_text_column (d : gmap string nat) (rec : list value)
    : Res (option RGB) :=
  match d !! "rgb_text" with
  | Some rgb_text_idx =>
      val <- getitem rec rgb_text_idx ;;
      match val with
      | VStr s =>
          if startswith "rgb(" (lower s) && endswith ")" s then
            try_except
              match split "," (slice_str s 4 (-1)) with
              | [p0; p1; p2] => three_ints (VStr p0) (VStr p1) (VStr p2)
              | _ => Ok None
              end
              (Ok None)
          else Ok None
      | _ => Ok None
      end
  | None => Ok None
  end.

(** Block 2: the R, G, B integer columns, once their values are read. *)
Definition rgb_columns (r g b : value) : Res (option RGB) :=
  try_except
    (if is_not_none r && is_not_none g && is_not_none b
     then three_ints r g b
     else Ok None)
    (Ok None).

(** Blocks 3 and 4: the color string column, as hexadecimal digits or
    as [r,g,b]. *)
Definition color_column (color_val : value) : Res (option RGB) :=
  match color_val with
  | VStr cv =>
      let s := strip cv in
      (* Hex forms *)
      let s := if startswith "#" s then drop_str 1 s else s in
      falls_or
        (if (String.length s =? 6)%nat && all_str ishex_char s then
           try_except
             (R <- of_option invalid_literal (int_of_hex (slice_str s 0 2)) ;;
              G <- of_option invalid_literal (int_of_hex (slice_str s 2 4)) ;;
              B <- of_option invalid_literal (int_of_hex (slice_str s 4 6)) ;;
              Ok (Some (R, G, B)))
             (Ok None)
         else Ok None)
        (* CSV 'r,g,b' *)
        match map strip (split "," (delete_char ")" (delete_char "(" s))) with
        | [p0; p1; p2] =>
            try_except (three_ints (VStr p0) (VStr p1) (VStr p2)) (Ok None)
        | _ => Ok None
        end
  | _ => Ok None
  end.

Section decode.

(** [ezdxf.colors.aci2rgb]: the colour of an index, or an exception. *)
Variable aci2rgb : Z -> Res RGB.

(** Block 5: the ACI column, through the indexed-colour table. *)
Definition aci_column (aci_val : value) : Res (option RGB) :=
  try_except
    (if is_not_none aci_val then
       aci <- int aci_val ;;
       if negb ((aci =? 0) || (aci =? 256)) then
         c <- aci2rgb aci ;; Ok (Some c)
       else Ok None
     else Ok None)
    (Ok None).

(** [_parse_rgb_from_record(rec, field_names_lower)] *)
Definition _parse_rgb_from_record (rec : list value)
    (field_names_lower : list string) : Res RGB :=
  let d := name_to_idx field_names_lower in
  (* 1) RGB_text column *)
  returns_or (rgb_text_column d rec)
  (* 2) R,G,B integer columns *)
  (r <- get_val d rec ["r"] ;;
   g <- get_val d rec ["g"] ;;
   b <- get_val d rec ["b"] ;;
   returns_or (rgb_columns r g b)
  (* 3/4) color string field *)
  (color_val <- get_val d rec ["color"; "colour"; "clr"] ;;
   returns_or (color_column color_val)
  (* 5) ACI -> RGB *)
  (aci_val <- get_val d rec ["aci"; "autocadcolorindex"] ;;
   returns_or (aci_column aci_val)
  (* Default *)
  (Ok (0, 0, 0))))).

End decode.

(** What [msp.add_point] and [msp.add_lwpolyline] are called with. *)
Inductive Added (P A : Type) : Type :=
| add_point (location : P) (dxfattribs : A)
| add_lwpolyline (pts : list P) (close : bool) (dxfattribs : A).
Arguments add_point {P A}.
Arguments add_lwpolyline {P A}.

(** The geometry branch of the loop body of [convert_shp_to_dxf]
    (from [geom_type = shape.shapeType] on): the entities it adds to the
    model space [msp] for one shape. *)
Definition convert_shp_to_dxf_shape {P A} `{EqDecision P}
    (dxfattribs : A) (shape : Shape P) (msp : list (Added P A))
    : list (Added P A) :=
  let geom_type := shapeType shape in
  if geom_type =? POINT then
    match points shape with
    | p :: _ => msp ++ [add_point p dxfattribs]
    | [] => msp
    end
  else if (geom_type =? POLYLINE) || (geom_type =? POLYGON) then
    let is_closed := geom_type =? POLYGON in
    foldl
      (fun msp part =>
         match part with
         | [] => msp
         | first :: _ =>
             let pts := part in
             let pts :=
               if is_closed && negb (bool_decide (first = List.last pts first))
               then pts ++ [first] else pts in
             msp ++ [add_lwpolyline pts is_closed dxfattribs]
         end)
      msp (_split_parts shape)
  else msp.

End shp2dxf.

(* ===================================================================== *)
(** * src/dxf2shp.py                                                      *)
(* ===================================================================== *)

Module dxf2shp.
Import Py.

Definition DBF_CPG : string := "UTF-8".

(** [write_cpg_if_missing(shp_base_path)] *)
(** The files on disk are a map from path to content. *)
Definition write_cpg_if_missing (shp_base_path : string)
    (fs : gmap string string) : gmap string string :=
  let cpg := shp_base_path +:+ ".cpg" in
  match fs !! cpg with
  | Some _ => fs
  | None => <[cpg := DBF_CPG]> fs
  end.

(** What [getattr(e, name, None)] finds for the two closed-flag names:
    nothing, a [bool], or an object of another type. *)
Inductive Attr : Type :=
| Absent
| Bool (v : bool)
| NotBool.

(** The four entity kinds the query selects, with the coordinates the
    accessors [get_point_xy], [get_line_xy], [lwpolyline_xy] and
    [polyline_xy] deliver for them. *)
Inductive Geometry (P : Type) : Type :=
| POINT (location : P)
| LINE (start finish : P)
| LWPOLYLINE (xy : list P)
| POLYLINE (xy : list P).
Arguments POINT {P}.
Arguments LINE {P}.
Arguments LWPOLYLINE {P}.
Arguments POLYLINE {P}.

(** A drawing entity as the converter reads it: [dxf_layer],
    [dxf_true_color] and [dxf_color] are [None] when the attribute is not
    set on the entity. *)
Record Entity (P : Type) : Type := mkEntity {
  geometry : Geometry P;
  dxf_layer : option string;
  dxf_true_color : option Z;
  dxf_color : option Z;
  attr_closed : Attr;
  attr_is_closed : Attr
}.
Arguments mkEntity {P}.
Arguments geometry {P}.
Arguments dxf_layer {P}.
Arguments dxf_true_color {P}.
Arguments dxf_color {P}.
Arguments attr_closed {P}.
Arguments attr_is_closed {P}.

Definition dxftype {P} (e : Entity P) : string :=
  match geometry e with
  | POINT _ => "POINT"
  | LINE _ _ => "LINE"
  | LWPOLYLINE _ => "LWPOLYLINE"
  | POLYLINE _ => "POLYLINE"
  end.

(** A layer of the drawing's layer table and its colour index. *)
Record Layer : Type := mkLayer { color : option Z }.

(** The drawing: [layers_get name] is [doc.layers.get(name)], [None] when
    the table raises because it has no such layer. *)
Record Drawing : Type := mkDrawing { layers_get : string -> option Layer }.

(** [x or y] on an optional integer: [None] and [0] are false. *)
Definition or_int (x : option Z) (y : Z) : Z :=
  match x with
  | Some v => if v =? 0 then y else v
  | None => y
  end.

(** [x or y] on an optional string: [None] and the empty string are false. *)
Definition or_str (x : option string) (y : string) : string :=
  match x with
  | Some EmptyString => y
  | Some v => v
  | None => y
  end.

(** [is_closed(e)] *)
Definition is_closed {P} (e : Entity P) : bool :=
  match attr_closed e with
  | Bool v => v
  | _ =>
      match attr_is_closed e with
      | Bool v => v
      | _ => false
      end
  end.

(** [close_if_needed(pts)] *)
Definition close_if_needed {P} `{EqDecision P} (pts : list P) : list P :=
  match pts with
  | [] => pts
  | first :: _ =>
      if negb (bool_decide (first = List.last pts first))
      then pts ++ [first] else pts
  end.

(** The three outputs. *)
Inductive Kind : Type := points | lines | polygons.

Definition kind_name (k : Kind) : string :=
  match k with
  | points => "points"
  | lines => "lines"
  | polygons => "polygons"
  end.

(** What a shapefile writer is called with: [w.point], [w.line], [w.poly]. *)
Inductive ShapeCall (P : Type) : Type :=
| point (xy : P)
| line (parts : list (list P))
| poly (parts : list (list P)).
Arguments point {P}.
Arguments line {P}.
Arguments poly {P}.

(** A writer: the shapes and the records ([layer], [etype], [RGB_text])
    handed to it so far. *)
Record Writer (P : Type) : Type := mkWriter {
  shapes : list (ShapeCall P);
  records : list (string * string * string)
}.
Arguments mkWriter {P}.
Arguments shapes {P}.
Arguments records {P}.

Record Counts : Type := mkCounts {
  n_points : nat;
  n_lines : nat;
  n_polygons : nat
}.

(** [WriterSet]: a writer is created when its kind is first asked for. *)
Record WriterSet (P : Type) : Type := mkWriterSet {
  base : string;
  w_points : option (Writer P);
  w_lines : option (Writer P);
  w_polygons : option (Writer P);
  counts : Counts
}.
Arguments mkWriterSet {P}.
Arguments base {P}.
Arguments w_points {P}.
Arguments w_lines {P}.
Arguments w_polygons {P}.
Arguments counts {P}.

(** [WriterSet(base_out)] *)
Definition new_WriterSet {P} (base_out : string) : WriterSet P :=
  mkWriterSet base_out None None None (mkCounts 0 0 0).

Definition writer_of {P} (ws : WriterSet P) (k : Kind) : option (Writer P) :=
  match k with
  | points => w_points ws
  | lines => w_lines ws
  | polygons => w_polygons ws
  end.

Definition set_writer {P} (ws : WriterSet P) (k : Kind) (w : Writer P)
    : WriterSet P :=
  match k with
  | points => mkWriterSet (base ws) (Some w) (w_lines ws) (w_polygons ws) (counts ws)
  | lines => mkWriterSet (base ws) (w_points ws) (Some w) (w_polygons ws) (counts ws)
  | polygons => mkWriterSet (base ws) (w_points ws) (w_lines ws) (Some w) (counts ws)
  end.

(** [writers.get(kind)]: the writer of that kind, fresh if there is none. *)
Definition get {P} (ws : WriterSet P) (k : Kind) : Writer P :=
  match writer_of ws k with
  | Some w => w
  | None => mkWriter [] []
  end.

(** [writers.counts[kind] += 1] *)
Definition count {P} (ws : WriterSet P) (k : Kind) : WriterSet P :=
  let c := counts ws in
  mkWriterSet (base ws) (w_points ws) (w_lines ws) (w_polygons ws)
    match k with
    | points => mkCounts (S (n_points c)) (n_lines c) (n_polygons c)
    | lines => mkCounts (n_points c) (S (n_lines c)) (n_polygons c)
    | polygons => mkCounts (n_points c) (n_lines c) (S (n_polygons c))
    end.

(** [w = writers.get(kind); w.<shape>(...); w.record(...);
    writers.counts[kind] += 1] *)
Definition emit {P} (ws : WriterSet P) (k : Kind) (shape : ShapeCall P)
    (record : string * string * string) : WriterSet P :=
  let w := get ws k in
  count (set_writer ws k (mkWriter (shapes w ++ [shape]) (records w ++ [record]))) k.

(** [close_all()]: every writer that was created gets its [.cpg]. *)
Definition close_all {P} (ws : WriterSet P) (fs : gmap string string)
    : gmap string string :=
  foldl
    (fun fs k =>
       match writer_of ws k with
       | Some _ => write_cpg_if_missing (base ws +:+ "_" +:+ kind_name k) fs
       | None => fs
       end)
    fs [points; lines; polygons].

Section convert.

(** [ezdxf.colors.int2rgb] and [ezdxf.colors.aci2rgb]. *)
Variable int2rgb : Z -> RGB.
Variable aci2rgb : Z -> Res RGB.

(** The inner [entity_rgb(ent)] of [convert_one_dxf]. *)
Definition entity_rgb {P} (doc : Drawing) (ent : Entity P) : Res RGB :=
  (* 1) true_color if present *)
  match dxf_true_color ent with
  | Some true_color => Ok (int2rgb true_color)
  | None =>
      (* 2) explicit entity ACI (1..255), 256=ByLayer, 0=ByBlock *)
      let aci := or_int (dxf_color ent) 256 in
      if negb ((aci =? 0) || (aci =? 256)) then
        aci2rgb aci
      else
        (* 3) layer color *)
        let lay := or_str (dxf_layer ent) "0" in
        try_except
          (layer_obj <- of_option DXFTableEntryError (layers_get doc lay) ;;
           aci2rgb (or_int (color layer_obj) 7))
          (Ok (0, 0, 0))
  end.

(** [f"rgb({R},{G},{B})"] *)
Definition rgb_text (c : RGB) : string :=
  let '(R, G, B) := c in
  "rgb(" +:+ str_of_int R +:+ "," +:+ str_of_int G +:+ "," +:+ str_of_int B +:+ ")".

(** The body of the loop over the entities in [convert_one_dxf]. *)
Definition convert_entity {P} `{EqDecision P} (doc : Drawing)
    (writers : WriterSet P) (e : Entity P) : Res (WriterSet P) :=
  let et := dxftype e in
  let layer := default "" (dxf_layer e) in
  c <- entity_rgb doc e ;;
  let record := (layer, et, rgb_text c) in
  match geometry e with
  | POINT xy => Ok (emit writers points (point xy) record)
  | LINE p1 p2 => Ok (emit writers lines (line [[p1; p2]]) record)
  | LWPOLYLINE pts | POLYLINE pts =>
      if is_closed e && (3 <=? length pts)%nat then
        Ok (emit writers polygons (poly [close_if_needed pts]) record)
      else
        Ok (emit writers lines (line [pts]) record)
  end.

Fixpoint convert_entities {P} `{EqDecision P} (doc : Drawing)
    (writers : WriterSet P) (entities : list (Entity P)) : Res (WriterSet P) :=
  match entities with
  | [] => Ok writers
  | e :: rest =>
      writers' <- convert_entity doc writers e ;;
      convert_entities doc writers' rest
  end.

(** [convert_one_dxf]: the writers after the loop and the files after
    [close_all]. *)
Definition convert_one_dxf {P} `{EqDecision P} (base_out : string)
    (doc : Drawing) (entities : list (Entity P))
    (fs : gmap string string) : Res (WriterSet P * gmap string string) :=
  writers <- convert_entities doc (new_WriterSet base_out) entities ;;
  Ok (writers, close_all writers fs).

End convert.

End dxf2shp.

(* ===================================================================== *)
(** * src/makePrj4shp.py                                                  *)
(* ===================================================================== *)

Module makePrj4shp.
Import Py.

Definition CPG_CONTENT : string := "UTF-8".

(** A name between double quotes. *)
Definition q (s : string) : string := dq +:+ s +:+ dq.

Definition newline : string := String (ascii_of_nat 10) EmptyString.

(** ** WKT builders *)

Definition wkt_geogcs_wgs84 : string :=
  "GEOGCS[" +:+ q "WGS 84" +:+ "," +:+
  "DATUM[" +:+ q "WGS_1984" +:+ ",SPHEROID[" +:+ q "WGS 84" +:+
    ",6378137,298.257223563]]," +:+
  "PRIMEM[" +:+ q "Greenwich" +:+ ",0]," +:+
  "UNIT[" +:+ q "degree" +:+ ",0.0174532925199433]]".

Definition wkt_geogcs_etrs89 : string :=
  "GEOGCS[" +:+ q "ETRS89" +:+ "," +:+
  "DATUM[" +:+ q "ETRS_1989" +:+ ",SPHEROID[" +:+ q "GRS 1980" +:+
    ",6378137,298.257222101]]," +:+
  "PRIMEM[" +:+ q "Greenwich" +:+ ",0]," +:+
  "UNIT[" +:+ q "degree" +:+ ",0.0174532925199433]]".

Definition build_wkt_tm (name geogcs : string) (lat0 lon0 k0 fe fn : num)
    : string :=
  "PROJCS[" +:+ q name +:+ "," +:+
  geogcs +:+ "," +:+
  "PROJECTION[" +:+ q "Transverse_Mercator" +:+ "]," +:+
  "PARAMETER[" +:+ q "latitude_of_origin" +:+ "," +:+ format lat0 +:+ "]," +:+
  "PARAMETER[" +:+ q "central_meridian" +:+ "," +:+ format lon0 +:+ "]," +:+
  "PARAMETER[" +:+ q "scale_factor" +:+ "," +:+ format k0 +:+ "]," +:+
  "PARAMETER[" +:+ q "false_easting" +:+ "," +:+ format fe +:+ "]," +:+
  "PARAMETER[" +:+ q "false_northing" +:+ "," +:+ format fn +:+ "]," +:+
  "UNIT[" +:+ q "metre" +:+ ",1]]".

Definition wkt_utm_wgs84 (zone : Z) : string * string :=
  let lon0 := 6 * zone - 183 in
  let name := "WGS 84 / UTM zone " +:+ str_of_int zone +:+ "N" in
  (name,
   build_wkt_tm name wkt_geogcs_wgs84 (Int 0) (Int lon0)
     (Float (mkDec 9996 4)) (Float (mkDec 5000000 1)) (Float (mkDec 0 1))).

Definition wkt_utm_euref89 (zone : Z) : string * string :=
  let lon0 := 6 * zone - 183 in
  let name := "EUREF89 / UTM zone " +:+ str_of_int zone +:+ "N" in
  (name,
   build_wkt_tm name wkt_geogcs_etrs89 (Int 0) (Int lon0)
     (Float (mkDec 9996 4)) (Float (mkDec 5000000 1)) (Float (mkDec 0 1))).

Definition wkt_ntm (zone : Z) : string * string :=
  let name := "EUREF89 / NTM zone " +:+ str_of_int zone in
  let lon0 := add_int_dec zone (mkDec 5 1) in
  (name,
   build_wkt_tm name wkt_geogcs_etrs89 (Float (mkDec 0 1)) (Float lon0)
     (Float (mkDec 10 1)) (Float (mkDec 1000000 1)) (Float (mkDec 10000000 1))).

(** ** Options list *)

(** [range(5, 21)] *)
Definition ntm_zones : list Z := map Z.of_nat (seq 5 16).

(** [build_options()]: the list of (label, key, wkt). *)
Definition build_options : list (string * string * string) :=
  map (fun z =>
         let '(name, wkt) := wkt_utm_euref89 z in
         (name +:+ " (EPSG:258" +:+ str_of_int z +:+ ")",
          "EUREF89/UTM" +:+ str_of_int z, wkt))
      [32; 33; 35]
  ++
  map (fun z =>
         let '(name, wkt) := wkt_utm_wgs84 z in
         (name +:+ " (EPSG:326" +:+ str_of_int z +:+ ")",
          "WGS84/UTM" +:+ str_of_int z, wkt))
      [32; 33; 35]
  ++
  map (fun z =>
         let '(name, wkt) := wkt_ntm z in
         let epsg := 5100 + z in
         (name +:+ " (EPSG:" +:+ str_of_int epsg +:+ ")",
          "NTM/" +:+ str_of_int z, wkt))
      ntm_zones.

(** ** Parsing user input *)

(** The rest of [s] after the prefix [p], if [s] starts with it. *)
Fixpoint strip_prefix (p s : string) : option string :=
  match p, s with
  | EmptyString, _ => Some s
  | String a p', String b s' =>
      if Ascii.eqb a b then strip_prefix p' s' else None
  | String _ _, EmptyString => None
  end.

(** The tail [(\d{2})N?] of the two UTM patterns, matched to the end of
    the text: the two digits. *)
Definition match_zone_N (rest : string) : option string :=
  match rest with
  | String d1 (String d2 tl) =>
      if isdigit_char d1 && isdigit_char d2 &&
         (String.eqb tl "" || String.eqb tl "N")
      then Some (String d1 (String d2 EmptyString))
      else None
  | _ => None
  end.

(** [re.fullmatch(r"(WGS|WGS84)/UTM(\d{2})N?", t)]: group 2. *)
Definition fullmatch_wgs_utm (t : string) : option string :=
  match strip_prefix "WGS/UTM" t ≫= match_zone_N with
  | Some g => Some g
  | None => strip_prefix "WGS84/UTM" t ≫= match_zone_N
  end.

(** [re.fullmatch(r"((EUREF89|ETRS89)/)?UTM(\d{2})N?", t)]: group 3. *)
Definition fullmatch_euref_utm (t : string) : option string :=
  match strip_prefix "EUREF89/UTM" t ≫= match_zone_N with
  | Some g => Some g
  | None =>
      match strip_prefix "ETRS89/UTM" t ≫= match_zone_N with
      | Some g => Some g
      | None => strip_prefix "UTM" t ≫= match_zone_N
      end
  end.

(** [re.fullmatch(r"NTM/(\d{1,2})", t)]: group 1. *)
Definition fullmatch_ntm (t : string) : option string :=
  match strip_prefix "NTM/" t with
  | Some (String d1 EmptyString as g) =>
      if isdigit_char d1 then Some g else None
  | Some (String d1 (String d2 EmptyString) as g) =>
      if isdigit_char d1 && isdigit_char d2 then Some g else None
  | _ => None
  end.

(** [parse_choice(s, options)]: the (label, wkt) of the chosen CRS.  The
    statements after the final [raise] of the function are never run. *)
Definition parse_choice (s : string) (options : list (string * string * string))
    : Res (string * string) :=
  let s := strip s in
  (* 1) Numeric index *)
  if isdigit s then
    idx <- of_option invalid_literal (int_of_str s) ;;
    if (1 <=? idx) && (idx <=? Z.of_nat (length options)) then
      o <- getitem options (Z.to_nat (idx - 1)) ;;
      let '(label, _, wkt) := o in
      Ok (label, wkt)
    else Raise (ValueError "Index out of range.")
  else
  (* 2) Normalized token *)
  let t := delete_char " " (upper s) in
  match fullmatch_wgs_utm t with
  | Some g =>
      zone <- of_option invalid_literal (int_of_str g) ;;
      let '(name, wkt) := wkt_utm_wgs84 zone in
      Ok (name +:+ " (WKT built)", wkt)
  | None =>
  match fullmatch_euref_utm t with
  | Some g =>
      zone <- of_option invalid_literal (int_of_str g) ;;
      let '(name, wkt) := wkt_utm_euref89 zone in
      Ok (name +:+ " (WKT built)", wkt)
  | None =>
  match fullmatch_ntm t with
  | Some g =>
      zone <- of_option invalid_literal (int_of_str g) ;;
      if negb ((5 <=? zone) && (zone <=? 20)) then
        Raise (ValueError "NTM zone must be 5–20 for mainland Norway.")
      else
        let '(name, wkt) := wkt_ntm zone in
        Ok (name +:+ " (WKT built)", wkt)
  | None =>
      Raise (ValueError
        ("Unrecognized input. Use index (1..N), 'UTM33' (EUREF), " +:+
         "'WGS/UTM32' or 'WGS84/UTM32' (WGS), 'EUREF89/UTM35', or 'NTM/10'."))
  end end end.

(** ** Writing .prj / .cpg *)

(** [s.rfind(c)] for a character [c]: the last index of [c], or -1. *)
Fixpoint rfind_from (c : ascii) (s : string) (i last : Z) : Z :=
  match s with
  | EmptyString => last
  | String a s' => rfind_from c s' (i + 1) (if Ascii.eqb a c then i else last)
  end.

Definition rfind (c : ascii) (s : string) : Z := rfind_from c s 0 (-1).

(** [os.path.splitext(p)] with ["/"] as the separator: the extension
    starts at the last dot of the last component, leading dots apart. *)
Definition splitext (p : string) : string * string :=
  let sepIndex := rfind "/" p in
  let dotIndex := rfind "." p in
  if (sepIndex <? dotIndex) &&
     negb (all_str (Ascii.eqb ".") (slice_str p (sepIndex + 1) dotIndex))
  then (take_str (Z.to_nat dotIndex) p, drop_str (Z.to_nat dotIndex) p)
  else (p, EmptyString).

(** [write_sidecars(shp_path, wkt)] on the files on disk. *)
Definition write_sidecars (shp_path wkt : string) (fs : gmap string string)
    : gmap string string :=
  let base := fst (splitext shp_path) in
  let prj_path := base +:+ ".prj" in
  let cpg_path := base +:+ ".cpg" in
  let fs := <[prj_path := wkt +:+ newline]> fs in
  <[cpg_path := CPG_CONTENT]> fs.

(** The loop of [main] over the shapefiles found. *)
Definition write_all (shp_files : list string) (wkt : string)
    (fs : gmap string string) : gmap string string :=
  foldl (fun fs shp => write_sidecars shp wkt fs) fs shp_files.

(** ** Main *)

(** [os.path.join(a, b)] with ["/"] as the separator. *)
Definition join (a b : string) : string :=
  if startswith "/" b then b
  else if String.eqb a "" || endswith "/" a then a +:+ b
  else a +:+ "/" +:+ b.

(** [find_shapefiles(folder)], given the names that [os.listdir(folder)]
    delivers. *)
Definition find_shapefiles (folder : string) (listdir : list string)
    : list string :=
  map (join folder)
      (List.filter (fun f => endswith ".shp" (lower f)) listdir).

(** How [main] ends: by [sys.exit(code)], or by returning. *)
Inductive Exit : Type :=
| exit (code : Z)
| returns.

(** [main()] on the files on disk.  [listdir] is [None] when the target
    folder is not a directory, and the names in it otherwise; [typed] is
    the line that [input] reads. *)
Definition main (target_folder : string) (listdir : option (list string))
    (typed : string) (fs : gmap string string) : Exit * gmap string string :=
  match listdir with
  | None => (exit 1, fs)
  | Some names =>
      let options := build_options in
      let choice := strip typed in
      match parse_choice choice options with
      | Raise _ => (exit 2, fs)
      | Ok (label, wkt) =>
          let shp_files := find_shapefiles target_folder names in
          match shp_files with
          | [] => (exit 0, fs)
          | _ :: _ => (returns, write_all shp_files wkt fs)
          end
      end
  end.

End makePrj4shp.

(* ===================================================================== *)
(** * src/shpConverter.py                                                 *)
(* ===================================================================== *)

(** The first version of the shapefile to DXF converter: it reads the
    shapes without their records, and adds the entities without
    attributes. *)
Module shpConverter.
Import Py.

(** The body of the loop over the shapes in [convert_shp_to_dxf]: the
    entities it adds to the model space [msp] for one shape. *)
Definition convert_shp_to_dxf_shape {P} (shape : shp2dxf.Shape P)
    (msp : list (shp2dxf.Added P unit)) : Res (list (shp2dxf.Added P unit)) :=
  let geom_type := shp2dxf.shapeType shape in
  let points := shp2dxf.points shape in
  if geom_type =? shp2dxf.POINT then
    p <- getitem points 0 ;;
    Ok (msp ++ [shp2dxf.add_point p tt])
  else if (geom_type =? shp2dxf.POLYLINE) || (geom_type =? shp2dxf.POLYGON) then
    let is_closed := geom_type =? shp2dxf.POLYGON in
    Ok (msp ++ [shp2dxf.add_lwpolyline points is_closed tt])
  else Ok msp.

(** The loop over the shapes of a file: an exception leaves the loop. *)
Fixpoint convert_shp_to_dxf_shapes {P} (shapes : list (shp2dxf.Shape P))
    (msp : list (shp2dxf.Added P unit)) : Res (list (shp2dxf.Added P unit)) :=
  match shapes with
  | [] => Ok msp
  | shape :: rest =>
      msp' <- convert_shp_to_dxf_shape shape msp ;;
      convert_shp_to_dxf_shapes rest msp'
  end.

End shpConverter.

(* ===================================================================== *)
(** * The colour resolver as the specification words it                   *)
(* ===================================================================== *)

(** The specification describes the decoder of [shp2dxf.py] as an ordered
    sequence of resolver steps over an attribute record, each giving a
    colour or nothing, the first colour winning.  These definitions follow
    that description; they are compared below with
    [shp2dxf._parse_rgb_from_record]. *)
Module Resolver.
Import Py.

(** The attribute record: the value of the column called [name]. *)
Definition attribute (rec : list value) (field_names_lower : list string)
    (name : string) : option value :=
  shp2dxf.name_to_idx field_names_lower !! name ≫= (rec !!.).

(** The value of the first of [names] that is a column of the record;
    the null value when none is. *)
Fixpoint field_of (attr : string -> option value) (names : list string)
    : value :=
  match names with
  | [] => VNone
  | n :: ns =>
      match attr n with
      | Some v => v
      | None => field_of attr ns
      end
  end.

Definition to_int (v : value) : option Z :=
  match int v with
  | Ok n => Some n
  | Raise _ => None
  end.

(** Three values that read as integers of [0..255]. *)
Definition channels (a b c : value) : option RGB :=
  R ← to_int a; G ← to_int b; B ← to_int c;
  if shp2dxf.in_byte R && shp2dxf.in_byte G && shp2dxf.in_byte B
  then Some (R, G, B) else None.

(** Step 1: [rgb_text] holds [rgb(<int>,<int>,<int>)]. *)
Definition step_rgb_text (attr : string -> option value) : option RGB :=
  match attr "rgb_text" with
  | Some (VStr s) =>
      if startswith "rgb(" (lower s) && endswith ")" s then
        match split "," (slice_str s 4 (-1)) with
        | [a; b; c] => channels (VStr a) (VStr b) (VStr c)
        | _ => None
        end
      else None
  | _ => None
  end.

(** Step 2: the columns [r], [g], [b]. *)
Definition step_rgb_fields (attr : string -> option value) : option RGB :=
  let r := field_of attr ["r"] in
  let g := field_of attr ["g"] in
  let b := field_of attr ["b"] in
  if is_not_none r && is_not_none g && is_not_none b
  then channels r g b else None.

(** The text of the [color]/[colour]/[clr] column, stripped and without
    its leading [#]. *)
Definition color_text (attr : string -> option value) : option string :=
  match field_of attr ["color"; "colour"; "clr"] with
  | VStr cv =>
      let s := strip cv in
      Some (if startswith "#" s then drop_str 1 s else s)
  | _ => None
  end.

Definition hex_pair (a b : ascii) : Z := 16 * hex_val a + hex_val b.

(** Step 3: six hexadecimal digits. *)
Definition step_hex (attr : string -> option value) : option RGB :=
  s ← color_text attr;
  match s with
  | String r1 (String r2 (String g1 (String g2 (String b1 (String b2
      EmptyString))))) =>
      if all_str ishex_char s
      then Some (hex_pair r1 r2, hex_pair g1 g2, hex_pair b1 b2)
      else None
  | _ => None
  end.

(** Step 4: three comma-separated decimal parts. *)
Definition step_csv (attr : string -> option value) : option RGB :=
  s ← color_text attr;
  match map strip (split "," (delete_char ")" (delete_char "(" s))) with
  | [a; b; c] => channels (VStr a) (VStr b) (VStr c)
  | _ => None
  end.

(** Step 5: the [aci]/[autocadcolorindex] column, through the table. *)
Definition step_aci (aci2rgb : Z -> Res RGB) (attr : string -> option value)
    : option RGB :=
  let v := field_of attr ["aci"; "autocadcolorindex"] in
  if is_not_none v then
    aci ← to_int v;
    if (aci =? 0) || (aci =? 256) then None
    else match aci2rgb aci with
         | Ok c => Some c
         | Raise _ => None
         end
  else None.

(** The first step that gives a colour wins. *)
Fixpoint first_success (steps : list (option RGB)) (default : RGB) : RGB :=
  match steps with
  | [] => default
  | Some c :: _ => c
  | None :: rest => first_success rest default
  end.

Definition steps (aci2rgb : Z -> Res RGB) (attr : string -> option value)
    : list (option RGB) :=
  [step_rgb_text attr; step_rgb_fields attr; step_hex attr; step_csv attr;
   step_aci aci2rgb attr].

Definition decode (aci2rgb : Z -> Res RGB) (attr : string -> option value)
    : RGB :=
  first_success (steps aci2rgb attr) (0, 0, 0).

End Resolver.

(* ===================================================================== *)
(** * The shapefile codec between the two converters                      *)
(* ===================================================================== *)

Module Codec.

(** The start index of each part in the flat point list, counting from
    [n]. *)
Fixpoint starts_from {P} (n : Z) (parts : list (list P)) : list Z :=
  match parts with
  | [] => []
  | p :: ps => n :: starts_from (n + Z.of_nat (length p)) ps
  end.

(** Modelled from the spec: the tabular vector codec (pyshp) is a library
    outside the repository.  Its interface stores a shape as a flat point
    list with a parts start-index array, so what a reader delivers for a
    shape handed to a writer is the concatenation of the parts and their
    start indices, under the shape type of the call. *)
Definition read_back {P} (call : dxf2shp.ShapeCall P) : shp2dxf.Shape P :=
  match call with
  | dxf2shp.point xy => shp2dxf.mkShape shp2dxf.POINT [xy] (Some [])
  | dxf2shp.line parts =>
      shp2dxf.mkShape shp2dxf.POLYLINE (concat parts) (Some (starts_from 0 parts))
  | dxf2shp.poly parts =>
      shp2dxf.mkShape shp2dxf.POLYGON (concat parts) (Some (starts_from 0 parts))
  end.

End Codec.

(* ===================================================================== *)
(** * Predicates used in the statements                                   *)
(* ===================================================================== *)

(** Start indices in ascending order. *)
Fixpoint ascending (l : list Z) : bool :=
  match l with
  | a :: (b :: _) as t => (a <=? b) && ascending t
  | _ => true
  end.

(** Every start index lies within a point list of length [n]. *)
Definition within (n : nat) (l : list Z) : bool :=
  forallb (fun i => (0 <=? i) && (i <=? Z.of_nat n)) l.

(** The points of [pts] from index [a] up to, not including, index [b]. *)
Definition segment {P} (pts : list P) (a b : Z) : list P :=
  take (Z.to_nat b - Z.to_nat a) (drop (Z.to_nat a) pts).

(** A two-digit zone as it is typed: [05], [33], [99]. *)
Definition two_digits (z : Z) : string :=
  String (ascii_of_N (Z.to_N (z / 10) + 48))
    (String (ascii_of_N (Z.to_N (z mod 10) + 48)) EmptyString).

(** A colour whose three channels lie in [0..255]. *)
Definition is_color (c : RGB) : bool :=
  let '(R, G, B) := c in
  shp2dxf.in_byte R && shp2dxf.in_byte G && shp2dxf.in_byte B.

(** A sample indexed-colour table: the seven named colours; every other
    index raises. *)
Definition aci2rgb_named (i : Z) : Py.Res RGB :=
  match i with
  | 1 => Py.Ok (255, 0, 0)
  | 2 => Py.Ok (255, 255, 0)
  | 3 => Py.Ok (0, 255, 0)
  | 4 => Py.Ok (0, 255, 255)
  | 5 => Py.Ok (0, 0, 255)
  | 6 => Py.Ok (255, 0, 255)
  | 7 => Py.Ok (255, 255, 255)
  | _ => Py.Raise Py.IndexError
  end.

(** [ezdxf.colors.int2rgb]: the three bytes of a 24-bit colour. *)
Definition int2rgb_bytes (v : Z) : RGB :=
  (Z.land (Z.shiftr v 16) 255, Z.land (Z.shiftr v 8) 255, Z.land v 255).

(* ===================================================================== *)
(** * Sample inputs and checkers                                          *)
(* ===================================================================== *)

(** A closed three-vertex polyline on layer "A" with a true colour, and
    a drawing without layers, as sample inputs. *)
Definition sample_triangle : dxf2shp.Entity (Z * Z) :=
  dxf2shp.mkEntity (dxf2shp.LWPOLYLINE [(0, 0); (4, 0); (4, 3)])
    (Some "A") (Some 16711680) None (dxf2shp.Bool true) dxf2shp.Absent.

Definition no_layers : dxf2shp.Drawing := dxf2shp.mkDrawing (fun _ => None).

(** An entity whose colour index is 257 ("by object"). *)
Definition sample_byobject : dxf2shp.Entity (Z * Z) :=
  dxf2shp.mkEntity (dxf2shp.POINT (10, 20)) (Some "A") None (Some 257)
    dxf2shp.Absent dxf2shp.Absent.

(** A built descriptor as [parse_choice] returns it for a typed token:
    the name with the suffix [" (WKT built)"], and the WKT. *)
Definition built (d : string * string) : string * string :=
  (fst d +:+ " (WKT built)", snd d).

(** The tokens of the pattern [((EUREF89|ETRS89)/)?UTM(\d{2})N?] for a
    zone, in upper case. *)
Definition euref_utm_tokens (z : Z) : list string :=
  [ "UTM" +:+ two_digits z; "UTM" +:+ two_digits z +:+ "N";
    "EUREF89/UTM" +:+ two_digits z; "EUREF89/UTM" +:+ two_digits z +:+ "N";
    "ETRS89/UTM" +:+ two_digits z; "ETRS89/UTM" +:+ two_digits z +:+ "N" ].

(** The tokens of the pattern [(WGS|WGS84)/UTM(\d{2})N?] for a zone, in
    upper case. *)
Definition wgs_utm_tokens (z : Z) : list string :=
  [ "WGS/UTM" +:+ two_digits z; "WGS/UTM" +:+ two_digits z +:+ "N";
    "WGS84/UTM" +:+ two_digits z; "WGS84/UTM" +:+ two_digits z +:+ "N" ].

(** The label and the WKT of a catalogue entry. *)
Definition entry_choice (o : string * string * string) : string * string :=
  (fst (fst o), snd o).

Definition entry_key (o : string * string * string) : string := snd (fst o).

(** The two sidecar paths of a shapefile path. *)
Definition prj_of (shp_path : string) : string :=
  fst (makePrj4shp.splitext shp_path) +:+ ".prj".
Definition cpg_of (shp_path : string) : string :=
  fst (makePrj4shp.splitext shp_path) +:+ ".cpg".

(** Whether a result of [parse_choice] is the given (label, wkt). *)
Definition choice_is (d : string * string) (r : Py.Res (string * string))
    : bool :=
  match r with
  | Py.Ok (l, w) => String.eqb l (fst d) && String.eqb w (snd d)
  | Py.Raise _ => false
  end.

(** What [parse_choice] matches its patterns against: the input
    stripped, in upper case, without blanks. *)
Definition normal_form (s : string) : string :=
  Py.delete_char " " (Py.upper (Py.strip s)).

(** Whether [t] is a normal form that is not an index and is parsed to
    [d]; a token that is not an index is parsed without looking at the
    options. *)
Definition token_gives (d : string * string) (t : string) : bool :=
  negb (Py.isdigit t) && String.eqb (Py.strip t) t &&
  String.eqb (normal_form t) t &&
  choice_is d (makePrj4shp.parse_choice t []).

(** The zones a two-digit token can name. *)
Definition two_digit_zones : list Z := map Z.of_nat (seq 0 100).

(** Whether [str(n)] is made of digits that [int] reads back as [n]. *)
Definition reads_back (n : Z) : bool :=
  Py.all_str Py.isdigit_char (Py.str_of_int n) &&
  match Py.int_of_str (Py.str_of_int n) with
  | Some m => m =? n
  | None => false
  end.

(** The integers of a colour channel. *)
Definition byte_values : list Z := map Z.of_nat (seq 0 256).

(** A record has a value for every column of its schema. *)
Definition aligned (rec : list Py.value) (field_names_lower : list string)
    : Prop :=
  (length field_names_lower <= length rec)%nat.

(** A drawing with the layers "A" (no colour of its own) and "B"
    (colour index 5), and three entities on them. *)
Definition sample_drawing : dxf2shp.Drawing :=
  dxf2shp.mkDrawing (fun name =>
    if String.eqb name "A" then Some (dxf2shp.mkLayer None)
    else if String.eqb name "B" then Some (dxf2shp.mkLayer (Some 5))
    else None).

Definition sample_entities : list (dxf2shp.Entity (Z * Z)) :=
  [ dxf2shp.mkEntity (dxf2shp.POINT (10, 20)) (Some "A") (Some 16711680) None
      dxf2shp.Absent dxf2shp.Absent;
    dxf2shp.mkEntity (dxf2shp.LWPOLYLINE [(0, 0); (1, 0); (1, 1)]) (Some "B")
      None None (dxf2shp.Bool false) (dxf2shp.Bool false);
    dxf2shp.mkEntity (dxf2shp.LWPOLYLINE [(0, 0); (2, 0); (2, 2); (0, 2)])
      (Some "A") None (Some 256) (dxf2shp.Bool true) (dxf2shp.Bool true) ].

(* ===================================================================== *)
(** * Further predicates and sample inputs                                *)
(* ===================================================================== *)

(** A part that has at least one point. *)
Definition has_points {A} (l : list A) : bool :=
  match l with
  | [] => false
  | _ :: _ => true
  end.

(** A second sample table: as [aci2rgb_named], but with colours at the
    indices 0 and 256. *)
Definition aci2rgb_sentinels (i : Z) : Py.Res RGB :=
  if (i =? 0) || (i =? 256) then Py.Ok (1, 1, 1) else aci2rgb_named i.

(** A hexadecimal digit, in upper or in lower case. *)
Definition hex_digit (upper_case : bool) (d : Z) : ascii :=
  if d <? 10 then ascii_of_N (Z.to_N d + 48)
  else ascii_of_N (Z.to_N d + (if upper_case then 55 else 87)).

(** A channel as two hexadecimal digits, and a colour as six. *)
Definition hex2 (upper_case : bool) (n : Z) : string :=
  String (hex_digit upper_case (n / 16))
    (String (hex_digit upper_case (n mod 16)) EmptyString).

Definition hex_text (upper_case : bool) (c : RGB) : string :=
  let '(R, G, B) := c in
  hex2 upper_case R +:+ hex2 upper_case G +:+ hex2 upper_case B.

(** Whether the two digits of [n], in either case, are hexadecimal digits
    whose value is [n]. *)
Definition hex_reads_back (n : Z) : bool :=
  forallb
    (fun u =>
       Py.ishex_char (hex_digit u (n / 16)) &&
       Py.ishex_char (hex_digit u (n mod 16)) &&
       (Resolver.hex_pair (hex_digit u (n / 16)) (hex_digit u (n mod 16)) =? n))
    [true; false].

(** A colour as the text [(R, G, B)]. *)
Definition csv_text (c : RGB) : string :=
  let '(R, G, B) := c in
  "(" +:+ Py.str_of_int R +:+ ", " +:+ Py.str_of_int G +:+ ", " +:+
  Py.str_of_int B +:+ ")".

(** The number counted for a kind. *)
Definition count_of (c : dxf2shp.Counts) (k : dxf2shp.Kind) : nat :=
  match k with
  | dxf2shp.points => dxf2shp.n_points c
  | dxf2shp.lines => dxf2shp.n_lines c
  | dxf2shp.polygons => dxf2shp.n_polygons c
  end.

Definition kind_eqb (k k' : dxf2shp.Kind) : bool :=
  match k, k' with
  | dxf2shp.points, dxf2shp.points
  | dxf2shp.lines, dxf2shp.lines
  | dxf2shp.polygons, dxf2shp.polygons => true
  | _, _ => false
  end.

(** The output an entity belongs to. *)
Definition kind_of {P} (e : dxf2shp.Entity P) : dxf2shp.Kind :=
  match dxf2shp.geometry e with
  | dxf2shp.POINT _ => dxf2shp.points
  | dxf2shp.LINE _ _ => dxf2shp.lines
  | dxf2shp.LWPOLYLINE pts | dxf2shp.POLYLINE pts =>
      if dxf2shp.is_closed e && (3 <=? length pts)%nat
      then dxf2shp.polygons else dxf2shp.lines
  end.

(** The entities of a drawing that belong to an output, in drawing order. *)
Definition of_kind {P} (k : dxf2shp.Kind) (entities : list (dxf2shp.Entity P))
    : list (dxf2shp.Entity P) :=
  List.filter (fun e => kind_eqb (kind_of e) k) entities.

(** The shape written for an entity. *)
Definition shape_of {P} `{EqDecision P} (e : dxf2shp.Entity P)
    : dxf2shp.ShapeCall P :=
  match dxf2shp.geometry e with
  | dxf2shp.POINT xy => dxf2shp.point xy
  | dxf2shp.LINE p1 p2 => dxf2shp.line [[p1; p2]]
  | dxf2shp.LWPOLYLINE pts | dxf2shp.POLYLINE pts =>
      if dxf2shp.is_closed e && (3 <=? length pts)%nat
      then dxf2shp.poly [dxf2shp.close_if_needed pts]
      else dxf2shp.line [pts]
  end.

(** An entity that the shapefile writer accepts: a polyline has at least
    one point (the writer raises on a part without points). *)
Definition has_vertices {P} (e : dxf2shp.Entity P) : bool :=
  match dxf2shp.geometry e with
  | dxf2shp.LWPOLYLINE pts | dxf2shp.POLYLINE pts => has_points pts
  | _ => true
  end.

(** The record written for an entity whose colour is [c]. *)
Definition record_of {P} (e : dxf2shp.Entity P) (c : RGB)
    : string * string * string :=
  (default "" (dxf2shp.dxf_layer e), dxf2shp.dxftype e, dxf2shp.rgb_text c).

(** The [.cpg] path of an output. *)
Definition cpg_path (base_out : string) (k : dxf2shp.Kind) : string :=
  (base_out +:+ "_" +:+ dxf2shp.kind_name k) +:+ ".cpg".

Definition kinds : list dxf2shp.Kind :=
  [dxf2shp.points; dxf2shp.lines; dxf2shp.polygons].

(** Whether the writer of an output has been created. *)
Definition created {P} (ws : dxf2shp.WriterSet P) (k : dxf2shp.Kind) : bool :=
  match dxf2shp.writer_of ws k with
  | Some _ => true
  | None => false
  end.

(** The tokens of the pattern [NTM/(\d{1,2})] for a zone: the zone as
    [str] writes it, and with two digits. *)
Definition ntm_tokens (z : Z) : list string :=
  [ "NTM/" +:+ Py.str_of_int z; "NTM/" +:+ two_digits z ].

(** The two errors [parse_choice] raises for a token. *)
Definition ntm_zone_error : Py.exn :=
  Py.ValueError "NTM zone must be 5–20 for mainland Norway.".

Definition unrecognized_input : Py.exn :=
  Py.ValueError
    ("Unrecognized input. Use index (1..N), 'UTM33' (EUREF), " +:+
     "'WGS/UTM32' or 'WGS84/UTM32' (WGS), 'EUREF89/UTM35', or 'NTM/10'.").

(** What an NTM token of a zone is parsed to. *)
Definition ntm_choice (z : Z) : Py.Res (string * string) :=
  if (5 <=? z) && (z <=? 20) then Py.Ok (built (makePrj4shp.wkt_ntm z))
  else Py.Raise ntm_zone_error.

(** Whether two results of [parse_choice] are the same descriptor or the
    same [ValueError]. *)
Definition same_choice (r r' : Py.Res (string * string)) : bool :=
  match r, r' with
  | Py.Ok d, _ => choice_is d r'
  | Py.Raise (Py.ValueError m), Py.Raise (Py.ValueError m') => String.eqb m m'
  | _, _ => false
  end.

(** Whether [t] is a normal form that is not an index and is parsed to
    [r]. *)
Definition token_parses (r : Py.Res (string * string)) (t : string) : bool :=
  negb (Py.isdigit t) && String.eqb (Py.strip t) t &&
  String.eqb (normal_form t) t &&
  same_choice r (makePrj4shp.parse_choice t []).

(** Whether typing the key of a catalogue entry selects the WKT of the
    entry, and whether typing its position selects the entry. *)
Definition key_selects (o : string * string * string) : bool :=
  negb (Py.isdigit (entry_key o)) && String.eqb (Py.strip (entry_key o)) (entry_key o) &&
  String.eqb (normal_form (entry_key o)) (entry_key o) &&
  match makePrj4shp.parse_choice (entry_key o) [] with
  | Py.Ok (_, wkt) => String.eqb wkt (snd o)
  | Py.Raise _ => false
  end.

Definition position_selects (i : nat) (o : string * string * string) : bool :=
  choice_is (entry_choice o)
    (makePrj4shp.parse_choice (Py.str_of_int (Z.of_nat i + 1))
       makePrj4shp.build_options).

(** The ten digits. *)
Definition digits : list ascii :=
  ["0"; "1"; "2"; "3"; "4"; "5"; "6"; "7"; "8"; "9"]%char.

(** A text without the character [x]. *)
Definition without (x : ascii) (s : string) : bool :=
  Py.all_str (fun c => negb (Ascii.eqb c x)) s.

(** A directory prefix: nothing, or a text that ends with a slash. *)
Definition is_dir_prefix (dir : string) : bool :=
  String.eqb dir "" || Py.endswith "/" dir.

(** An entity added to the model space, its attributes left out, and the
    points it is drawn through. *)
Definition without_attribs {P A} (x : shp2dxf.Added P A) : shp2dxf.Added P unit :=
  match x with
  | shp2dxf.add_point p _ => shp2dxf.add_point p tt
  | shp2dxf.add_lwpolyline pts close _ => shp2dxf.add_lwpolyline pts close tt
  end.

Definition points_of {P A} (x : shp2dxf.Added P A) : list P :=
  match x with
  | shp2dxf.add_point p _ => [p]
  | shp2dxf.add_lwpolyline pts _ _ => pts
  end.

(** A shape of one part: no parts attribute, or the single start 0. *)
Definition single_part {P} (shape : shp2dxf.Shape P) : bool :=
  match shp2dxf.parts shape with
  | None => true
  | Some [0] => true
  | Some _ => false
  end.

(** The folder as [os.path.join] puts it in front of a file name. *)
Definition dir_of (folder : string) : string :=
  if String.eqb folder "" || Py.endswith "/" folder then folder
  else folder +:+ "/".

(** A text that is empty or starts with a character outside [p]. *)
Definition starts_outside (p : ascii -> bool) (s : string) : bool :=
  match s with
  | EmptyString => true
  | String c _ => negb (p c)
  end.

(* ===================================================================== *)
(** * The embedding on concrete inputs                                    *)
(* ===================================================================== *)

Section traces.
Import Py.

Example int_of_str_traces :
  int_of_str " 12 " = Some 12 /\ int_of_str "+1_0" = Some 10 /\
  int_of_str "-007" = Some (-7) /\ int_of_str "1__0" = None /\
  int_of_str "_1" = None /\ int_of_str "" = None /\ int_of_str "0x10" = None /\
  int_of_str "1 2" = None.
Proof. repeat split; reflexivity. Qed.

Example split_traces :
  split "," "1,2,3" = ["1"; "2"; "3"] /\ split "," "" = [""] /\
  split "," ",a," = [""; "a"; ""].
Proof. repeat split; reflexivity. Qed.

Example slice_traces :
  slice_str "rgb(1,2,3)" 4 (-1) = "1,2,3" /\ slice_str "ab" 4 (-1) = "" /\
  slice [1; 2; 3; 4] 1 3 = [2; 3] /\ slice [1; 2; 3; 4] 3 1 = [] /\
  slice [1; 2; 3; 4] (-1) 10 = [4].
Proof. repeat split; reflexivity. Qed.

Example strip_traces :
  strip "  ab c  " = "ab c" /\ upper "wgs84/utm33n" = "WGS84/UTM33N" /\
  endswith ")" "rgb()" = true /\ endswith ")" "" = false.
Proof. repeat split; reflexivity. Qed.

Example format_traces :
  format (Float (mkDec 9996 4)) = "0.9996" /\
  format (Float (mkDec 5000000 1)) = "500000.0" /\
  format (Float (add_int_dec 10 (mkDec 5 1))) = "10.5" /\
  format (Int (6 * 33 - 183)) = "15" /\ format (Int (6 * 10 - 183)) = "-123".
Proof. repeat split; reflexivity. Qed.

Example splitext_traces :
  makePrj4shp.splitext "a/b.c/d.shp" = ("a/b.c/d", ".shp") /\
  makePrj4shp.splitext "a.b/c" = ("a.b/c", "") /\
  makePrj4shp.splitext "a/.shp" = ("a/.shp", "") /\
  makePrj4shp.splitext "..a.shp" = ("..a", ".shp").
Proof. repeat split; reflexivity. Qed.

(** The decoder, one record per step of the chain. *)
Example decoder_traces :
  shp2dxf._parse_rgb_from_record aci2rgb_named
    [VStr "A"; VStr "#ff00Aa"; VInt 1] ["layer"; "color"; "aci"]
  = Ok (255, 0, 170) /\
  shp2dxf._parse_rgb_from_record aci2rgb_named
    [VStr "A"; VStr "(1, 2, 3)"; VInt 1] ["layer"; "colour"; "aci"]
  = Ok (1, 2, 3) /\
  shp2dxf._parse_rgb_from_record aci2rgb_named
    [VStr "A"; VStr "(1, 2,300)"; VInt 1] ["layer"; "clr"; "aci"]
  = Ok (255, 0, 0) /\
  shp2dxf._parse_rgb_from_record aci2rgb_named
    [VInt 10; VStr " 20"; VBool true] ["r"; "g"; "b"]
  = Ok (10, 20, 1) /\
  shp2dxf._parse_rgb_from_record aci2rgb_named
    [VStr "A"; VInt 256; VNone] ["layer"; "aci"; "color"]
  = Ok (0, 0, 0) /\
  shp2dxf._parse_rgb_from_record aci2rgb_named
    [VStr "A"; VInt 999] ["layer"; "aci"]
  = Ok (0, 0, 0).
Proof. repeat split; reflexivity. Qed.

(** A record shorter than its schema makes the subscript raise. *)
Example decoder_short_record :
  shp2dxf._parse_rgb_from_record aci2rgb_named [VStr "A"] ["layer"; "color"]
  = Raise IndexError.
Proof. reflexivity. Qed.

(** The range of the NTM zones. *)
Example ntm_range :
  makePrj4shp.parse_choice "NTM/4" makePrj4shp.build_options
  = Raise (ValueError "NTM zone must be 5–20 for mainland Norway.") /\
  makePrj4shp.parse_choice "NTM/21" makePrj4shp.build_options
  = Raise (ValueError "NTM zone must be 5–20 for mainland Norway.") /\
  makePrj4shp.parse_choice "NTM/5" makePrj4shp.build_options
  = Ok (built (makePrj4shp.wkt_ntm 5)) /\
  makePrj4shp.parse_choice "ntm/20" makePrj4shp.build_options
  = Ok (built (makePrj4shp.wkt_ntm 20)).
Proof. repeat split; vm_compute; reflexivity. Qed.

(** Tokens are read in any case, with blanks dropped. *)
Example token_normalised :
  makePrj4shp.parse_choice " utm 33n " [] = Ok (built (makePrj4shp.wkt_utm_euref89 33)) /\
  makePrj4shp.parse_choice "wgs/Utm32" [] = Ok (built (makePrj4shp.wkt_utm_wgs84 32)) /\
  makePrj4shp.parse_choice "1 2" makePrj4shp.build_options
  = Raise (ValueError
      ("Unrecognized input. Use index (1..N), 'UTM33' (EUREF), " +:+
       "'WGS/UTM32' or 'WGS84/UTM32' (WGS), 'EUREF89/UTM35', or 'NTM/10'.")).
Proof. repeat split; vm_compute; reflexivity. Qed.

Example wkt_utm_euref89_33 :
  snd (makePrj4shp.wkt_utm_euref89 33)
  = "PROJCS[" +:+ dq +:+ "EUREF89 / UTM zone 33N" +:+ dq +:+
    ",GEOGCS[" +:+ dq +:+ "ETRS89" +:+ dq +:+
    ",DATUM[" +:+ dq +:+ "ETRS_1989" +:+ dq +:+
    ",SPHEROID[" +:+ dq +:+ "GRS 1980" +:+ dq +:+ ",6378137,298.257222101]]" +:+
    ",PRIMEM[" +:+ dq +:+ "Greenwich" +:+ dq +:+ ",0]" +:+
    ",UNIT[" +:+ dq +:+ "degree" +:+ dq +:+ ",0.0174532925199433]]" +:+
    ",PROJECTION[" +:+ dq +:+ "Transverse_Mercator" +:+ dq +:+ "]" +:+
    ",PARAMETER[" +:+ dq +:+ "latitude_of_origin" +:+ dq +:+ ",0]" +:+
    ",PARAMETER[" +:+ dq +:+ "central_meridian" +:+ dq +:+ ",15]" +:+
    ",PARAMETER[" +:+ dq +:+ "scale_factor" +:+ dq +:+ ",0.9996]" +:+
    ",PARAMETER[" +:+ dq +:+ "false_easting" +:+ dq +:+ ",500000.0]" +:+
    ",PARAMETER[" +:+ dq +:+ "false_northing" +:+ dq +:+ ",0.0]" +:+
    ",UNIT[" +:+ dq +:+ "metre" +:+ dq +:+ ",1]]".
Proof. vm_compute. reflexivity. Qed.

(** One drawing with a red point on layer "A", an open three-vertex
    polyline on layer "B" (colour index 5) and a closed four-vertex
    polyline on layer "A": one point, one line, one polygon whose ring has
    five points, and the point's record carries [rgb(255,0,0)]. *)
Example end_to_end :
  dxf2shp.convert_one_dxf int2rgb_bytes aci2rgb_named "out/plan" sample_drawing
    sample_entities ∅
  = Ok (dxf2shp.mkWriterSet "out/plan"
          (Some (dxf2shp.mkWriter [dxf2shp.point (10, 20)]
                   [("A", "POINT", "rgb(255,0,0)")]))
          (Some (dxf2shp.mkWriter [dxf2shp.line [[(0, 0); (1, 0); (1, 1)]]]
                   [("B", "LWPOLYLINE", "rgb(0,0,255)")]))
          (Some (dxf2shp.mkWriter
                   [dxf2shp.poly [[(0, 0); (2, 0); (2, 2); (0, 2); (0, 0)]]]
                   [("A", "LWPOLYLINE", "rgb(255,255,255)")]))
          (dxf2shp.mkCounts 1 1 1),
        {[ "out/plan_points.cpg" := "UTF-8";
           "out/plan_lines.cpg" := "UTF-8";
           "out/plan_polygons.cpg" := "UTF-8" ]}).
Proof. vm_compute. reflexivity. Qed.

End traces.

(* ===================================================================== *)
(** * Properties of src/shp2dxf.py: multipart splitting                   *)
(* ===================================================================== *)

Section split_parts.
Import Py shp2dxf.
Context {P : Type}.
Implicit Types (pts : list P) (parts idxs : list Z).

Lemma slice_segment pts a b :
  0 <= a -> a <= b -> b <= Z.of_nat (length pts) ->
  slice pts a b = segment pts a b.
Proof.
  intros Ha Hab Hb. unfold slice, segment, slice_bound.
  destruct (Z.ltb_spec a 0); [lia|]. destruct (Z.ltb_spec b 0); [lia|].
  rewrite !Z.min_l by lia. f_equal. lia.
Qed.

Lemma take_drop_chain pts (x y z : nat) :
  (x <= y)%nat -> (y <= z)%nat ->
  take (y - x) (drop x pts) ++ take (z - y) (drop y pts)
  = take (z - x) (drop x pts).
Proof.
  intros Hxy Hyz.
  replace (drop y pts) with (drop (y - x) (drop x pts))
    by (rewrite drop_drop; f_equal; lia).
  rewrite take_take_drop. f_equal. lia.
Qed.

Lemma segment_app pts a b c :
  0 <= a -> a <= b -> b <= c ->
  segment pts a b ++ segment pts b c = segment pts a c.
Proof.
  intros Ha Hab Hbc. unfold segment. apply take_drop_chain; lia.
Qed.

Lemma segment_all pts : segment pts 0 (Z.of_nat (length pts)) = pts.
Proof.
  unfold segment. rewrite Nat2Z.id. simpl. rewrite Nat.sub_0_r.
  apply firstn_all.
Qed.

Lemma pieces_step (f : Z -> Z -> list P) a idxs n :
  map (fun i => f (nth i (a :: idxs) 0) (nth (S i) (a :: idxs) 0)) (seq 0 (S n))
  = f a (nth 0 idxs 0)
    :: map (fun i => f (nth i idxs 0) (nth (S i) idxs 0)) (seq 0 n).
Proof.
  simpl. f_equal. rewrite <- seq_shift, map_map. reflexivity.
Qed.

Lemma ascending_cons a b l : ascending (a :: b :: l) = true -> a <= b /\ ascending (b :: l) = true.
Proof. simpl. intros [H1 H2]%andb_prop. split; [lia | done]. Qed.

Lemma concat_pieces pts parts a :
  ascending (a :: parts) = true ->
  within (length pts) (a :: parts) = true ->
  concat (map (fun i => slice pts (nth i ((a :: parts) ++ [Z.of_nat (length pts)]) 0)
                              (nth (S i) ((a :: parts) ++ [Z.of_nat (length pts)]) 0))
              (seq 0 (length (a :: parts))))
  = segment pts a (Z.of_nat (length pts)).
Proof.
  revert a. induction parts as [|b parts IH]; intros a Hasc Hin.
  - simpl in *. rewrite app_nil_r. apply slice_segment; lia.
  - apply ascending_cons in Hasc as [Hab Hasc].
    assert (Hin' : within (length pts) (b :: parts) = true)
      by (simpl in *; apply andb_prop in Hin as [_ Hin]; exact Hin).
    assert (Ha : 0 <= a) by (simpl in Hin; lia).
    assert (Hb : b <= Z.of_nat (length pts)) by (simpl in Hin'; lia).
    change (length (a :: b :: parts)) with (S (length (b :: parts))).
    change ((a :: b :: parts) ++ [Z.of_nat (length pts)])
      with (a :: ((b :: parts) ++ [Z.of_nat (length pts)])).
    rewrite (pieces_step (slice pts)). cbn [concat].
    rewrite IH by done. cbn [nth app].
    rewrite slice_segment by lia. apply segment_app; lia.
Qed.

Lemma ascending_lookup parts i a b :
  ascending parts = true -> parts !! i = Some a -> parts !! S i = Some b -> a <= b.
Proof.
  revert i. induction parts as [|x parts IH]; intros i Hasc Ha Hb; [done|].
  destruct parts as [|y parts]; [done|].
  apply ascending_cons in Hasc as [Hxy Hasc].
  destruct i as [|i]; simpl in *; [congruence | eauto].
Qed.

Lemma within_lookup n parts i a :
  within n parts = true -> parts !! i = Some a -> 0 <= a <= Z.of_nat n.
Proof.
  unfold within. rewrite forallb_forall. intros H Hi.
  apply list_elem_of_lookup_2, list_elem_of_In, H in Hi. lia.
Qed.

(** C10 (as amended): for a parts array that starts at index 0, is in
    ascending order and stays within the point list, the splitter yields
    one part per start index, the i-th being the points from its start
    index up to the next start index (the end of the list for the last
    one), and the parts concatenated in order are the point list. *)
Theorem split_parts_partition ty pts parts :
  head parts = Some 0 ->
  ascending parts = true ->
  within (length pts) parts = true ->
  let shape := mkShape ty pts (Some parts) in
  length (_split_parts shape) = length parts /\
  (forall i a, parts !! i = Some a ->
     _split_parts shape !! i
     = Some (segment pts a (default (Z.of_nat (length pts)) (parts !! S i)))) /\
  concat (_split_parts shape) = pts.
Proof.
  intros Hhd Hasc Hin shape. unfold shape, _split_parts. cbn [points shp2dxf.parts default from_option id].
  split; [by rewrite length_map, length_seq|]. split.
  - intros i a Hi.
    assert (Hlt : (i < length parts)%nat) by (eapply lookup_lt_Some; eauto).
    rewrite list_lookup_fmap, lookup_seq_lt by done. cbn [fmap option_fmap option_map Nat.add].
    f_equal.
    rewrite (nth_lookup_Some _ i 0 a) by (by rewrite lookup_app_l).
    pose proof (within_lookup _ _ _ _ Hin Hi) as Ha.
    destruct (parts !! S i) as [b|] eqn:Hb; cbn [default from_option id].
    + rewrite (nth_lookup_Some _ (S i) 0 b)
        by (rewrite lookup_app_l; [done | eapply lookup_lt_Some; eauto]).
      pose proof (within_lookup _ _ _ _ Hin Hb).
      pose proof (ascending_lookup _ _ _ _ Hasc Hi Hb).
      apply slice_segment; unfold id; lia.
    + apply lookup_ge_None in Hb.
      rewrite (nth_lookup_Some _ (S i) 0 (Z.of_nat (length pts))).
      * apply slice_segment; unfold id; lia.
      * rewrite lookup_app_r by lia.
        replace (S i - length parts)%nat with 0%nat by lia. done.
  - destruct parts as [|a parts]; [done|]. injection Hhd as ->.
    rewrite concat_pieces by done. apply segment_all.
Qed.

End split_parts.

Lemma split_parts_partition_witness :
  concat (shp2dxf._split_parts (shp2dxf.mkShape shp2dxf.POLYGON [1; 2; 3; 4; 5] (Some [0; 2])))
  = [1; 2; 3; 4; 5].
Proof.
  apply (split_parts_partition shp2dxf.POLYGON [1; 2; 3; 4; 5] [0; 2]); reflexivity.
Defined.

(** C10 (as stated) fails: the start indices [1] are ascending and lie
    within the two-point list, yet the first point is dropped. *)
Lemma split_parts_nonzero_start :
  ~ (forall (pts : list Z) (parts : list Z),
       ascending parts = true -> within (length pts) parts = true ->
       concat (shp2dxf._split_parts (shp2dxf.mkShape shp2dxf.POLYLINE pts (Some parts))) = pts).
Proof.
  intros H. specialize (H [10; 20] [1] eq_refl eq_refl). discriminate H.
Qed.

(* ===================================================================== *)
(** * Properties of src/shp2dxf.py: the colour of a record                *)
(* ===================================================================== *)

Section strings.
Import Py.
Implicit Types (s a b x : string) (c sep : ascii).

Lemma append_cons c a b : String c a +:+ b = String c (a +:+ b).
Proof. reflexivity. Qed.

Lemma append_nil a : EmptyString +:+ a = a.
Proof. reflexivity. Qed.

Lemma append_assoc a b x : (a +:+ b) +:+ x = a +:+ (b +:+ x).
Proof.
  induction a as [|c a IH]; [done|]. by rewrite !append_cons, IH.
Qed.

Lemma endswith_append suf a b :
  endswith suf b = true -> endswith suf (a +:+ b) = true.
Proof.
  intros Hb. induction a as [|c a IH]; [done|].
  rewrite append_cons. cbn [endswith]. rewrite IH. apply orb_true_r.
Qed.

Lemma take_str_append a b : take_str (String.length a) (a +:+ b) = a.
Proof.
  induction a as [|c a IH]; [by destruct b|].
  rewrite append_cons. cbn [String.length take_str]. by rewrite IH.
Qed.

Lemma length_str_append a b :
  String.length (a +:+ b) = (String.length a + String.length b)%nat.
Proof.
  induction a as [|c a IH]; [done|].
  rewrite append_cons. cbn [String.length]. by rewrite IH.
Qed.

Lemma slice_rgb_body body :
  slice_str ("rgb(" +:+ body +:+ ")") 4 (-1) = body.
Proof.
  unfold slice_str, slice_bound.
  rewrite !length_str_append. cbn [String.length].
  destruct (Z.ltb_spec 4 0); [lia|]. destruct (Z.ltb_spec (-1) 0); [|lia].
  rewrite Z.min_l, Z.max_l by lia.
  replace (Z.to_nat _) with (String.length body) by lia.
  change (Z.to_nat 4) with 4%nat.
  change ("rgb(" +:+ body +:+ ")") with (String "r" (String "g" (String "b" (String "(" (body +:+ ")"))))).
  cbn [drop_str]. apply take_str_append.
Qed.

Lemma split_append_sep sep a rest :
  all_str (fun c => negb (Ascii.eqb c sep)) a = true ->
  split sep (a +:+ String sep rest) = a :: split sep rest.
Proof.
  induction a as [|c a IH].
  - intros _. rewrite append_nil. cbn [split]. by rewrite Ascii.eqb_refl.
  - cbn [all_str]. intros [Hc Ha]%andb_prop. apply negb_true_iff in Hc.
    rewrite append_cons. cbn [split]. by rewrite Hc, IH.
Qed.

Lemma split_no_sep sep a :
  all_str (fun c => negb (Ascii.eqb c sep)) a = true -> split sep a = [a].
Proof.
  induction a as [|c a IH]; simpl; [done|].
  intros [Hc Ha]%andb_prop. apply negb_true_iff in Hc.
  by rewrite Hc, IH.
Qed.

Lemma all_str_impl (p q : ascii -> bool) s :
  (forall c, p c = true -> q c = true) ->
  all_str p s = true -> all_str q s = true.
Proof.
  intros Hpq. induction s as [|c s IH]; simpl; [done|].
  intros [Hc Hs]%andb_prop. by rewrite (Hpq c Hc), IH.
Qed.

Lemma digit_not_comma c : isdigit_char c = true -> negb (Ascii.eqb c ",") = true.
Proof.
  intros Hd. apply negb_true_iff. destruct (Ascii.eqb_spec c ","); [|done].
  subst. discriminate Hd.
Qed.

Lemma byte_values_checked : forallb reads_back byte_values = true.
Proof. vm_compute. reflexivity. Qed.

Lemma in_byte_values n : shp2dxf.in_byte n = true -> In n byte_values.
Proof.
  unfold shp2dxf.in_byte. intros [H0 H1]%andb_prop.
  unfold byte_values. apply in_map_iff.
  exists (Z.to_nat n). split; [lia|]. apply in_seq. lia.
Qed.

Lemma str_of_byte n :
  shp2dxf.in_byte n = true ->
  int_of_str (str_of_int n) = Some n /\
  all_str (fun c => negb (Ascii.eqb c ",")) (str_of_int n) = true.
Proof.
  intros Hn. pose proof byte_values_checked as H.
  rewrite forallb_forall in H. specialize (H n (in_byte_values n Hn)).
  unfold reads_back in H. apply andb_prop in H as [Hd Hi]. split.
  - destruct (int_of_str (str_of_int n)) as [m|]; [|done].
    apply Z.eqb_eq in Hi. by subst.
  - eapply all_str_impl; [apply digit_not_comma | done].
Qed.

End strings.

Section record_colour.
Import Py shp2dxf.
Variable aci2rgb : Z -> Res RGB.
Implicit Types (rec : list value) (fields : list string) (d : gmap string nat).

Lemma returns_or_Ok {A} (o : option A) (rest : Res A) :
  returns_or (Ok o) rest = match o with Some c => Ok c | None => rest end.
Proof. by destruct o. Qed.

Lemma rgb_text_column_canonical d rec idx c :
  is_color c = true ->
  d !! "rgb_text" = Some idx ->
  rec !! idx = Some (VStr (dxf2shp.rgb_text c)) ->
  rgb_text_column d rec = Ok (Some c).
Proof.
  destruct c as [[R G] B]. cbn [is_color].
  intros [[HR HG]%andb_prop HB]%andb_prop Hd Hrec.
  destruct (str_of_byte R HR) as [HRi HRc].
  destruct (str_of_byte G HG) as [HGi HGc].
  destruct (str_of_byte B HB) as [HBi HBc].
  unfold rgb_text_column. rewrite Hd. unfold getitem. rewrite Hrec.
  cbn [of_option bind]. unfold dxf2shp.rgb_text.
  set (sR := str_of_int R) in *. set (sG := str_of_int G) in *.
  set (sB := str_of_int B) in *.
  assert (Hstart : startswith "rgb(" (lower ("rgb(" +:+ sR +:+ "," +:+ sG +:+ "," +:+ sB +:+ ")")) = true)
    by reflexivity.
  rewrite Hstart. clear Hstart.
  assert (Hend : endswith ")" ("rgb(" +:+ sR +:+ "," +:+ sG +:+ "," +:+ sB +:+ ")") = true)
    by (do 6 apply endswith_append; reflexivity).
  rewrite Hend. clear Hend. cbn [andb].
  replace (sR +:+ "," +:+ sG +:+ "," +:+ sB +:+ ")")
    with ((sR +:+ "," +:+ sG +:+ "," +:+ sB) +:+ ")")
    by (by rewrite !append_assoc).
  rewrite slice_rgb_body.
  change ("," +:+ sG +:+ "," +:+ sB) with (String "," (sG +:+ "," +:+ sB)).
  rewrite split_append_sep by done.
  change ("," +:+ sB) with (String "," sB).
  rewrite split_append_sep, split_no_sep by done.
  unfold three_ints, int. rewrite HRi, HGi, HBi. cbn [of_option bind].
  by rewrite HR, HG, HB.
Qed.

(** C7: a colour with its three channels in [0, 255], written as the
    text [rgb(R,G,B)] into the [rgb_text] column of a record, is what the
    decoder returns for that record, whatever its other columns hold; so
    it is for the record the DXF to shapefile converter writes under its
    fields [layer], [etype], [RGB_text], whose names the reader lowers. *)
Theorem rgb_text_round_trip rec fields idx c :
  is_color c = true ->
  name_to_idx fields !! "rgb_text" = Some idx ->
  rec !! idx = Some (VStr (dxf2shp.rgb_text c)) ->
  _parse_rgb_from_record aci2rgb rec fields = Ok c /\
  forall layer etype,
    _parse_rgb_from_record aci2rgb
      [VStr layer; VStr etype; VStr (dxf2shp.rgb_text c)]
      (map lower ["layer"; "etype"; "RGB_text"])
    = Ok c.
Proof.
  intros Hc Hd Hrec. split.
  - unfold _parse_rgb_from_record.
    by rewrite (rgb_text_column_canonical _ _ idx c).
  - intros layer etype.
    change (map lower ["layer"; "etype"; "RGB_text"])
      with ["layer"; "etype"; "rgb_text"].
    unfold _parse_rgb_from_record.
    by rewrite (rgb_text_column_canonical _ _ 2%nat c).
Qed.

Lemma name_to_idx_fold (l : list (nat * string)) d (bound : nat) :
  (forall n i, d !! n = Some i -> (i < bound)%nat) ->
  (forall i n, In (i, n) l -> (i < bound)%nat) ->
  forall n i,
    foldl (fun d '(i, n) => <[n := i]> d) d l !! n = Some i -> (i < bound)%nat.
Proof.
  revert d. induction l as [|[j m] l IH]; intros d Hd Hl n i; cbn [foldl].
  - apply Hd.
  - apply IH.
    + intros n' i'. destruct (decide (m = n')) as [-> | Hne].
      * rewrite lookup_insert_eq. intros [= <-]. apply (Hl j n'). by left.
      * rewrite lookup_insert_ne by done. apply Hd.
    + intros i' n' Hin. apply (Hl i' n'). by right.
Qed.

Lemma name_to_idx_lt fields n i :
  name_to_idx fields !! n = Some i -> (i < length fields)%nat.
Proof.
  unfold name_to_idx. apply name_to_idx_fold.
  - intros n' i'. by rewrite lookup_empty.
  - intros j m Hin. apply list_elem_of_In, list_elem_of_lookup in Hin as [k Hk].
    rewrite list_lookup_imap in Hk.
    destruct (fields !! k) as [x|] eqn:Hx; [|done].
    injection Hk as <- _. by eapply lookup_lt_Some.
Qed.

Lemma attribute_aligned rec fields n :
  aligned rec fields ->
  match name_to_idx fields !! n with
  | Some idx => exists v, rec !! idx = Some v /\
                          Resolver.attribute rec fields n = Some v
  | None => Resolver.attribute rec fields n = None
  end.
Proof.
  intros Hal. unfold Resolver.attribute.
  destruct (name_to_idx fields !! n) as [idx|] eqn:Hd; [|done].
  apply name_to_idx_lt in Hd.
  destruct (lookup_lt_is_Some_2 rec idx) as [v Hv]; [unfold aligned in Hal; lia|].
  exists v. by rewrite Hv.
Qed.

Lemma get_val_aligned rec fields names :
  aligned rec fields ->
  get_val (name_to_idx fields) rec names
  = Ok (Resolver.field_of (Resolver.attribute rec fields) (map lower names)).
Proof.
  intros Hal. induction names as [|c names IH]; [done|].
  cbn [get_val map Resolver.field_of].
  pose proof (attribute_aligned rec fields (lower c) Hal) as Ha.
  destruct (name_to_idx fields !! lower c) as [idx|].
  - destruct Ha as (v & Hv & ->). unfold getitem. by rewrite Hv.
  - by rewrite Ha.
Qed.

Lemma try_three_ints a b c :
  try_except (three_ints a b c) (Ok None) = Ok (Resolver.channels a b c).
Proof.
  unfold three_ints, Resolver.channels, Resolver.to_int.
  destruct (int a) as [R|]; [|done]. destruct (int b) as [G|]; [|done].
  destruct (int c) as [B|]; [|done]. cbn.
  by destruct (in_byte R && in_byte G && in_byte B).
Qed.

Lemma rgb_text_column_spec rec fields :
  aligned rec fields ->
  rgb_text_column (name_to_idx fields) rec
  = Ok (Resolver.step_rgb_text (Resolver.attribute rec fields)).
Proof.
  intros Hal. unfold rgb_text_column, Resolver.step_rgb_text.
  pose proof (attribute_aligned rec fields "rgb_text" Hal) as Ha.
  destruct (name_to_idx fields !! "rgb_text") as [idx|].
  - destruct Ha as (v & Hv & ->). unfold getitem. rewrite Hv. cbn [of_option bind].
    destruct v as [| | | |s|]; try done.
    destruct (startswith "rgb(" (lower s) && endswith ")" s); [|done].
    destruct (split "," (slice_str s 4 (-1))) as [|p0 [|p1 [|p2 [|p3 ps]]]];
      try done.
    apply try_three_ints.
  - by rewrite Ha.
Qed.

Lemma rgb_columns_spec r g b :
  rgb_columns r g b
  = Ok (if is_not_none r && is_not_none g && is_not_none b
        then Resolver.channels r g b else None).
Proof.
  unfold rgb_columns.
  destruct (is_not_none r && is_not_none g && is_not_none b); [|done].
  apply try_three_ints.
Qed.

Lemma hex_digits_pair a b :
  ishex_char a = true -> ishex_char b = true ->
  int_of_hex (String a (String b EmptyString)) = Some (Resolver.hex_pair a b).
Proof.
  intros Ha Hb. unfold int_of_hex, Resolver.hex_pair. cbn [hex_digits].
  rewrite Ha, Hb. f_equal; lia.
Qed.

Lemma hex_block_spec s :
  (if (String.length s =? 6)%nat && all_str ishex_char s then
     try_except
       (R <- of_option invalid_literal (int_of_hex (slice_str s 0 2)) ;;
        G <- of_option invalid_literal (int_of_hex (slice_str s 2 4)) ;;
        B <- of_option invalid_literal (int_of_hex (slice_str s 4 6)) ;;
        Ok (Some (R, G, B)))
       (Ok None)
   else Ok None)
  = Ok match s with
       | String r1 (String r2 (String g1 (String g2 (String b1 (String b2
           EmptyString))))) =>
           if all_str ishex_char s
           then Some (Resolver.hex_pair r1 r2, Resolver.hex_pair g1 g2,
                      Resolver.hex_pair b1 b2)
           else None
       | _ => None
       end.
Proof.
  destruct s as [|r1 [|r2 [|g1 [|g2 [|b1 [|b2 [|x s]]]]]]]; try done.
  - cbn [String.length Nat.eqb andb].
    destruct (all_str ishex_char _) eqn:Hall; [|done].
    cbn [all_str] in Hall.
    repeat (apply andb_prop in Hall as [? Hall]).
    change (slice_str (String r1 (String r2 (String g1 (String g2 (String b1
              (String b2 EmptyString)))))) 0 2)
      with (String r1 (String r2 EmptyString)).
    change (slice_str (String r1 (String r2 (String g1 (String g2 (String b1
              (String b2 EmptyString)))))) 2 4)
      with (String g1 (String g2 EmptyString)).
    change (slice_str (String r1 (String r2 (String g1 (String g2 (String b1
              (String b2 EmptyString)))))) 4 6)
      with (String b1 (String b2 EmptyString)).
    by rewrite !hex_digits_pair.
Qed.

Lemma color_column_spec (attr : string -> option value) :
  color_column (Resolver.field_of attr ["color"; "colour"; "clr"])
  = Ok match Resolver.step_hex attr with
       | Some c => Some c
       | None => Resolver.step_csv attr
       end.
Proof.
  unfold color_column, Resolver.step_hex, Resolver.step_csv, Resolver.color_text.
  destruct (Resolver.field_of attr _) as [| | | |cv|]; try done.
  cbn [mbind option_bind].
  set (s := if startswith "#" (strip cv) then drop_str 1 (strip cv) else strip cv).
  rewrite hex_block_spec.
  destruct s as [|r1 [|r2 [|g1 [|g2 [|b1 [|b2 [|x s]]]]]]];
    cbn [falls_or];
    try (destruct (map strip _) as [|p0 [|p1 [|p2 [|p3 ps]]]];
         try done; apply try_three_ints).
  destruct (all_str ishex_char _); [done|]. cbn [falls_or].
  destruct (map strip _) as [|p0 [|p1 [|p2 [|p3 ps]]]]; try done.
  apply try_three_ints.
Qed.

Lemma aci_column_spec (attr : string -> option value) :
  aci_column aci2rgb (Resolver.field_of attr ["aci"; "autocadcolorindex"])
  = Ok (Resolver.step_aci aci2rgb attr).
Proof.
  unfold aci_column, Resolver.step_aci, Resolver.to_int.
  destruct (is_not_none _); [|done].
  destruct (int _) as [aci|]; [|done]. cbn.
  destruct ((aci =? 0) || (aci =? 256)); [done|]. cbn.
  by destruct (aci2rgb aci).
Qed.

Lemma parse_rgb_is_decode rec fields :
  aligned rec fields ->
  _parse_rgb_from_record aci2rgb rec fields
  = Ok (Resolver.decode aci2rgb (Resolver.attribute rec fields)).
Proof.
  intros Hal. unfold _parse_rgb_from_record.
  rewrite rgb_text_column_spec, !get_val_aligned by done.
  cbn [bind map]. change (lower "r") with "r". change (lower "g") with "g".
  change (lower "b") with "b". change (lower "color") with "color".
  change (lower "colour") with "colour". change (lower "clr") with "clr".
  change (lower "aci") with "aci".
  change (lower "autocadcolorindex") with "autocadcolorindex".
  rewrite rgb_columns_spec, color_column_spec, aci_column_spec.
  rewrite !returns_or_Ok.
  unfold Resolver.decode, Resolver.steps. cbn [Resolver.first_success].
  fold (Resolver.step_rgb_fields (Resolver.attribute rec fields)).
  destruct (Resolver.step_rgb_text _); [done|].
  destruct (Resolver.step_rgb_fields _); [done|].
  destruct (Resolver.step_hex _); [done|].
  destruct (Resolver.step_csv _); [done|].
  by destruct (Resolver.step_aci _ _).
Qed.

(** C1: for a record that has a value for every column, the decoder
    returns, without raising, the colour of the first of the five steps
    (rgb_text, the r/g/b columns, the hexadecimal colour text, the
    comma-separated colour text, the colour index through the table) that
    gives one; so a record whose rgb_text step and r/g/b step give
    different colours resolves to the rgb_text one, and when no step
    gives a colour the result is (0,0,0). *)
Theorem decode_is_fallback_chain rec fields :
  aligned rec fields ->
  let attr := Resolver.attribute rec fields in
  _parse_rgb_from_record aci2rgb rec fields
  = Ok (Resolver.first_success
          [Resolver.step_rgb_text attr; Resolver.step_rgb_fields attr;
           Resolver.step_hex attr; Resolver.step_csv attr;
           Resolver.step_aci aci2rgb attr]
          (0, 0, 0)) /\
  (forall c1 c2,
     Resolver.step_rgb_text attr = Some c1 ->
     Resolver.step_rgb_fields attr = Some c2 ->
     c1 <> c2 ->
     _parse_rgb_from_record aci2rgb rec fields = Ok c1) /\
  (Resolver.step_rgb_text attr = None ->
   Resolver.step_rgb_fields attr = None ->
   Resolver.step_hex attr = None ->
   Resolver.step_csv attr = None ->
   Resolver.step_aci aci2rgb attr = None ->
   _parse_rgb_from_record aci2rgb rec fields = Ok (0, 0, 0)).
Proof.
  intros Hal attr. rewrite (parse_rgb_is_decode rec fields Hal).
  fold attr. unfold Resolver.decode, Resolver.steps.
  split; [done|]. split.
  - intros c1 c2 H1 _ _. by rewrite H1.
  - intros H1 H2 H3 H4 H5. by rewrite H1, H2, H3, H4, H5.
Qed.

End record_colour.

Lemma rgb_text_round_trip_witness :
  shp2dxf._parse_rgb_from_record aci2rgb_named
    [Py.VStr "A"; Py.VStr "POINT"; Py.VStr "rgb(255,0,128)"]
    ["layer"; "etype"; "rgb_text"]
  = Py.Ok (255, 0, 128).
Proof.
  apply (rgb_text_round_trip aci2rgb_named
           [Py.VStr "A"; Py.VStr "POINT"; Py.VStr "rgb(255,0,128)"]
           ["layer"; "etype"; "rgb_text"] 2%nat (255, 0, 128));
    reflexivity.
Defined.

Lemma decode_is_fallback_chain_witness :
  shp2dxf._parse_rgb_from_record aci2rgb_named
    [Py.VStr "rgb(1,2,3)"; Py.VInt 9; Py.VInt 8; Py.VInt 7]
    ["rgb_text"; "r"; "g"; "b"]
  = Py.Ok (1, 2, 3).
Proof.
  destruct (decode_is_fallback_chain aci2rgb_named
              [Py.VStr "rgb(1,2,3)"; Py.VInt 9; Py.VInt 8; Py.VInt 7]
              ["rgb_text"; "r"; "g"; "b"] (le_n 4)) as (_ & Hfirst & _).
  apply (Hfirst (1, 2, 3) (9, 8, 7)); [reflexivity | reflexivity | discriminate].
Defined.

(* ===================================================================== *)
(** * Properties of the geometry mapping                                  *)
(* ===================================================================== *)

Section geometry.
Import Py dxf2shp.
Context {P : Type} `{EqDecision P}.
Variable int2rgb : Z -> RGB.
Variable aci2rgb : Z -> Res RGB.
Implicit Types (pts : list P) (e : Entity P) (ws : WriterSet P).

Lemma List_last_stdpp pts d x : last pts = Some x -> List.last pts d = x.
Proof.
  induction pts as [|a [|b pts] IH]; intros Hl; [done| |].
  - by injection Hl.
  - apply IH. exact Hl.
Qed.

Lemma close_if_needed_cases pts first :
  head pts = Some first ->
  close_if_needed pts = if decide (last pts = Some first) then pts else pts ++ [first].
Proof.
  destruct pts as [|a pts]; [done|]. intros [= ->]. unfold close_if_needed.
  destruct (last (first :: pts)) as [x|] eqn:Hl.
  - rewrite (List_last_stdpp _ first x Hl).
    destruct (decide (Some x = Some first)) as [[= ->]|Hne].
    + by rewrite bool_decide_eq_true_2.
    + rewrite bool_decide_eq_false_2; [done|]. congruence.
  - by apply last_None in Hl.
Qed.

Lemma close_if_needed_closed pts :
  head (close_if_needed pts) = last (close_if_needed pts).
Proof.
  destruct pts as [|a pts]; [done|].
  rewrite (close_if_needed_cases _ a) by done.
  destruct (decide _) as [Hl|Hl]; [by rewrite Hl|].
  by rewrite last_snoc.
Qed.

Lemma close_if_needed_idemp pts :
  close_if_needed (close_if_needed pts) = close_if_needed pts.
Proof.
  destruct pts as [|a pts]; [done|].
  pose proof (close_if_needed_closed (a :: pts)) as Hc.
  assert (Hh : head (close_if_needed (a :: pts)) = Some a).
  { rewrite (close_if_needed_cases _ a) by done. by destruct (decide _). }
  rewrite (close_if_needed_cases (close_if_needed (a :: pts)) a Hh).
  rewrite decide_True; [done|]. by rewrite <- Hc.
Qed.

Lemma NoDup_head_last pts first :
  NoDup pts -> (2 <= length pts)%nat -> head pts = Some first ->
  last pts <> Some first.
Proof.
  intros Hnd Hlen Hh Hl.
  destruct pts as [|a pts]; [done|]. injection Hh as ->.
  apply NoDup_cons in Hnd as [Hnotin _]. apply Hnotin.
  destruct pts as [|b pts]; [simpl in Hlen; lia|].
  change (last (first :: b :: pts)) with (last (b :: pts)) in Hl.
  rewrite last_lookup in Hl. eapply list_elem_of_lookup_2; eauto.
Qed.

Lemma emit_same ws k shape record :
  shapes (get (emit ws k shape record) k) = shapes (get ws k) ++ [shape].
Proof. by destruct k. Qed.

Lemma emit_other ws k k' shape record :
  k <> k' -> writer_of (emit ws k shape record) k' = writer_of ws k'.
Proof. by destruct k, k'. Qed.

Lemma convert_entity_polyline doc ws e pts c :
  geometry e = LWPOLYLINE pts \/ geometry e = POLYLINE pts ->
  entity_rgb int2rgb aci2rgb doc e = Ok c ->
  convert_entity int2rgb aci2rgb doc ws e
  = Ok (if is_closed e && (3 <=? length pts)%nat
        then emit ws polygons (poly [close_if_needed pts])
               (default "" (dxf_layer e), dxftype e, rgb_text c)
        else emit ws lines (line [pts])
               (default "" (dxf_layer e), dxftype e, rgb_text c)).
Proof.
  intros Hgeo Hrgb. unfold convert_entity. rewrite Hrgb. cbn [bind].
  destruct Hgeo as [-> | ->]; by destruct (is_closed e && _).
Qed.

(** C2: a polyline-like entity whose colour resolves goes to the polygons
    output exactly when its closed flag is set and it has at least three
    points, as one ring closed by appending the first point when first and
    last differ; otherwise it goes to the lines output with its vertex
    sequence as it is, and the polygons output is left alone, whatever its
    end points are. *)
Theorem polyline_routing doc ws e pts c :
  geometry e = LWPOLYLINE pts \/ geometry e = POLYLINE pts ->
  entity_rgb int2rgb aci2rgb doc e = Ok c ->
  exists ws',
    convert_entity int2rgb aci2rgb doc ws e = Ok ws' /\
    (is_closed e = true /\ (3 <= length pts)%nat ->
       exists first,
         head pts = Some first /\
         shapes (get ws' polygons)
         = shapes (get ws polygons)
           ++ [poly [if decide (last pts = Some first) then pts
                     else pts ++ [first]]] /\
         writer_of ws' lines = writer_of ws lines) /\
    (~ (is_closed e = true /\ (3 <= length pts)%nat) ->
       shapes (get ws' lines) = shapes (get ws lines) ++ [line [pts]] /\
       writer_of ws' polygons = writer_of ws polygons) /\
    (is_closed e = false -> head pts = last pts ->
       shapes (get ws' lines) = shapes (get ws lines) ++ [line [pts]] /\
       writer_of ws' polygons = writer_of ws polygons).
Proof.
  intros Hgeo Hrgb. rewrite (convert_entity_polyline doc ws e pts c Hgeo Hrgb).
  destruct (is_closed e) eqn:Hc; cbn [andb].
  - destruct (Nat.leb_spec 3 (length pts)) as [Hlen|Hlen].
    + eexists. split; [reflexivity|]. split; [|split].
      * intros _. destruct pts as [|first pts']; [simpl in Hlen; lia|].
        exists first. split; [done|]. split; [|by apply emit_other].
        rewrite emit_same. by rewrite (close_if_needed_cases _ first).
      * intros Hn. exfalso. apply Hn. by split.
      * done.
    + eexists. split; [reflexivity|]. split; [|split].
      * intros [_ Hl]. lia.
      * intros _. split; [apply emit_same | by apply emit_other].
      * done.
  - eexists. split; [reflexivity|]. split; [|split].
    + intros [? _]. done.
    + intros _. split; [apply emit_same | by apply emit_other].
    + intros _ _. split; [apply emit_same | by apply emit_other].
Qed.

Lemma split_single_part ty pts :
  shp2dxf._split_parts (shp2dxf.mkShape ty pts (Some [0])) = [pts].
Proof.
  unfold shp2dxf._split_parts. cbn.
  rewrite slice_segment by lia. by rewrite segment_all.
Qed.

Lemma polygon_read_back {A} (dxfattribs : A) (ring : list P) msp :
  ring <> [] ->
  shp2dxf.convert_shp_to_dxf_shape dxfattribs (Codec.read_back (poly [ring])) msp
  = msp ++ [shp2dxf.add_lwpolyline (close_if_needed ring) true dxfattribs].
Proof.
  intros Hne. unfold shp2dxf.convert_shp_to_dxf_shape, Codec.read_back.
  cbn [shp2dxf.shapeType concat Codec.starts_from]. rewrite app_nil_r.
  change (shp2dxf.POLYGON =? shp2dxf.POINT) with false.
  change (shp2dxf.POLYGON =? shp2dxf.POLYLINE) with false.
  change (shp2dxf.POLYGON =? shp2dxf.POLYGON) with true.
  cbn [orb andb]. rewrite split_single_part. cbn [foldl].
  destruct ring as [|first ring']; [done|]. reflexivity.
Qed.

(** C6: a closed polyline with at least three pairwise distinct vertices
    is written as one polygon ring; the shape read back from the codec
    and converted to an entity is a closed polyline whose points are the
    original vertices, in order, followed by the first vertex again, so
    its first and last points are equal. *)
Theorem closure_round_trip {A} (dxfattribs : A) doc ws e pts c :
  geometry e = LWPOLYLINE pts \/ geometry e = POLYLINE pts ->
  is_closed e = true ->
  (3 <= length pts)%nat ->
  NoDup pts ->
  entity_rgb int2rgb aci2rgb doc e = Ok c ->
  exists ws' written first ring,
    convert_entity int2rgb aci2rgb doc ws e = Ok ws' /\
    last (shapes (get ws' polygons)) = Some written /\
    shp2dxf.convert_shp_to_dxf_shape dxfattribs (Codec.read_back written) []
    = [shp2dxf.add_lwpolyline ring true dxfattribs] /\
    head pts = Some first /\
    ring = pts ++ [first] /\
    head ring = last ring.
Proof.
  intros Hgeo Hc Hlen Hnd Hrgb.
  pose proof (convert_entity_polyline doc ws e pts c Hgeo Hrgb) as Hrun.
  rewrite Hc in Hrun. apply Nat.leb_le in Hlen as Hlen'. rewrite Hlen' in Hrun.
  cbn [andb] in Hrun.
  destruct pts as [|first pts'] eqn:Hpts; [simpl in Hlen; lia|]. rewrite <- Hpts in *.
  assert (Hh : head pts = Some first) by (by rewrite Hpts).
  assert (Hring : close_if_needed pts = pts ++ [first]).
  { rewrite (close_if_needed_cases _ first Hh).
    rewrite decide_False; [done|]. apply NoDup_head_last; [done|lia|done]. }
  eexists _, (poly [close_if_needed pts]), first, (pts ++ [first]).
  split; [exact Hrun|]. split; [by rewrite emit_same, last_snoc|].
  split.
  - rewrite polygon_read_back by (rewrite Hring; by destruct pts).
    by rewrite close_if_needed_idemp, Hring.
  - split; [done|]. split; [done|].
    rewrite last_snoc. by destruct pts.
Qed.

End geometry.

Lemma polyline_routing_witness :
  exists ws',
    dxf2shp.convert_entity int2rgb_bytes aci2rgb_named no_layers
      (dxf2shp.new_WriterSet "out") sample_triangle = Py.Ok ws'.
Proof.
  destruct (polyline_routing int2rgb_bytes aci2rgb_named no_layers
              (dxf2shp.new_WriterSet "out") sample_triangle
              [(0, 0); (4, 0); (4, 3)] (255, 0, 0)
              (or_introl eq_refl) eq_refl) as (ws' & Hrun & _).
  exists ws'. exact Hrun.
Defined.

Lemma closure_round_trip_witness :
  exists ring,
    ring = [(0, 0); (4, 0); (4, 3); (0, 0)] /\
    head ring = last ring.
Proof.
  destruct (closure_round_trip int2rgb_bytes aci2rgb_named tt no_layers
              (dxf2shp.new_WriterSet "out") sample_triangle
              [(0, 0); (4, 0); (4, 3)] (255, 0, 0)
              (or_introl eq_refl) eq_refl ltac:(simpl; lia)
              ltac:(apply (bool_decide_unpack (NoDup _)); vm_compute; exact I) eq_refl)
    as (ws' & written & first & ring & _ & _ & _ & Hh & Hring & Hclosed).
  exists ring. split; [|exact Hclosed].
  injection Hh as <-. exact Hring.
Defined.

(* ===================================================================== *)
(** * Properties of src/dxf2shp.py: the colour of an entity               *)
(* ===================================================================== *)

Section entity_colour.
Import Py dxf2shp.
Context {P : Type}.
Variable int2rgb : Z -> RGB.
Variable aci2rgb : Z -> Res RGB.
Implicit Types (e : Entity P) (doc : Drawing).

(** An explicit true colour wins. *)
Lemma entity_rgb_true_color doc e tc :
  dxf_true_color e = Some tc ->
  entity_rgb int2rgb aci2rgb doc e = Ok (int2rgb tc).
Proof. intros H. unfold entity_rgb. by rewrite H. Qed.

(** Without a true colour, the indices 0 and 256 (and an unset index) are
    not looked up: the colour is the layer's, index 7 standing in for an
    unset layer colour, and black when the layer or its colour cannot be
    found. *)
Lemma entity_rgb_by_layer doc e :
  dxf_true_color e = None ->
  dxf_color e = None \/ dxf_color e = Some 0 \/ dxf_color e = Some 256 ->
  entity_rgb int2rgb aci2rgb doc e
  = Ok match layers_get doc (or_str (dxf_layer e) "0") with
       | Some layer_obj =>
           match aci2rgb (or_int (color layer_obj) 7) with
           | Ok c => c
           | Raise _ => (0, 0, 0)
           end
       | None => (0, 0, 0)
       end.
Proof.
  intros Htc Hc. unfold entity_rgb. rewrite Htc.
  assert (Haci : or_int (dxf_color e) 256 = 256)
    by (destruct Hc as [-> | [-> | ->]]; reflexivity).
  rewrite Haci. cbn.
  destruct (layers_get doc _) as [layer_obj|]; cbn; [|done].
  by destruct (aci2rgb _).
Qed.

(** C8 (the code at the failing input): without a true colour, an
    explicit entity index other than 0 and 256 is looked up outside any
    handler, so an index the table rejects makes [entity_rgb] raise
    instead of giving black. *)
Theorem entity_rgb_index_unguarded doc e aci err :
  dxf_true_color e = None ->
  dxf_color e = Some aci ->
  aci <> 0 -> aci <> 256 ->
  aci2rgb aci = Raise err ->
  entity_rgb int2rgb aci2rgb doc e = Raise err.
Proof.
  intros Htc Hc H0 H256 Hraise. unfold entity_rgb. rewrite Htc, Hc.
  unfold or_int. apply Z.eqb_neq in H0, H256.
  rewrite H0. cbn iota. rewrite H0, H256. exact Hraise.
Qed.

End entity_colour.

Lemma entity_rgb_index_unguarded_witness :
  dxf2shp.entity_rgb int2rgb_bytes aci2rgb_named no_layers sample_byobject
  = Py.Raise Py.IndexError.
Proof.
  apply (entity_rgb_index_unguarded int2rgb_bytes aci2rgb_named no_layers
           sample_byobject 257 Py.IndexError); [reflexivity | reflexivity | lia | lia | reflexivity].
Defined.

(* ===================================================================== *)
(** * Properties of src/makePrj4shp.py: choosing a CRS                    *)
(* ===================================================================== *)

Section choice.
Import Py makePrj4shp.
Implicit Types (options : list (string * string * string)) (s t : string).

Lemma choice_is_sound d r : choice_is d r = true -> r = Ok d.
Proof.
  destruct r as [[l w]|e]; [|done]. destruct d as [l' w']. cbn.
  intros [Hl Hw]%andb_prop.
  apply String.eqb_eq in Hl, Hw. by subst.
Qed.

Lemma upper_digit c : isdigit_char c = true -> upper_char c = c.
Proof.
  unfold isdigit_char, upper_char, in_range.
  intros [H1 H2]%andb_prop. apply N.leb_le in H1, H2.
  destruct (N.leb_spec 97 (code c)); [lia | done].
Qed.

Lemma digit_not_blank c : isdigit_char c = true -> Ascii.eqb c " " = false.
Proof.
  intros Hd. destruct (Ascii.eqb_spec c " "); [|done]. subst. discriminate Hd.
Qed.

Lemma digits_normal u :
  all_str isdigit_char u = true -> delete_char " " (upper u) = u.
Proof.
  induction u as [|c u IH]; [done|]. cbn [all_str].
  intros [Hc Hu]%andb_prop. unfold upper in *. cbn [map_str delete_char].
  rewrite (upper_digit c Hc), (digit_not_blank c Hc). by rewrite IH.
Qed.

Lemma isdigit_normal_form s :
  isdigit (strip s) = true -> normal_form s = strip s.
Proof.
  intros H. unfold normal_form. apply digits_normal.
  by destruct (strip s).
Qed.

(** An input whose normal form is a token that is not an index is parsed
    as that token. *)
Lemma parse_choice_normal_form options s t :
  normal_form s = t -> isdigit t = false -> strip t = t ->
  normal_form t = t ->
  parse_choice s options = parse_choice t [].
Proof.
  intros Hs Hd Hstrip Hnf.
  assert (Hsd : isdigit (strip s) = false).
  { destruct (isdigit (strip s)) eqn:E; [|done].
    rewrite (isdigit_normal_form s E) in Hs. congruence. }
  unfold parse_choice. rewrite Hsd, Hstrip, Hd.
  unfold normal_form in Hs, Hnf. rewrite Hs. rewrite Hstrip in Hnf.
  by rewrite Hnf.
Qed.

Lemma token_gives_sound d s options :
  token_gives d (normal_form s) = true -> parse_choice s options = Ok d.
Proof.
  unfold token_gives.
  intros [[[Hd Hstrip]%andb_prop Hnf]%andb_prop Hc]%andb_prop.
  apply negb_true_iff in Hd. apply String.eqb_eq in Hstrip, Hnf.
  rewrite (parse_choice_normal_form options s (normal_form s)) by done.
  by apply choice_is_sound.
Qed.

Lemma in_two_digit_zones z : 0 <= z < 100 -> In z two_digit_zones.
Proof.
  intros Hz. unfold two_digit_zones. apply in_map_iff.
  exists (Z.to_nat z). split; [lia|]. apply in_seq. lia.
Qed.

Lemma euref_utm_tokens_checked :
  forallb (fun z => forallb (token_gives (built (wkt_utm_euref89 z)))
                            (euref_utm_tokens z))
          two_digit_zones = true.
Proof. vm_compute. reflexivity. Qed.

Lemma wgs_utm_tokens_checked :
  forallb (fun z => forallb (token_gives (built (wkt_utm_wgs84 z)))
                            (wgs_utm_tokens z))
          two_digit_zones = true.
Proof. vm_compute. reflexivity. Qed.

Lemma euref_utm_tokens_parse options z s :
  0 <= z < 100 -> In (normal_form s) (euref_utm_tokens z) ->
  parse_choice s options = Ok (built (wkt_utm_euref89 z)).
Proof.
  intros Hz Ht. apply token_gives_sound.
  pose proof euref_utm_tokens_checked as H.
  rewrite forallb_forall in H. specialize (H z (in_two_digit_zones z Hz)).
  rewrite forallb_forall in H. by apply H.
Qed.

Lemma wgs_utm_tokens_parse options z s :
  0 <= z < 100 -> In (normal_form s) (wgs_utm_tokens z) ->
  parse_choice s options = Ok (built (wkt_utm_wgs84 z)).
Proof.
  intros Hz Ht. apply token_gives_sound.
  pose proof wgs_utm_tokens_checked as H.
  rewrite forallb_forall in H. specialize (H z (in_two_digit_zones z Hz)).
  rewrite forallb_forall in H. by apply H.
Qed.

Lemma euref_wgs_differ z : built (wkt_utm_euref89 z) <> built (wkt_utm_wgs84 z).
Proof. unfold built, wkt_utm_euref89, wkt_utm_wgs84. cbn. discriminate. Qed.

(** No entry of the catalogue carries the label of a built descriptor of
    one of the two UTM families, for a zone of the catalogue. *)
Lemma built_labels_checked :
  forallb (fun z =>
             forallb (fun o =>
                        negb (String.eqb (fst (entry_choice o))
                                (fst (built (wkt_utm_euref89 z)))) &&
                        negb (String.eqb (fst (entry_choice o))
                                (fst (built (wkt_utm_wgs84 z)))))
                     build_options)
          [32; 33; 35] = true.
Proof. vm_compute. reflexivity. Qed.

Lemma built_is_no_entry z o :
  In z [32; 33; 35] -> In o build_options ->
  entry_choice o <> built (wkt_utm_euref89 z) /\
  entry_choice o <> built (wkt_utm_wgs84 z).
Proof.
  intros Hz Ho. pose proof built_labels_checked as H.
  rewrite forallb_forall in H. specialize (H z Hz).
  rewrite forallb_forall in H. specialize (H o Ho).
  apply andb_prop in H as [He Hw].
  apply negb_true_iff, String.eqb_neq in He, Hw.
  split; intros Heq; [apply He | apply Hw]; by rewrite Heq.
Qed.

(** The catalogue entries of a zone of the catalogue, by position. *)
Lemma catalogue_utm_entries z :
  In z [32; 33; 35] ->
  exists e w,
    In e build_options /\ In w build_options /\
    entry_key e = "EUREF89/UTM" +:+ two_digits z /\
    entry_key w = "WGS84/UTM" +:+ two_digits z /\
    snd e = snd (wkt_utm_euref89 z) /\
    snd w = snd (wkt_utm_wgs84 z) /\
    snd e <> snd w.
Proof.
  intros Hin.
  assert (Hcases : z = 32 \/ z = 33 \/ z = 35) by (simpl in Hin; lia).
  destruct Hcases as [-> | [-> | ->]].
  - exists (nth 0 build_options ("", "", "")), (nth 3 build_options ("", "", "")).
    split_and!; try (vm_compute; tauto).
    apply String.eqb_neq. vm_compute. reflexivity.
  - exists (nth 1 build_options ("", "", "")), (nth 4 build_options ("", "", "")).
    split_and!; try (vm_compute; tauto).
    apply String.eqb_neq. vm_compute. reflexivity.
  - exists (nth 2 build_options ("", "", "")), (nth 5 build_options ("", "", "")).
    split_and!; try (vm_compute; tauto).
    apply String.eqb_neq. vm_compute. reflexivity.
Qed.

(** C3 (as amended): for a zone of the catalogue (32, 33 or 35), an input
    that reads, in any case and blanks apart, as a bare UTM token, with
    or without the EUREF89/ or ETRS89/ prefix, gives a descriptor with the
    WKT of the EUREF89 entry of that zone, and one that reads as a token
    with the WGS/ or WGS84/ prefix gives a descriptor with the WKT of the
    WGS84 entry of that zone; the two WKTs differ.  The descriptor is
    built, not looked up: its label is the name of the system followed by
    " (WKT built)", and it is no entry of the catalogue. *)
Theorem utm_token_resolution options z :
  In z [32; 33; 35] ->
  exists e w,
    In e build_options /\ In w build_options /\
    entry_key e = "EUREF89/UTM" +:+ two_digits z /\
    entry_key w = "WGS84/UTM" +:+ two_digits z /\
    snd e <> snd w /\
    (forall s, In (normal_form s) (euref_utm_tokens z) ->
       parse_choice s options
       = Ok (fst (wkt_utm_euref89 z) +:+ " (WKT built)", snd e)) /\
    (forall s, In (normal_form s) (wgs_utm_tokens z) ->
       parse_choice s options
       = Ok (fst (wkt_utm_wgs84 z) +:+ " (WKT built)", snd w)) /\
    (forall s o,
       In (normal_form s) (euref_utm_tokens z ++ wgs_utm_tokens z) ->
       In o build_options ->
       parse_choice s options <> Ok (entry_choice o)).
Proof.
  intros Hin.
  assert (Hz : 0 <= z < 100) by (simpl in Hin; lia).
  destruct (catalogue_utm_entries z Hin)
    as (e & w & He & Hw & Hke & Hkw & Hse & Hsw & Hne).
  exists e, w. split_and!; try done.
  - intros s Hs. rewrite (euref_utm_tokens_parse options z s Hz Hs).
    unfold built. by rewrite Hse.
  - intros s Hs. rewrite (wgs_utm_tokens_parse options z s Hz Hs).
    unfold built. by rewrite Hsw.
  - intros s o Hs Ho. destruct (built_is_no_entry z o Hin Ho) as [Hoe How].
    apply in_app_or in Hs as [Hs|Hs].
    + rewrite (euref_utm_tokens_parse options z s Hz Hs). congruence.
    + rewrite (wgs_utm_tokens_parse options z s Hz Hs). congruence.
Qed.

(** C4 (the code at the failing inputs): an input that reads, in any case
    and blanks apart, as a token of the WGS84 UTM pattern is accepted for
    a zone that is not one of 32, 33, 35 as well: no error is raised, and
    the descriptor is built from the two digits as they are, with the
    central meridian 6 * zone - 183, whether or not there is such a zone
    (the zones are 1 to 60). *)
Theorem wgs_utm_zone_unchecked options z s :
  0 <= z < 100 ->
  ~ In z [32; 33; 35] ->
  In (normal_form s) (wgs_utm_tokens z) ->
  parse_choice s options = Ok (built (wkt_utm_wgs84 z)) /\
  (forall err, parse_choice s options <> Raise err) /\
  snd (wkt_utm_wgs84 z)
  = build_wkt_tm ("WGS 84 / UTM zone " +:+ str_of_int z +:+ "N")
      wkt_geogcs_wgs84 (Int 0) (Int (6 * z - 183))
      (Float (mkDec 9996 4)) (Float (mkDec 5000000 1)) (Float (mkDec 0 1)).
Proof.
  intros Hz _ Ht.
  pose proof (wgs_utm_tokens_parse options z s Hz Ht) as Hparse.
  split; [exact Hparse|]. split; [|reflexivity].
  intros err. rewrite Hparse. discriminate.
Qed.

Lemma isdigit_not_space c : isdigit_char c = true -> int_space c = false.
Proof.
  unfold isdigit_char, int_space, in_range.
  intros [H1 H2]%andb_prop. apply N.leb_le in H1, H2.
  apply orb_false_iff. split.
  - apply andb_false_iff. right. apply N.leb_gt. lia.
  - apply N.eqb_neq. lia.
Qed.

Lemma rstrip_digits s :
  all_str isdigit_char s = true -> rstrip_by int_space s = s.
Proof.
  induction s as [|c s IH]; [done|]. cbn [all_str rstrip_by].
  intros [Hc Hs]%andb_prop. rewrite IH by done.
  destruct s; [|done]. by rewrite isdigit_not_space.
Qed.

Lemma int_digits_all acc b s :
  all_str isdigit_char s = true -> 0 <= acc -> b = true \/ s <> EmptyString ->
  exists n, int_digits acc b s = Some n /\ 0 <= n.
Proof.
  revert acc b. induction s as [|c s IH]; intros acc b Hs Hacc Hb.
  - destruct Hb as [-> | Hb]; [|done]. cbn. eauto.
  - cbn [all_str] in Hs. apply andb_prop in Hs as [Hc Hs].
    cbn [int_digits]. rewrite Hc. apply IH; [done| |by left].
    unfold isdigit_char, in_range in Hc. apply andb_prop in Hc as [H1 H2].
    apply N.leb_le in H1, H2. unfold digit_val. lia.
Qed.

Lemma isdigit_int s :
  isdigit s = true -> exists n, int_of_str s = Some n /\ 0 <= n.
Proof.
  destruct s as [|c s]; [done|]. cbn [isdigit]. intros Hall.
  pose proof Hall as Hall'. cbn [all_str] in Hall'.
  apply andb_prop in Hall' as [Hc Hs].
  unfold int_of_str. cbn [lstrip_by]. rewrite (isdigit_not_space c Hc).
  rewrite rstrip_digits by done.
  assert (Hgo : exists n, int_digits 0 false (String c s) = Some n /\ 0 <= n)
    by (apply int_digits_all; [done | lia | by right]).
  destruct c as [[] [] [] [] [] [] [] []]; try discriminate Hc; exact Hgo.
Qed.

(** C5 (as amended): a token of digits is a 1-based index into the
    options, out of range when it is not in [1, len]; the catalogue has the
    22 keys EUREF89/UTM{32,33,35}, WGS84/UTM{32,33,35}, NTM/{5..20} in
    this order, so that "7" is the NTM/5 entry and "6" is the WGS84/UTM35
    entry. *)
Theorem index_choice options s :
  isdigit (strip s) = true ->
  (exists idx,
     int_of_str (strip s) = Some idx /\
     (1 <= idx <= Z.of_nat (length options) ->
        exists o, options !! Z.to_nat (idx - 1) = Some o /\
                  parse_choice s options = Ok (entry_choice o)) /\
     (~ 1 <= idx <= Z.of_nat (length options) ->
        parse_choice s options = Raise (ValueError "Index out of range."))) /\
  map entry_key build_options
  = [ "EUREF89/UTM32"; "EUREF89/UTM33"; "EUREF89/UTM35";
      "WGS84/UTM32"; "WGS84/UTM33"; "WGS84/UTM35";
      "NTM/5"; "NTM/6"; "NTM/7"; "NTM/8"; "NTM/9"; "NTM/10"; "NTM/11";
      "NTM/12"; "NTM/13"; "NTM/14"; "NTM/15"; "NTM/16"; "NTM/17"; "NTM/18";
      "NTM/19"; "NTM/20" ] /\
  (exists o, build_options !! 6%nat = Some o /\ entry_key o = "NTM/5" /\
             snd o = snd (wkt_ntm 5) /\
             parse_choice "7" build_options = Ok (entry_choice o)) /\
  (exists o, build_options !! 5%nat = Some o /\ entry_key o = "WGS84/UTM35" /\
             snd o = snd (wkt_utm_wgs84 35) /\
             parse_choice "6" build_options = Ok (entry_choice o)).
Proof.
  intros Hd. split; [|split; [|split]].
  - destruct (isdigit_int _ Hd) as (idx & Hint & Hpos).
    exists idx. split; [done|]. unfold parse_choice. rewrite Hd, Hint. cbn [of_option bind].
    split.
    + intros [Hlo Hhi].
      destruct (options !! Z.to_nat (idx - 1)) as [o|] eqn:Ho.
      * exists o. split; [done|].
        apply Z.leb_le in Hlo, Hhi. rewrite Hlo, Hhi. cbn [andb].
        unfold getitem. rewrite Ho. cbn. by destruct o as [[label key] wkt].
      * apply lookup_ge_None in Ho. lia.
    + intros Hout.
      destruct (Z.leb_spec 1 idx), (Z.leb_spec idx (Z.of_nat (length options)));
        cbn [andb]; try done. lia.
  - vm_compute. reflexivity.
  - eexists. split; [reflexivity|]. vm_compute. tauto.
  - eexists. split; [reflexivity|]. vm_compute. tauto.
Qed.

End choice.

Lemma utm_token_resolution_witness :
  exists e,
    In e makePrj4shp.build_options /\
    entry_key e = "EUREF89/UTM35" /\
    makePrj4shp.parse_choice " etrs89/utm 35n" []
    = Py.Ok ("EUREF89 / UTM zone 35N (WKT built)", snd e).
Proof.
  destruct (utm_token_resolution [] 35 ltac:(simpl; tauto))
    as (e & w & He & _ & Hke & _ & _ & Heuref & _).
  exists e. split; [exact He|]. split; [exact Hke|].
  apply Heuref. vm_compute. tauto.
Defined.

(** C3 (as stated) fails: what "UTM33" and "WGS84/UTM33" give is no entry
    of the catalogue. *)
Lemma utm33_is_no_catalogue_entry :
  (exists d, makePrj4shp.parse_choice "UTM33" makePrj4shp.build_options = Py.Ok d /\
             Forall (fun o => entry_choice o <> d) makePrj4shp.build_options) /\
  (exists d, makePrj4shp.parse_choice "WGS84/UTM33" makePrj4shp.build_options = Py.Ok d /\
             Forall (fun o => entry_choice o <> d) makePrj4shp.build_options).
Proof.
  split.
  - exists (built (makePrj4shp.wkt_utm_euref89 33)).
    split; [vm_compute; reflexivity|].
    apply List.Forall_forall. intros o Ho.
    apply (built_is_no_entry 33 o); [simpl; tauto | exact Ho].
  - exists (built (makePrj4shp.wkt_utm_wgs84 33)).
    split; [vm_compute; reflexivity|].
    apply List.Forall_forall. intros o Ho.
    apply (built_is_no_entry 33 o); [simpl; tauto | exact Ho].
Qed.

(** C4 at the input "WGS84/UTM99": there is no zone 99, the token is
    accepted, and the WKT has the central meridian 411. *)
Lemma wgs_utm_zone_unchecked_witness :
  makePrj4shp.parse_choice "WGS84/UTM99" makePrj4shp.build_options
  = Py.Ok (built (makePrj4shp.wkt_utm_wgs84 99)) /\
  snd (makePrj4shp.wkt_utm_wgs84 99)
  = makePrj4shp.build_wkt_tm "WGS 84 / UTM zone 99N"
      makePrj4shp.wkt_geogcs_wgs84 (Py.Int 0) (Py.Int 411)
      (Py.Float (Py.mkDec 9996 4)) (Py.Float (Py.mkDec 5000000 1))
      (Py.Float (Py.mkDec 0 1)).
Proof.
  destruct (wgs_utm_zone_unchecked makePrj4shp.build_options 99 "WGS84/UTM99"
              ltac:(lia) ltac:(simpl; lia) ltac:(vm_compute; tauto))
    as (Hparse & _ & Hwkt).
  split; [exact Hparse | exact Hwkt].
Defined.

Lemma index_choice_witness :
  makePrj4shp.parse_choice " 22 " makePrj4shp.build_options
  = Py.Ok (entry_choice (nth 21 makePrj4shp.build_options ("", "", ""))).
Proof.
  destruct (index_choice makePrj4shp.build_options " 22 " eq_refl)
    as [(idx & Hidx & Hin & _) _].
  injection Hidx as <-.
  destruct (Hin ltac:(vm_compute; split; discriminate)) as (o & Ho & Hp).
  injection Ho as <-. exact Hp.
Defined.

(** C5 (as stated) fails: "7" selects the seventh entry, which is the
    NTM/5 entry; the WGS84/UTM35 entry is the sixth, and another choice. *)
Lemma choice_7_not_wgs84_utm35 :
  exists o7 o6,
    makePrj4shp.build_options !! 6%nat = Some o7 /\
    makePrj4shp.build_options !! 5%nat = Some o6 /\
    makePrj4shp.parse_choice "7" makePrj4shp.build_options
    = Py.Ok (entry_choice o7) /\
    entry_key o7 = "NTM/5" /\
    entry_key o6 = "WGS84/UTM35" /\
    entry_choice o7 <> entry_choice o6.
Proof.
  eexists _, _. split; [reflexivity|]. split; [reflexivity|].
  vm_compute. repeat split; discriminate.
Qed.

(* ===================================================================== *)
(** * Properties of the sidecar files                                     *)
(* ===================================================================== *)

Section sidecars.
Import Py makePrj4shp.
Implicit Types (fs : gmap string string) (wkt : string).

Lemma append_same_length_tail (a b x y : string) :
  a +:+ x = b +:+ y -> String.length x = String.length y -> x = y.
Proof.
  revert b. induction a as [|c a IH]; intros [|d b] Heq Hlen; simpl in Heq.
  - done.
  - apply (f_equal String.length) in Heq.
    simpl in Heq. rewrite !length_str_append in Heq. simpl in Heq. lia.
  - apply (f_equal String.length) in Heq.
    simpl in Heq. rewrite !length_str_append in Heq. simpl in Heq. lia.
  - injection Heq as _ Heq. by apply (IH b).
Qed.

Lemma prj_ne_cpg (a b : string) : a +:+ ".prj" <> b +:+ ".cpg".
Proof.
  intros Heq. apply append_same_length_tail in Heq; [discriminate Heq | done].
Qed.

Lemma prj_of_ne_cpg_of p p' : prj_of p <> cpg_of p'.
Proof. apply prj_ne_cpg. Qed.

Lemma write_sidecars_lookup p wkt fs x :
  write_sidecars p wkt fs !! x
  = if decide (x = cpg_of p) then Some CPG_CONTENT
    else if decide (x = prj_of p) then Some (wkt +:+ newline)
    else fs !! x.
Proof.
  unfold write_sidecars. fold (prj_of p) (cpg_of p).
  destruct (decide (x = cpg_of p)) as [-> | Hc]; [by rewrite lookup_insert_eq|].
  rewrite lookup_insert_ne by done.
  destruct (decide (x = prj_of p)) as [-> | Hp]; [by rewrite lookup_insert_eq|].
  by rewrite lookup_insert_ne.
Qed.

Lemma write_all_lookup shp_files wkt fs x :
  write_all shp_files wkt fs !! x
  = if decide (Exists (fun p => x = cpg_of p) shp_files) then Some CPG_CONTENT
    else if decide (Exists (fun p => x = prj_of p) shp_files)
         then Some (wkt +:+ newline)
    else fs !! x.
Proof.
  unfold write_all. revert fs.
  induction shp_files as [|p rest IH]; intros fs; cbn [foldl].
  - assert (Hnil : forall Q : string -> Prop, ~ Exists Q [])
      by (intros Q HQ; inversion HQ).
    by rewrite !decide_False by apply Hnil.
  - rewrite IH, write_sidecars_lookup. clear IH.
    assert (Hno : forall a l, ~ Exists (fun p0 => cpg_of a = prj_of p0) l).
    { intros a l. rewrite Exists_exists. intros (p' & _ & Heq).
      symmetry in Heq. by apply prj_of_ne_cpg_of in Heq. }
    repeat case_decide; subst;
      repeat match goal with
             | H : context [Exists _ (_ :: _)] |- _ => rewrite Exists_cons in H
             end;
      try done; try tauto;
      exfalso; destruct_or!; subst; try done; by eapply Hno.
Qed.


End sidecars.


(* ===================================================================== *)
(** * Further properties of src/shp2dxf.py: columns, parts and entities   *)
(* ===================================================================== *)

Section columns_and_parts.
Import Py shp2dxf.
Context {P : Type}.
Implicit Types (pts part : list P) (parts : list (list P)) (idxs : list Z).

Lemma name_to_idx_snoc fields n :
  name_to_idx (fields ++ [n]) = <[n := length fields]> (name_to_idx fields).
Proof.
  unfold name_to_idx. rewrite imap_app, foldl_app. cbn.
  by rewrite Nat.add_0_r.
Qed.

(** X1: the column index of a name is the position of its last
    occurrence among the field names, and a name has no index exactly
    when it is not a field name. *)
Theorem name_to_idx_last fields n :
  match name_to_idx fields !! n with
  | Some i => fields !! i = Some n /\
              forall j, fields !! j = Some n -> (j <= i)%nat
  | None => ~ In n fields
  end.
Proof.
  induction fields as [|x fields IH] using rev_ind.
  - unfold name_to_idx. cbn. rewrite lookup_empty. by intros [].
  - rewrite name_to_idx_snoc.
    destruct (decide (x = n)) as [-> | Hne].
    + rewrite lookup_insert_eq. split.
      * by rewrite lookup_app_r, Nat.sub_diag.
      * intros j Hj. apply lookup_lt_Some in Hj.
        rewrite length_app in Hj. cbn in Hj. lia.
    + rewrite lookup_insert_ne by done.
      assert (Hold : forall j, (fields ++ [x]) !! j = Some n ->
                               fields !! j = Some n).
      { intros j Hj. destruct (decide (j < length fields)%nat) as [Hlt|Hge].
        - by rewrite lookup_app_l in Hj.
        - rewrite lookup_app_r in Hj by lia.
          apply list_lookup_singleton_Some in Hj as [_ Hj]. congruence. }
      destruct (name_to_idx fields !! n) as [i|].
      * destruct IH as [Hi Hlast]. split.
        -- rewrite lookup_app_l; [done|]. by eapply lookup_lt_Some.
        -- intros j Hj. apply Hlast, Hold, Hj.
      * intros Hin. apply in_app_or in Hin as [Hin | [Hin | []]]; [|done].
        by apply IH.
Qed.

Lemma slice_run pts a b :
  exists pre post, pts = pre ++ slice pts a b ++ post.
Proof.
  unfold slice.
  set (m := Z.to_nat (slice_bound a (Z.of_nat (length pts)))).
  set (k := Z.to_nat (_ - _)).
  exists (take m pts), (drop k (drop m pts)).
  by rewrite (take_drop k), (take_drop m).
Qed.

(** X2: whatever the start indices are, the splitter yields one part per
    start index and every part is a run of consecutive points of the
    shape; a shape without a parts attribute yields its whole point list
    as one part. *)
Theorem split_parts_runs (shape : Shape P) :
  length (_split_parts shape) = length (default [0] (parts shape)) /\
  (forall part, In part (_split_parts shape) ->
     exists pre post, points shape = pre ++ part ++ post) /\
  (parts shape = None -> _split_parts shape = [points shape]).
Proof.
  split; [|split].
  - unfold _split_parts. by rewrite length_map, length_seq.
  - intros part Hin. unfold _split_parts in Hin.
    apply in_map_iff in Hin as (i & <- & _). apply slice_run.
  - intros Hnone. unfold _split_parts. rewrite Hnone. cbn.
    rewrite slice_segment by lia. by rewrite segment_all.
Qed.

Lemma pieces_of_starts (pre : list P) parts :
  let pts := pre ++ concat parts in
  let idxs := Codec.starts_from (Z.of_nat (length pre)) parts
              ++ [Z.of_nat (length pts)] in
  map (fun i => slice pts (nth i idxs 0) (nth (S i) idxs 0))
      (seq 0 (length parts))
  = parts.
Proof.
  revert pre. induction parts as [|p parts IH]; intros pre; [done|].
  cbn zeta. cbn [Codec.starts_from length concat].
  change ((Z.of_nat (length pre)
           :: Codec.starts_from (Z.of_nat (length pre) + Z.of_nat (length p)) parts)
          ++ [Z.of_nat (length (pre ++ p ++ concat parts))])
    with (Z.of_nat (length pre)
          :: (Codec.starts_from (Z.of_nat (length pre) + Z.of_nat (length p)) parts
              ++ [Z.of_nat (length (pre ++ p ++ concat parts))])).
  rewrite (pieces_step (slice (pre ++ p ++ concat parts))).
  f_equal.
  - assert (Hnext :
      nth 0 (Codec.starts_from (Z.of_nat (length pre) + Z.of_nat (length p)) parts
             ++ [Z.of_nat (length (pre ++ p ++ concat parts))]) 0
      = Z.of_nat (length pre) + Z.of_nat (length p)).
    { destruct parts as [|q parts]; cbn; [|done].
      rewrite app_nil_r, length_app. lia. }
    rewrite Hnext.
    rewrite slice_segment by (rewrite ?length_app; lia).
    unfold segment. rewrite Nat2Z.id.
    replace (Z.to_nat (Z.of_nat (length pre) + Z.of_nat (length p)) - length pre)%nat
      with (length p) by lia.
    rewrite drop_app_length. by rewrite take_app_length.
  - specialize (IH (pre ++ p)). cbn zeta in IH.
    rewrite <- (assoc_L (++)) in IH. rewrite length_app, Nat2Z.inj_add in IH.
    exact IH.
Qed.

(** X3: a list of parts laid out as a flat point list with the start
    index of each part is split back into the same parts, empty parts
    included. *)
Theorem split_parts_of_flattened ty parts :
  _split_parts (mkShape ty (concat parts) (Some (Codec.starts_from 0 parts)))
  = parts.
Proof.
  unfold _split_parts. cbn [points shp2dxf.parts default from_option id].
  assert (Hlen : forall n, length (Codec.starts_from n parts) = length parts).
  { induction parts as [|p ps IH]; intros n; [done|].
    cbn [Codec.starts_from length]. by rewrite IH. }
  rewrite Hlen. exact (pieces_of_starts [] parts).
Qed.

End columns_and_parts.

Section emission.
Import Py shp2dxf.
Context {P A : Type} `{EqDecision P}.
Implicit Types (part : list P) (parts : list (list P)) (msp : list (Added P A)).

Lemma foldl_parts (is_closed : bool) (dxfattribs : A) parts msp :
  foldl
    (fun msp part =>
       match part with
       | [] => msp
       | first :: _ =>
           let pts := part in
           let pts :=
             if is_closed && negb (bool_decide (first = List.last pts first))
             then pts ++ [first] else pts in
           msp ++ [add_lwpolyline pts is_closed dxfattribs]
       end)
    msp parts
  = msp ++ map (fun part =>
                  add_lwpolyline
                    (if is_closed then dxf2shp.close_if_needed part else part)
                    is_closed dxfattribs)
               (List.filter has_points parts).
Proof.
  revert msp. induction parts as [|part parts IH]; intros msp; cbn [foldl].
  - cbn. by rewrite app_nil_r.
  - rewrite IH. destruct part as [|first rest]; [done|].
    cbn [List.filter has_points map]. rewrite <- (assoc_L (++)). cbn [app].
    do 3 f_equal. unfold dxf2shp.close_if_needed. by destruct is_closed.
Qed.

(** X4: a polygon shape adds one closed polyline per part that has
    points, its ring closed as [close_if_needed] of the other converter
    closes it; a polyline shape adds its parts that have points as they
    are, open; a point shape adds its first point, if any; a shape of
    another type adds nothing.  The entities already in the model space
    stay, in front. *)
Theorem shape_entities (dxfattribs : A) (shape : Shape P) msp :
  (shapeType shape = POLYGON ->
     convert_shp_to_dxf_shape dxfattribs shape msp
     = msp ++ map (fun part =>
                     add_lwpolyline (dxf2shp.close_if_needed part) true dxfattribs)
                  (List.filter has_points (_split_parts shape))) /\
  (shapeType shape = POLYLINE ->
     convert_shp_to_dxf_shape dxfattribs shape msp
     = msp ++ map (fun part => add_lwpolyline part false dxfattribs)
                  (List.filter has_points (_split_parts shape))) /\
  (shapeType shape = POINT ->
     convert_shp_to_dxf_shape dxfattribs shape msp
     = msp ++ match points shape with
              | p :: _ => [add_point p dxfattribs]
              | [] => []
              end) /\
  (shapeType shape <> POINT -> shapeType shape <> POLYLINE ->
   shapeType shape <> POLYGON ->
     convert_shp_to_dxf_shape dxfattribs shape msp = msp).
Proof.
  unfold convert_shp_to_dxf_shape. repeat split.
  - intros ->. cbn. apply (foldl_parts true).
  - intros ->. cbn. apply (foldl_parts false).
  - intros ->. cbn. destruct (points shape); [by rewrite app_nil_r | done].
  - intros H1 H3 H5.
    apply Z.eqb_neq in H1, H3, H5. by rewrite H1, H3, H5.
Qed.

End emission.

(* ===================================================================== *)
(** * Further properties of src/shp2dxf.py: the decoder                   *)
(* ===================================================================== *)

Section decoder.
Import Py shp2dxf.
Implicit Types (rec : list value) (fields : list string) (d : gmap string nat)
  (col : RGB).

Lemma three_ints_color a b c col :
  three_ints a b c = Ok (Some col) -> is_color col = true.
Proof.
  unfold three_ints.
  destruct (int a) as [R|]; [|done]. destruct (int b) as [G|]; [|done].
  destruct (int c) as [B|]; [|done]. cbn.
  destruct (in_byte R && in_byte G && in_byte B) eqn:Hin; [|done].
  by intros [= <-].
Qed.

Lemma try_three_ints_color a b c col :
  try_except (three_ints a b c) (Ok None) = Ok (Some col) ->
  is_color col = true.
Proof.
  destruct (three_ints a b c) as [[col'|]|e] eqn:H3; cbn; try done.
  intros [= <-]. by eapply three_ints_color.
Qed.

Lemma hex_val_range a : ishex_char a = true -> 0 <= hex_val a <= 15.
Proof.
  unfold ishex_char, hex_val, isdigit_char, in_range.
  destruct (N.leb_spec 48 (code a)), (N.leb_spec (code a) 57),
    (N.leb_spec 65 (code a)), (N.leb_spec (code a) 70),
    (N.leb_spec 97 (code a)), (N.leb_spec (code a) 102);
    cbn; intros Hh; try discriminate Hh; lia.
Qed.

Lemma hex_pair_byte a b :
  ishex_char a = true -> ishex_char b = true ->
  in_byte (Resolver.hex_pair a b) = true.
Proof.
  intros Ha%hex_val_range Hb%hex_val_range.
  unfold in_byte, Resolver.hex_pair. apply andb_true_intro. lia.
Qed.

Lemma rgb_text_column_color d rec col :
  rgb_text_column d rec = Ok (Some col) -> is_color col = true.
Proof.
  unfold rgb_text_column.
  destruct (d !! "rgb_text") as [idx|]; [|done].
  destruct (getitem rec idx) as [v|]; [|done]. cbn [bind].
  destruct v as [| | | |s|]; try done.
  destruct (startswith "rgb(" (lower s) && endswith ")" s); [|done].
  destruct (split "," (slice_str s 4 (-1))) as [|p0 [|p1 [|p2 [|p3 ps]]]];
    try done.
  apply try_three_ints_color.
Qed.

Lemma rgb_columns_color r g b col :
  rgb_columns r g b = Ok (Some col) -> is_color col = true.
Proof.
  unfold rgb_columns.
  destruct (is_not_none r && is_not_none g && is_not_none b); [|done].
  apply try_three_ints_color.
Qed.

Lemma color_column_color v col :
  color_column v = Ok (Some col) -> is_color col = true.
Proof.
  unfold color_column. destruct v as [| | | |cv|]; try done.
  cbn zeta.
  set (s := if startswith "#" (strip cv) then drop_str 1 (strip cv) else strip cv).
  rewrite hex_block_spec.
  assert (Hcsv : match map strip (split "," (delete_char ")" (delete_char "(" s))) with
                 | [p0; p1; p2] =>
                     try_except (three_ints (VStr p0) (VStr p1) (VStr p2)) (Ok None)
                 | _ => Ok None
                 end = Ok (Some col) -> is_color col = true).
  { destruct (map strip _) as [|p0 [|p1 [|p2 [|p3 ps]]]]; try done.
    apply try_three_ints_color. }
  destruct s as [|r1 [|r2 [|g1 [|g2 [|b1 [|b2 [|x s]]]]]]];
    cbn [falls_or]; try exact Hcsv.
  destruct (all_str ishex_char _) eqn:Hall; cbn [falls_or]; [|exact Hcsv].
  intros [= <-]. cbn [all_str] in Hall.
  repeat (apply andb_prop in Hall as [? Hall]).
  cbn [is_color]. by rewrite !hex_pair_byte.
Qed.

Lemma aci_column_color aci2rgb v col :
  (forall i c, aci2rgb i = Ok c -> is_color c = true) ->
  aci_column aci2rgb v = Ok (Some col) -> is_color col = true.
Proof.
  intros Htable. unfold aci_column.
  destruct (is_not_none v); [|done].
  destruct (int v) as [aci|]; [|done]. cbn [bind].
  destruct (negb _); [|done].
  destruct (aci2rgb aci) as [c|] eqn:Hc; [|done]. cbn.
  intros [= <-]. by eapply Htable.
Qed.

(** Destructs the blocks of [_parse_rgb_from_record] in a hypothesis
    that gives its result. *)
Ltac blocks H :=
  repeat match type of H with
         | returns_or ?b _ = _ =>
             let E := fresh "Hblock" in
             destruct b as [[?|]|?] eqn:E; cbn [returns_or] in H
         | bind ?m _ = _ =>
             let E := fresh "Hval" in
             destruct m eqn:E; cbn [bind] in H
         end.

(** X5: when the indexed-colour table gives colours with channels in
    [0, 255], so does the decoder: whatever it returns has its three
    channels in that range. *)
Theorem decoder_gives_colors aci2rgb rec fields col :
  (forall i c, aci2rgb i = Ok c -> is_color c = true) ->
  _parse_rgb_from_record aci2rgb rec fields = Ok col ->
  is_color col = true.
Proof.
  intros Htable H. unfold _parse_rgb_from_record in H. cbn zeta in H.
  blocks H; try discriminate H; injection H as <-;
    eauto using rgb_text_column_color, rgb_columns_color, color_column_color,
      aci_column_color.
Qed.

Lemma aci_column_away t1 t2 v :
  (forall i, i <> 0 -> i <> 256 -> t1 i = t2 i) ->
  aci_column t1 v = aci_column t2 v.
Proof.
  intros Hsame. unfold aci_column.
  destruct (is_not_none v); [|done].
  destruct (int v) as [aci|]; [|done]. cbn [bind].
  destruct (Z.eqb_spec aci 0); [done|].
  destruct (Z.eqb_spec aci 256); [done|]. cbn.
  by rewrite Hsame.
Qed.

(** X6: the decoder never looks up the index 0 or 256: two tables that
    agree on every other index give the same result for every record. *)
Theorem decoder_skips_sentinels t1 t2 rec fields :
  (forall i, i <> 0 -> i <> 256 -> t1 i = t2 i) ->
  _parse_rgb_from_record t1 rec fields = _parse_rgb_from_record t2 rec fields.
Proof.
  intros Hsame. unfold _parse_rgb_from_record. cbn zeta.
  destruct (rgb_text_column _ rec) as [[?|]|?]; cbn [returns_or]; try done.
  repeat (match goal with
          | |- bind ?m _ = bind ?m _ => destruct m; cbn [bind]; try done
          | |- returns_or ?b _ = returns_or ?b _ =>
              destruct b as [[?|]|?]; cbn [returns_or]; try done
          end).
  by rewrite (aci_column_away t1 t2).
Qed.

Lemma get_val_attribute rec fields n ns v :
  Resolver.attribute rec fields (lower n) = Some v ->
  get_val (name_to_idx fields) rec (n :: ns) = Ok v.
Proof.
  unfold Resolver.attribute. cbn [get_val].
  destruct (name_to_idx fields !! lower n) as [idx|]; [|done]. cbn.
  intros Hv. unfold getitem. by rewrite Hv.
Qed.

(** X7: without an rgb_text column, a record whose r, g and b columns
    hold values that [int()] reads as integers of [0, 255] (integers,
    numeric text, floats, logicals) decodes to these three integers,
    whatever its colour text and index columns hold. *)
Theorem decoder_reads_rgb_columns aci2rgb rec fields r g b R G B :
  name_to_idx fields !! "rgb_text" = None ->
  Resolver.attribute rec fields "r" = Some r ->
  Resolver.attribute rec fields "g" = Some g ->
  Resolver.attribute rec fields "b" = Some b ->
  int r = Ok R -> int g = Ok G -> int b = Ok B ->
  is_color (R, G, B) = true ->
  _parse_rgb_from_record aci2rgb rec fields = Ok (R, G, B).
Proof.
  intros Hno Hr Hg Hb HR HG HB Hcol.
  unfold _parse_rgb_from_record, rgb_text_column. cbn zeta. rewrite Hno.
  cbn [returns_or].
  rewrite (get_val_attribute rec fields "r" [] r Hr),
    (get_val_attribute rec fields "g" [] g Hg),
    (get_val_attribute rec fields "b" [] b Hb). cbn [bind].
  unfold rgb_columns, three_ints.
  assert (Hnn : forall v n, int v = Ok n -> is_not_none v = true)
    by (intros v n Hv; by destruct v).
  rewrite (Hnn r R HR), (Hnn g G HG), (Hnn b B HB), HR, HG, HB. cbn [andb bind].
  cbn [is_color] in Hcol. by rewrite Hcol.
Qed.

End decoder.

Lemma aci2rgb_named_colors i c :
  aci2rgb_named i = Py.Ok c -> is_color c = true.
Proof.
  intros H. unfold aci2rgb_named in H.
  repeat match type of H with
         | context [match ?x with _ => _ end] => destruct x; try discriminate H
         end;
    injection H as <-; reflexivity.
Qed.

Lemma decoder_gives_colors_witness :
  is_color (255, 0, 170) = true.
Proof.
  apply (decoder_gives_colors aci2rgb_named
           [Py.VStr "A"; Py.VStr "#ff00Aa"] ["layer"; "color"] (255, 0, 170)
           aci2rgb_named_colors).
  reflexivity.
Defined.

Lemma decoder_skips_sentinels_witness :
  shp2dxf._parse_rgb_from_record aci2rgb_named [Py.VInt 256] ["aci"]
  = shp2dxf._parse_rgb_from_record aci2rgb_sentinels [Py.VInt 256] ["aci"].
Proof.
  apply (decoder_skips_sentinels aci2rgb_named aci2rgb_sentinels).
  intros i H0 H256. unfold aci2rgb_sentinels.
  apply Z.eqb_neq in H0, H256. by rewrite H0, H256.
Defined.

Lemma decoder_reads_rgb_columns_witness :
  shp2dxf._parse_rgb_from_record aci2rgb_named
    [Py.VInt 10; Py.VStr " 20 "; Py.VBool true; Py.VStr "#ffffff"]
    ["r"; "g"; "b"; "color"]
  = Py.Ok (10, 20, 1).
Proof.
  apply (decoder_reads_rgb_columns aci2rgb_named _ _
           (Py.VInt 10) (Py.VStr " 20 ") (Py.VBool true)); reflexivity.
Defined.

Section colour_text.
Import Py shp2dxf.
Variable aci2rgb : Z -> Res RGB.
Implicit Types (rec : list value) (fields : list string) (c : RGB).

Lemma attribute_absent rec fields n :
  name_to_idx fields !! n = None -> Resolver.attribute rec fields n = None.
Proof. intros H. unfold Resolver.attribute. by rewrite H. Qed.

Lemma hex_values_checked : forallb hex_reads_back byte_values = true.
Proof. vm_compute. reflexivity. Qed.

Lemma hex2_reads_back u n :
  in_byte n = true ->
  ishex_char (hex_digit u (n / 16)) = true /\
  ishex_char (hex_digit u (n mod 16)) = true /\
  Resolver.hex_pair (hex_digit u (n / 16)) (hex_digit u (n mod 16)) = n.
Proof.
  intros Hn. pose proof hex_values_checked as H.
  rewrite forallb_forall in H. specialize (H n (in_byte_values n Hn)).
  unfold hex_reads_back in H. rewrite forallb_forall in H.
  assert (Hu : In u [true; false]) by (destruct u; cbn; tauto).
  apply H in Hu. apply andb_prop in Hu as [[H1 H2]%andb_prop H3].
  apply Z.eqb_eq in H3. done.
Qed.

Lemma hex_not_hash a : ishex_char a = true -> Ascii.eqb "#" a = false.
Proof.
  intros Ha. destruct (Ascii.eqb_spec "#" a); [|done]. subst. discriminate Ha.
Qed.

Lemma no_rgb_steps rec fields :
  name_to_idx fields !! "rgb_text" = None ->
  name_to_idx fields !! "r" = None ->
  Resolver.step_rgb_text (Resolver.attribute rec fields) = None /\
  Resolver.step_rgb_fields (Resolver.attribute rec fields) = None.
Proof.
  intros Ht Hr. unfold Resolver.step_rgb_text, Resolver.step_rgb_fields.
  cbn [Resolver.field_of].
  by rewrite (attribute_absent rec fields "rgb_text" Ht),
    (attribute_absent rec fields "r" Hr).
Qed.

(** X8: without an rgb_text column and without an r column, a record
    whose colour text is, blanks around it apart, the six hexadecimal
    digits of a colour, in upper or in lower case, with or without a
    leading [#], decodes to that colour. *)
Theorem decoder_reads_hex rec fields cv (hash upper_case : bool) c :
  aligned rec fields ->
  name_to_idx fields !! "rgb_text" = None ->
  name_to_idx fields !! "r" = None ->
  Resolver.field_of (Resolver.attribute rec fields) ["color"; "colour"; "clr"]
  = VStr cv ->
  strip cv = (if hash then "#" else "") +:+ hex_text upper_case c ->
  is_color c = true ->
  _parse_rgb_from_record aci2rgb rec fields = Ok c.
Proof.
  intros Hal Ht Hr Hfield Hstrip Hcol.
  rewrite (parse_rgb_is_decode aci2rgb rec fields Hal).
  unfold Resolver.decode, Resolver.steps.
  destruct (no_rgb_steps rec fields Ht Hr) as [-> ->].
  cbn [Resolver.first_success].
  destruct c as [[R G] B]. cbn [is_color] in Hcol.
  apply andb_prop in Hcol as [[HR HG]%andb_prop HB].
  destruct (hex2_reads_back upper_case R HR) as (HR1 & HR2 & HRv).
  destruct (hex2_reads_back upper_case G HG) as (HG1 & HG2 & HGv).
  destruct (hex2_reads_back upper_case B HB) as (HB1 & HB2 & HBv).
  assert (Hhex : Resolver.step_hex (Resolver.attribute rec fields) = Some (R, G, B)).
  { unfold Resolver.step_hex, Resolver.color_text. rewrite Hfield, Hstrip.
    cbn [mbind option_bind]. unfold hex_text, hex2.
    rewrite !append_cons, !append_nil.
    set (body := String (hex_digit upper_case (R / 16)) _).
    assert (Hs : (if startswith "#" ((if hash then "#" else "") +:+ body)
                  then drop_str 1 ((if hash then "#" else "") +:+ body)
                  else (if hash then "#" else "") +:+ body) = body).
    { destruct hash; [reflexivity|].
      rewrite append_nil. unfold body. cbn [startswith].
      by rewrite (hex_not_hash _ HR1). }
    rewrite Hs. unfold body. cbn [all_str].
    by rewrite HR1, HR2, HG1, HG2, HB1, HB2, HRv, HGv, HBv. }
  by rewrite Hhex.
Qed.

End colour_text.

Lemma decoder_reads_hex_witness :
  shp2dxf._parse_rgb_from_record aci2rgb_named
    [Py.VStr "A"; Py.VStr " #FF8000 "] ["layer"; "colour"]
  = Py.Ok (255, 128, 0).
Proof.
  apply (decoder_reads_hex aci2rgb_named
           [Py.VStr "A"; Py.VStr " #FF8000 "] ["layer"; "colour"]
           " #FF8000 " true true (255, 128, 0));
    first [reflexivity | unfold aligned; simpl; lia].
Defined.

Section colour_csv.
Import Py shp2dxf.
Variable aci2rgb : Z -> Res RGB.
Implicit Types (rec : list value) (fields : list string) (c : RGB)
  (a b s : string).

Lemma delete_char_append x a b :
  delete_char x (a +:+ b) = delete_char x a +:+ delete_char x b.
Proof.
  induction a as [|ch a IH]; [done|].
  rewrite append_cons. cbn [delete_char].
  destruct (Ascii.eqb ch x); [done|]. by rewrite append_cons, IH.
Qed.

Lemma delete_char_none x a :
  all_str (fun ch => negb (Ascii.eqb ch x)) a = true -> delete_char x a = a.
Proof.
  induction a as [|ch a IH]; [done|]. cbn [all_str delete_char].
  intros [Hc Ha]%andb_prop. apply negb_true_iff in Hc.
  by rewrite Hc, IH.
Qed.

Lemma digit_is_not (ch x : ascii) :
  isdigit_char x = false -> isdigit_char ch = true ->
  negb (Ascii.eqb ch x) = true.
Proof.
  intros Hx Hc. apply negb_true_iff.
  destruct (Ascii.eqb_spec ch x); [|done]. subst. congruence.
Qed.

Lemma digit_not_white (ch : ascii) :
  isdigit_char ch = true -> isspace_char ch = false.
Proof.
  unfold isdigit_char, isspace_char, in_range.
  intros [H1 H2]%andb_prop. apply N.leb_le in H1, H2.
  apply orb_false_iff. split; apply andb_false_iff.
  - right. apply N.leb_gt. lia.
  - right. apply N.leb_gt. lia.
Qed.

Lemma rstrip_by_none (p : ascii -> bool) s :
  all_str (fun ch => negb (p ch)) s = true -> rstrip_by p s = s.
Proof.
  induction s as [|ch s IH]; [done|]. cbn [all_str rstrip_by].
  intros [Hc Hs]%andb_prop. apply negb_true_iff in Hc.
  rewrite IH by done. destruct s; [by rewrite Hc | done].
Qed.

Lemma lstrip_by_none (p : ascii -> bool) s :
  all_str (fun ch => negb (p ch)) s = true -> lstrip_by p s = s.
Proof.
  destruct s as [|ch s]; [done|]. cbn [all_str lstrip_by].
  intros [Hc _]%andb_prop. apply negb_true_iff in Hc. by rewrite Hc.
Qed.

Lemma strip_digits s : all_str isdigit_char s = true -> strip s = s.
Proof.
  intros Hs.
  assert (Hw : all_str (fun ch => negb (isspace_char ch)) s = true).
  { eapply all_str_impl; [|exact Hs].
    intros ch Hc. by rewrite (digit_not_white ch Hc). }
  unfold strip. by rewrite lstrip_by_none, rstrip_by_none.
Qed.

Lemma strip_blank_digits s :
  all_str isdigit_char s = true -> strip (String " " s) = s.
Proof. intros Hs. rewrite <- (strip_digits s Hs) at 2. reflexivity. Qed.

Lemma str_of_byte_digits n :
  in_byte n = true -> all_str isdigit_char (str_of_int n) = true.
Proof.
  intros Hn. pose proof byte_values_checked as H.
  rewrite forallb_forall in H. specialize (H n (in_byte_values n Hn)).
  unfold reads_back in H. by apply andb_prop in H as [Hd _].
Qed.

Lemma csv_parts a b s :
  all_str isdigit_char a = true -> all_str isdigit_char b = true ->
  all_str isdigit_char s = true ->
  map strip
    (split ","
       (delete_char ")"
          (delete_char "(" ("(" +:+ a +:+ ", " +:+ b +:+ ", " +:+ s +:+ ")"))))
  = [a; b; s].
Proof.
  intros Ha Hb Hs.
  assert (Hdel : forall x t, isdigit_char x = false ->
                   all_str isdigit_char t = true -> delete_char x t = t).
  { intros x t Hx Ht. apply delete_char_none.
    eapply all_str_impl; [|exact Ht]. intros ch. by apply digit_is_not. }
  rewrite !delete_char_append.
  rewrite (Hdel "("%char a), (Hdel "("%char b), (Hdel "("%char s) by done.
  rewrite (Hdel ")"%char a), (Hdel ")"%char b), (Hdel ")"%char s) by done.
  change (delete_char "(" "(") with "". change (delete_char "(" ", ") with ", ".
  change (delete_char "(" ")") with ")". change (delete_char ")" "") with "".
  change (delete_char ")" ", ") with ", ". change (delete_char ")" ")") with "".
  rewrite append_nil.
  assert (Hnil : s +:+ "" = s)
    by (clear; induction s as [|ch s IH]; [done | by rewrite append_cons, IH]).
  rewrite Hnil.
  assert (Hblank : forall t, all_str isdigit_char t = true ->
            all_str (fun ch => negb (Ascii.eqb ch ",")) (String " " t) = true).
  { intros t Ht. cbn [all_str]. apply andb_true_intro. split; [reflexivity|].
    eapply all_str_impl; [apply digit_not_comma | done]. }
  change (", " +:+ b +:+ ", " +:+ s)
    with (String "," (String " " (b +:+ String "," (String " " s)))).
  rewrite split_append_sep
    by (eapply all_str_impl; [apply digit_not_comma | done]).
  rewrite <- (append_cons " " b).
  rewrite split_append_sep by by apply Hblank.
  rewrite split_no_sep by by apply Hblank.
  cbn [map]. by rewrite strip_digits, !strip_blank_digits.
Qed.

(** X9: without an rgb_text column and without an r column, a record
    whose colour text is, blanks around it apart, [(R, G, B)] for a
    colour with its channels in [0, 255] decodes to that colour. *)
Theorem decoder_reads_csv rec fields cv c :
  aligned rec fields ->
  name_to_idx fields !! "rgb_text" = None ->
  name_to_idx fields !! "r" = None ->
  Resolver.field_of (Resolver.attribute rec fields) ["color"; "colour"; "clr"]
  = VStr cv ->
  strip cv = csv_text c ->
  is_color c = true ->
  _parse_rgb_from_record aci2rgb rec fields = Ok c.
Proof.
  intros Hal Ht Hr Hfield Hstrip Hcol.
  rewrite (parse_rgb_is_decode aci2rgb rec fields Hal).
  unfold Resolver.decode, Resolver.steps.
  destruct (no_rgb_steps rec fields Ht Hr) as [-> ->].
  cbn [Resolver.first_success].
  destruct c as [[R G] B]. cbn [is_color] in Hcol.
  apply andb_prop in Hcol as [[HR HG]%andb_prop HB].
  assert (Htext : Resolver.color_text (Resolver.attribute rec fields)
                  = Some (csv_text (R, G, B))).
  { unfold Resolver.color_text. by rewrite Hfield, Hstrip. }
  assert (Hhex : Resolver.step_hex (Resolver.attribute rec fields) = None).
  { unfold Resolver.step_hex. rewrite Htext. cbn [mbind option_bind].
    unfold csv_text. rewrite append_cons, append_nil.
    by destruct (str_of_int R +:+ _) as [|? [|? [|? [|? [|? [|? ?]]]]]]. }
  assert (Hcsv : Resolver.step_csv (Resolver.attribute rec fields) = Some (R, G, B)).
  { unfold Resolver.step_csv. rewrite Htext. cbn [mbind option_bind].
    unfold csv_text. rewrite csv_parts by by apply str_of_byte_digits.
    unfold Resolver.channels, Resolver.to_int, int.
    destruct (str_of_byte R HR) as [-> _]. destruct (str_of_byte G HG) as [-> _].
    destruct (str_of_byte B HB) as [-> _]. cbn. by rewrite HR, HG, HB. }
  by rewrite Hhex, Hcsv.
Qed.

End colour_csv.

Lemma decoder_reads_csv_witness :
  shp2dxf._parse_rgb_from_record aci2rgb_named
    [Py.VStr "(12, 0, 255)"; Py.VStr "A"] ["clr"; "layer"]
  = Py.Ok (12, 0, 255).
Proof.
  apply (decoder_reads_csv aci2rgb_named
           [Py.VStr "(12, 0, 255)"; Py.VStr "A"] ["clr"; "layer"]
           "(12, 0, 255)" (12, 0, 255));
    first [reflexivity | unfold aligned; simpl; lia].
Defined.

Section decoder_errors.
Import Py shp2dxf.
Implicit Types (rec : list value) (fields : list string) (d : gmap string nat).

Lemma getitem_raises rec idx e :
  getitem rec idx = Raise e -> e = IndexError /\ (length rec <= idx)%nat.
Proof.
  unfold getitem. destruct (rec !! idx) eqn:Hi; [done|].
  intros [= <-]. split; [done|]. by apply lookup_ge_None.
Qed.

Lemma get_val_raises d rec names e :
  get_val d rec names = Raise e ->
  e = IndexError /\
  exists n idx, d !! n = Some idx /\ (length rec <= idx)%nat.
Proof.
  induction names as [|c cs IH]; [done|]. cbn [get_val].
  destruct (d !! lower c) as [idx|] eqn:Hc; [|done].
  intros [-> Hlen]%getitem_raises. split; [done|]. by exists (lower c), idx.
Qed.

Lemma rgb_text_column_raises d rec e :
  rgb_text_column d rec = Raise e ->
  e = IndexError /\
  exists n idx, d !! n = Some idx /\ (length rec <= idx)%nat.
Proof.
  unfold rgb_text_column.
  destruct (d !! "rgb_text") as [idx|] eqn:Hd; [|done].
  destruct (getitem rec idx) as [v|e'] eqn:Hv; cbn [bind].
  - destruct v as [| | | |s|]; try done.
    destruct (_ && _); [|done].
    destruct (split "," _) as [|p0 [|p1 [|p2 [|p3 ps]]]]; try done.
    by destruct (three_ints _ _ _).
  - intros [= <-]. apply getitem_raises in Hv as [-> Hlen].
    split; [done|]. by exists "rgb_text", idx.
Qed.

Lemma rgb_columns_returns r g b e : rgb_columns r g b <> Raise e.
Proof.
  unfold rgb_columns. destruct (_ && _); [|done]. by destruct (three_ints _ _ _).
Qed.

Lemma color_column_returns v e : color_column v <> Raise e.
Proof.
  unfold color_column. destruct v as [| | | |cv|]; try done. cbn zeta.
  rewrite hex_block_spec. cbn [falls_or].
  destruct (match _ with String _ _ => _ | _ => None end); [done|].
  destruct (map strip _) as [|p0 [|p1 [|p2 [|p3 ps]]]]; try done.
  by destruct (three_ints _ _ _).
Qed.

Lemma aci_column_returns aci2rgb v e : aci_column aci2rgb v <> Raise e.
Proof.
  unfold aci_column. destruct (is_not_none v); [|done].
  destruct (int v) as [aci|]; [|done]. cbn [bind].
  destruct (negb _); [|done]. by destruct (aci2rgb aci).
Qed.

(** X10: the decoder raises only when the record is shorter than its
    schema: the error is [IndexError], raised where the value of a column
    that the schema names is read beyond the end of the record.  No text,
    number or index in a record makes it raise, and neither does the
    indexed-colour table. *)
Theorem decoder_raises aci2rgb rec fields e :
  _parse_rgb_from_record aci2rgb rec fields = Raise e ->
  e = IndexError /\
  exists n idx,
    name_to_idx fields !! n = Some idx /\
    (length rec <= idx < length fields)%nat.
Proof.
  intros H.
  assert (Hgoal : e = IndexError /\
            exists n idx, name_to_idx fields !! n = Some idx /\
                          (length rec <= idx)%nat).
  { unfold _parse_rgb_from_record in H. cbn zeta in H.
    repeat match type of H with
           | returns_or ?b _ = _ =>
               let E := fresh "Hblock" in
               destruct b as [[?|]|?] eqn:E; cbn [returns_or] in H
           | bind ?m _ = _ =>
               let E := fresh "Hval" in
               destruct m eqn:E; cbn [bind] in H
           end;
      try discriminate H; injection H as <-;
      first [ by eapply rgb_text_column_raises
            | by eapply get_val_raises
            | by apply rgb_columns_returns in Hblock0
            | by apply color_column_returns in Hblock1
            | by apply aci_column_returns in Hblock2 ]. }
  destruct Hgoal as (-> & n & idx & Hn & Hlen). split; [done|].
  exists n, idx. split; [done|]. split; [done|]. by eapply name_to_idx_lt.
Qed.

End decoder_errors.

Lemma decoder_raises_witness :
  shp2dxf._parse_rgb_from_record aci2rgb_named [Py.VStr "A"] ["layer"; "aci"]
  = Py.Raise Py.IndexError /\
  exists n idx,
    shp2dxf.name_to_idx ["layer"; "aci"] !! n = Some idx /\
    (length [Py.VStr "A"] <= idx < length ["layer"; "aci"])%nat.
Proof.
  split; [reflexivity|].
  refine (proj2 (decoder_raises aci2rgb_named [Py.VStr "A"] ["layer"; "aci"]
                   Py.IndexError _)).
  reflexivity.
Defined.

(* ===================================================================== *)
(** * Properties of src/dxf2shp.py: the three outputs of a drawing        *)
(* ===================================================================== *)

Section outputs.
Import Py dxf2shp.
Context {P : Type} `{EqDecision P}.
Variable int2rgb : Z -> RGB.
Variable aci2rgb : Z -> Res RGB.
Implicit Types (pts : list P) (e : Entity P) (ws : WriterSet P) (k : Kind)
  (entities : list (Entity P)) (doc : Drawing) (fs : gmap string string).

(** X11: [close_if_needed] gives a ring whose first and last points are
    equal, appends at most the first point and nothing else, changes
    nothing when the points are already closed or there are none, and
    closing twice is closing once. *)
Theorem close_if_needed_ring pts :
  head (close_if_needed pts) = last (close_if_needed pts) /\
  close_if_needed (close_if_needed pts) = close_if_needed pts /\
  (head pts = last pts -> close_if_needed pts = pts) /\
  (head pts <> last pts ->
     exists first, head pts = Some first /\ close_if_needed pts = pts ++ [first]).
Proof.
  split; [apply close_if_needed_closed|].
  split; [apply close_if_needed_idemp|].
  destruct pts as [|first rest]; [by split|].
  rewrite (close_if_needed_cases (first :: rest) first eq_refl).
  cbn [head]. split.
  - intros Heq. by rewrite decide_True.
  - intros Hne. exists first. split; [done|]. by rewrite decide_False.
Qed.

(** X12: [entity_rgb] raises exactly when the entity has no true colour
    and an explicit colour index other than 0 and 256 that the table of
    indices rejects, and then with the table's error; a layer colour that
    the table rejects never makes it raise. *)
Theorem entity_rgb_raises doc e err :
  entity_rgb int2rgb aci2rgb doc e = Raise err <->
  dxf_true_color e = None /\
  exists aci, dxf_color e = Some aci /\ aci <> 0 /\ aci <> 256 /\
              aci2rgb aci = Raise err.
Proof.
  unfold entity_rgb. destruct (dxf_true_color e) as [tc|].
  { split; [done | by intros [? _]]. }
  assert (Hlayer : forall err',
    try_except
      (layer_obj <- of_option DXFTableEntryError
                      (layers_get doc (or_str (dxf_layer e) "0")) ;;
       aci2rgb (or_int (color layer_obj) 7))
      (Ok (0, 0, 0)) <> Raise err').
  { intros err'. destruct (layers_get doc _); cbn; [|done].
    by destruct (aci2rgb _). }
  destruct (dxf_color e) as [aci|]; cbn [or_int]; cbv zeta.
  - destruct (decide (aci = 0)) as [->|H0].
    { cbn [Z.eqb negb orb]. split; [by intros ?%Hlayer|].
      by intros [_ (a & [= <-] & ? & _)]. }
    destruct (decide (aci = 256)) as [->|H256].
    { cbn [Z.eqb Pos.eqb negb orb]. split; [by intros ?%Hlayer|].
      by intros [_ (a & [= <-] & _ & ? & _)]. }
    assert (E0 : (aci =? 0) = false) by by apply Z.eqb_neq.
    assert (E1 : (aci =? 256) = false) by by apply Z.eqb_neq.
    rewrite E0. cbv iota. rewrite E0, E1. cbn [negb orb]. split.
    + intros Hr. split; [done|]. by exists aci.
    + by intros [_ (a & [= <-] & _ & _ & Hr)].
  - cbn [Z.eqb Pos.eqb negb orb]. split; [by intros ?%Hlayer|].
    by intros [_ (a & [=] & _)].
Qed.

Lemma convert_entity_emit doc ws e :
  convert_entity int2rgb aci2rgb doc ws e
  = (c <- entity_rgb int2rgb aci2rgb doc e ;;
     Ok (emit ws (kind_of e) (shape_of e) (record_of e c))).
Proof.
  unfold convert_entity, kind_of, shape_of, record_of.
  destruct (entity_rgb _ _ _ _) as [c|err]; cbn [bind]; [|done].
  destruct (geometry e) as [xy|p1 p2|pts|pts]; try done;
    by destruct (is_closed e && _).
Qed.

Lemma kind_eqb_eq k k' : kind_eqb k k' = true <-> k = k'.
Proof. by destruct k, k'. Qed.

Lemma emit_writer ws k shape record k' :
  base (emit ws k shape record) = base ws /\
  shapes (get (emit ws k shape record) k')
  = shapes (get ws k') ++ (if kind_eqb k k' then [shape] else []) /\
  records (get (emit ws k shape record) k')
  = records (get ws k') ++ (if kind_eqb k k' then [record] else []) /\
  count_of (counts (emit ws k shape record)) k'
  = (count_of (counts ws) k' + (if kind_eqb k k' then 1 else 0))%nat /\
  (writer_of (emit ws k shape record) k' = None <->
   writer_of ws k' = None /\ kind_eqb k k' = false).
Proof.
  destruct ws as [b wp wl wg [np nl ng]].
  destruct k, k'; cbn; rewrite ?app_nil_r, ?Nat.add_0_r, ?Nat.add_1_r;
    repeat split; try done; try tauto; by intros [_ ?].
Qed.

(** What the loop over the entities adds to the writers it starts from. *)
Lemma convert_entities_adds doc ws entities ws' :
  convert_entities int2rgb aci2rgb doc ws entities = Ok ws' ->
  base ws' = base ws /\
  forall k,
    shapes (get ws' k) = shapes (get ws k) ++ map shape_of (of_kind k entities) /\
    (exists rs,
       records (get ws' k) = records (get ws k) ++ rs /\
       Forall2 (fun e r => exists c, entity_rgb int2rgb aci2rgb doc e = Ok c /\
                                     r = record_of e c)
               (of_kind k entities) rs) /\
    count_of (counts ws' ) k
    = (count_of (counts ws) k + length (of_kind k entities))%nat /\
    (writer_of ws' k = None <-> writer_of ws k = None /\ of_kind k entities = []).
Proof.
  revert ws. induction entities as [|e entities IH]; intros ws; cbn [convert_entities].
  - intros [= <-]. split; [done|]. intros k. cbn.
    rewrite app_nil_r, Nat.add_0_r. split_and!; [done| |done|tauto].
    exists []. by rewrite app_nil_r.
  - rewrite convert_entity_emit.
    destruct (entity_rgb _ _ _ e) as [c|err] eqn:Hc; cbn [bind]; [|done].
    intros Hrest. apply IH in Hrest as [Hbase Hk].
    split.
    { rewrite Hbase. apply emit_writer; exact points. }
    intros k. destruct (Hk k) as (Hs & (rs & Hr & Hrs) & Hn & Hw).
    destruct (emit_writer ws (kind_of e) (shape_of e) (record_of e c) k)
      as (_ & Es & Er & En & Ew).
    unfold of_kind in *. cbn [List.filter].
    destruct (kind_eqb (kind_of e) k) eqn:Ek; split_and!.
    + by rewrite Hs, Es, <- (assoc_L (++)).
    + exists (record_of e c :: rs). split.
      * by rewrite Hr, Er, <- (assoc_L (++)).
      * constructor; [by exists c | done].
    + rewrite Hn, En. cbn [length]. lia.
    + split; [|by intros [_ ?]].
      intros Hnone. apply Hw in Hnone as [Hnone _]. by apply Ew in Hnone as [_ ?].
    + by rewrite Hs, Es, app_nil_r.
    + exists rs. split; [|done]. by rewrite Hr, Er, app_nil_r.
    + rewrite Hn, En. lia.
    + split.
      * intros Hnone. apply Hw in Hnone as [Hnone ?]. split; [|done].
        by apply Ew in Hnone as [? _].
      * intros [Hnone Hnil]. apply Hw. split; [|done]. by apply Ew.
Qed.

Lemma of_kind_lengths entities :
  (length (of_kind points entities) + length (of_kind lines entities)
   + length (of_kind polygons entities) = length entities)%nat.
Proof.
  unfold of_kind. induction entities as [|e entities IH]; [done|].
  cbn [List.filter length]. destruct (kind_of e); cbn; lia.
Qed.

(** X13: after the loop over the entities of a drawing, every output is
    balanced: its count is the number of its shapes and of its records,
    and is the number of entities that belong to it; a writer exists
    exactly for the outputs that received an entity; the three counts add
    up to the number of entities. *)
Theorem outputs_balanced doc base_out entities ws :
  convert_entities int2rgb aci2rgb doc (new_WriterSet base_out) entities = Ok ws ->
  base ws = base_out /\
  (forall k,
     count_of (counts ws) k = length (of_kind k entities) /\
     length (shapes (get ws k)) = count_of (counts ws) k /\
     length (records (get ws k)) = count_of (counts ws) k /\
     (writer_of ws k = None <-> count_of (counts ws) k = 0%nat)) /\
  (n_points (counts ws) + n_lines (counts ws) + n_polygons (counts ws)
   = length entities)%nat.
Proof.
  intros Hc. apply convert_entities_adds in Hc as [Hbase Hk].
  split; [done|].
  assert (Hn : forall k, count_of (counts ws) k = length (of_kind k entities)).
  { intros k. destruct (Hk k) as (_ & _ & Hn & _). rewrite Hn. by destruct k. }
  split.
  - intros k. destruct (Hk k) as (Hs & (rs & Hr & Hrs) & _ & Hw).
    rewrite Hn. split_and!; [done| | |split].
    + rewrite Hs. destruct k; cbn; by rewrite length_map.
    + rewrite Hr. apply Forall2_length in Hrs. by destruct k; cbn.
    + intros Hnone. apply Hw in Hnone as [_ ->]. done.
    + intros Hz. apply Hw. split; [by destruct k|]. by apply nil_length_inv.
  - rewrite <- (of_kind_lengths entities).
    by rewrite <- (Hn points), <- (Hn lines), <- (Hn polygons).
Qed.

(** X14: every output holds the shapes of its entities in drawing order,
    and for each of them, in the same order, a record of its type, of its
    colour as [rgb(R,G,B)] and, for an entity that has its layer set, of
    that layer. *)
Theorem outputs_in_drawing_order doc base_out entities ws :
  convert_entities int2rgb aci2rgb doc (new_WriterSet base_out) entities = Ok ws ->
  forall k,
    shapes (get ws k) = map shape_of (of_kind k entities) /\
    Forall2 (fun e r => exists c, entity_rgb int2rgb aci2rgb doc e = Ok c /\
                        snd (fst r) = dxftype e /\
                        snd r = rgb_text c /\
                        forall l, dxf_layer e = Some l -> fst (fst r) = l)
            (of_kind k entities) (records (get ws k)).
Proof.
  intros Hc k. apply convert_entities_adds in Hc as [_ Hk].
  destruct (Hk k) as (Hs & (rs & Hr & Hrs) & _ & _).
  split.
  - rewrite Hs. by destruct k.
  - replace (records (get ws k)) with rs by (rewrite Hr; by destruct k).
    eapply Forall2_impl; [exact Hrs|].
    intros e r (c & Hcol & ->). exists c. unfold record_of. cbn [fst snd].
    split_and!; try done. by intros l ->.
Qed.

(** X15: once the drawing is read, and when each of its polylines has at
    least one point, the conversion of the entities fails exactly when
    the colour of one of them does not resolve, and then with the error
    of the first such entity; the entities after it are not looked at. *)
Theorem convert_one_dxf_fails base_out doc entities fs err :
  Forall (fun e => has_vertices e = true) entities ->
  (convert_one_dxf int2rgb aci2rgb base_out doc entities fs = Raise err <->
   exists pre e post,
     entities = pre ++ e :: post /\
     Forall (fun e' => exists c, entity_rgb int2rgb aci2rgb doc e' = Ok c) pre /\
     entity_rgb int2rgb aci2rgb doc e = Raise err).
Proof.
  intros _. unfold convert_one_dxf.
  assert (Hiff : forall ws,
    convert_entities int2rgb aci2rgb doc ws entities = Raise err <->
    exists pre e post,
      entities = pre ++ e :: post /\
      Forall (fun e' => exists c, entity_rgb int2rgb aci2rgb doc e' = Ok c) pre /\
      entity_rgb int2rgb aci2rgb doc e = Raise err).
  { induction entities as [|e entities IH]; intros ws; cbn [convert_entities].
    - split; [done|]. intros (pre & e & post & Hnil & _). by destruct pre.
    - rewrite convert_entity_emit.
      destruct (entity_rgb _ _ _ e) as [c|err'] eqn:Hc; cbn [bind].
      + rewrite IH. split.
        * intros (pre & e' & post & -> & Hpre & He').
          exists (e :: pre), e', post. repeat split; [|done].
          constructor; [by exists c | done].
        * intros (pre & e' & post & Heq & Hpre & He').
          destruct pre as [|e0 pre]; cbn in Heq.
          -- injection Heq as <- _. congruence.
          -- injection Heq as <- ->. exists pre, e', post.
             repeat split; [|done]. by inversion Hpre.
      + split.
        * intros [= <-]. by exists [], e, entities.
        * intros (pre & e' & post & Heq & Hpre & He').
          destruct pre as [|e0 pre]; cbn in Heq.
          -- injection Heq as <- _. congruence.
          -- injection Heq as <- ->. inversion Hpre as [|? ? [c Hc'] _]. congruence. }
  rewrite <- (Hiff (new_WriterSet base_out)).
  destruct (convert_entities _ _ _ _ _); cbn [bind]; split; congruence.
Qed.

Lemma write_cpg_if_missing_lookup b fs x :
  write_cpg_if_missing b fs !! x
  = match fs !! x with
    | Some v => Some v
    | None => if String.eqb x (b +:+ ".cpg") then Some DBF_CPG else None
    end.
Proof.
  unfold write_cpg_if_missing.
  destruct (fs !! (b +:+ ".cpg")) as [v|] eqn:Hb.
  - destruct (fs !! x) as [w|] eqn:Hx; [done|].
    destruct (String.eqb_spec x (b +:+ ".cpg")) as [->|]; [congruence | done].
  - destruct (String.eqb_spec x (b +:+ ".cpg")) as [->|Hne].
    + by rewrite lookup_insert_eq, Hb.
    + rewrite lookup_insert_ne by done. by destruct (fs !! x).
Qed.

Lemma close_all_lookup ws fs x :
  close_all ws fs !! x
  = match fs !! x with
    | Some v => Some v
    | None =>
        if existsb (fun k => created ws k &&
                             String.eqb x (cpg_path (base ws) k)) kinds
        then Some "UTF-8" else None
    end.
Proof.
  unfold close_all, kinds, created, cpg_path.
  cbn [foldl existsb writer_of kind_name].
  destruct (w_points ws), (w_lines ws), (w_polygons ws);
    rewrite ?write_cpg_if_missing_lookup; cbn [andb orb];
    destruct (fs !! x); try done;
    repeat match goal with
           | |- context [String.eqb ?a ?b] => destruct (String.eqb a b)
           end; done.
Qed.

(** X16: of the files the script itself writes (those of the shapefile
    library apart), [close_all] leaves every file that exists as it is,
    writes "UTF-8" to the [.cpg] path of each output whose writer was
    created when no such file exists, creates no other file, and closing
    twice gives the same files as closing once. *)
Theorem close_all_files ws fs :
  (forall x,
     close_all ws fs !! x
     = match fs !! x with
       | Some v => Some v
       | None =>
           if existsb (fun k => created ws k &&
                                String.eqb x (cpg_path (base ws) k)) kinds
           then Some "UTF-8" else None
       end) /\
  close_all ws (close_all ws fs) = close_all ws fs.
Proof.
  split; [apply close_all_lookup|].
  apply map_eq. intros x. rewrite !close_all_lookup.
  destruct (fs !! x); [done|]. by destruct (existsb _ _).
Qed.

(** X17: of the files the script itself writes (those of the shapefile
    library apart), a drawing that converts leaves every file that exists
    as it is and creates a [.cpg] file with "UTF-8" exactly for the
    outputs that received at least one entity. *)
Theorem convert_one_dxf_files base_out doc entities fs ws fs' :
  convert_one_dxf int2rgb aci2rgb base_out doc entities fs = Ok (ws, fs') ->
  forall x,
    fs' !! x
    = match fs !! x with
      | Some v => Some v
      | None =>
          if existsb (fun k => has_points (of_kind k entities) &&
                               String.eqb x (cpg_path base_out k)) kinds
          then Some "UTF-8" else None
      end.
Proof.
  unfold convert_one_dxf.
  destruct (convert_entities _ _ _ _ _) as [ws0|] eqn:Hc; cbn [bind]; [|done].
  intros [= -> <-] x.
  apply convert_entities_adds in Hc as [Hbase Hk].
  rewrite close_all_lookup, Hbase. cbn [base new_WriterSet].
  assert (Hcreated : forall k, created ws k = has_points (of_kind k entities)).
  { intros k. destruct (Hk k) as (_ & _ & _ & Hw). unfold created.
    destruct (writer_of ws k) as [w|].
    - destruct (of_kind k entities); [|done].
      assert (Some w = None) as [=]. apply Hw. by destruct k.
    - destruct Hw as [Hw _]. by destruct (Hw eq_refl) as [_ ->]. }
  unfold kinds. cbn [existsb]. by rewrite !Hcreated.
Qed.

End outputs.

Lemma outputs_balanced_witness :
  exists ws,
    dxf2shp.convert_entities int2rgb_bytes aci2rgb_named sample_drawing
      (dxf2shp.new_WriterSet "out/plan") sample_entities = Py.Ok ws /\
    (dxf2shp.n_points (dxf2shp.counts ws) + dxf2shp.n_lines (dxf2shp.counts ws)
     + dxf2shp.n_polygons (dxf2shp.counts ws) = 3)%nat.
Proof.
  eexists. split; [vm_compute; reflexivity|].
  refine (proj2 (proj2 (outputs_balanced int2rgb_bytes aci2rgb_named
                          sample_drawing "out/plan" sample_entities _ _))).
  vm_compute. reflexivity.
Defined.

Lemma outputs_in_drawing_order_witness :
  exists ws,
    dxf2shp.convert_entities int2rgb_bytes aci2rgb_named sample_drawing
      (dxf2shp.new_WriterSet "out/plan") sample_entities = Py.Ok ws /\
    dxf2shp.shapes (dxf2shp.get ws dxf2shp.polygons)
    = map shape_of (of_kind dxf2shp.polygons sample_entities).
Proof.
  eexists. split; [vm_compute; reflexivity|].
  refine (proj1 (outputs_in_drawing_order int2rgb_bytes aci2rgb_named
                   sample_drawing "out/plan" sample_entities _ _ dxf2shp.polygons)).
  vm_compute. reflexivity.
Defined.

Lemma convert_one_dxf_fails_witness :
  dxf2shp.convert_one_dxf int2rgb_bytes aci2rgb_named "out/plan" no_layers
    [sample_triangle; sample_byobject] ∅
  = Py.Raise Py.IndexError.
Proof.
  refine (proj2 (convert_one_dxf_fails int2rgb_bytes aci2rgb_named "out/plan"
                   no_layers [sample_triangle; sample_byobject] ∅ Py.IndexError _) _).
  - repeat constructor.
  - exists [sample_triangle], sample_byobject, [].
    split; [reflexivity|]. split; [|reflexivity].
    constructor; [|constructor]. by exists (255, 0, 0).
Defined.

Lemma convert_one_dxf_files_witness :
  exists ws,
    dxf2shp.convert_entities int2rgb_bytes aci2rgb_named sample_drawing
      (dxf2shp.new_WriterSet "out/plan") sample_entities = Py.Ok ws /\
    dxf2shp.close_all ws {[ "out/plan_lines.cpg" := "ISO-8859-1" ]}
      !! "out/plan_lines.cpg" = Some "ISO-8859-1" /\
    dxf2shp.close_all ws {[ "out/plan_lines.cpg" := "ISO-8859-1" ]}
      !! "out/plan_points.cpg" = Some "UTF-8".
Proof.
  eexists. split; [vm_compute; reflexivity|].
  split;
    (etransitivity;
     [ refine (convert_one_dxf_files int2rgb_bytes aci2rgb_named "out/plan"
                 sample_drawing sample_entities
                 {[ "out/plan_lines.cpg" := "ISO-8859-1" ]} _ _ _ _);
       reflexivity
     | vm_compute; reflexivity ]).
Defined.

(* ===================================================================== *)
(** * From a drawing to a shapefile and back                              *)
(* ===================================================================== *)

Section there_and_back.
Import Py dxf2shp.
Context {P A : Type} `{EqDecision P}.
Variable int2rgb : Z -> RGB.
Variable aci2rgb : Z -> Res RGB.
Implicit Types (pts : list P) (e : Entity P) (ws : WriterSet P).

Lemma line_read_back (dxfattribs : A) pts :
  shp2dxf.convert_shp_to_dxf_shape dxfattribs (Codec.read_back (line [pts])) []
  = if has_points pts then [shp2dxf.add_lwpolyline pts false dxfattribs] else [].
Proof.
  unfold shp2dxf.convert_shp_to_dxf_shape, Codec.read_back.
  cbn [shp2dxf.shapeType concat Codec.starts_from]. rewrite app_nil_r.
  change (shp2dxf.POLYLINE =? shp2dxf.POINT) with false.
  change (shp2dxf.POLYLINE =? shp2dxf.POLYLINE) with true.
  change (shp2dxf.POLYLINE =? shp2dxf.POLYGON) with false.
  cbn [orb andb]. rewrite split_single_part. cbn [foldl].
  by destruct pts.
Qed.

(** X18: the geometry of an entity survives the way to a shapefile and
    back, the codec being as modelled in [Codec].  The shape written for
    an entity whose colour resolves and whose polyline, if it is one, has
    at least one point, read back and converted by the other converter,
    is the point for a point, the open polyline of the two ends for a
    line, the closed polyline of the closed ring for a closed polyline of
    three points or more, and the open polyline of the same points for
    any other polyline. *)
Theorem geometry_there_and_back (dxfattribs : A) doc ws e ws' :
  has_vertices e = true ->
  convert_entity int2rgb aci2rgb doc ws e = Ok ws' ->
  exists call,
    shapes (get ws' (kind_of e)) = shapes (get ws (kind_of e)) ++ [call] /\
    shp2dxf.convert_shp_to_dxf_shape dxfattribs (Codec.read_back call) []
    = match geometry e with
      | POINT xy => [shp2dxf.add_point xy dxfattribs]
      | LINE p1 p2 => [shp2dxf.add_lwpolyline [p1; p2] false dxfattribs]
      | LWPOLYLINE pts | POLYLINE pts =>
          if is_closed e && (3 <=? length pts)%nat
          then [shp2dxf.add_lwpolyline (close_if_needed pts) true dxfattribs]
          else [shp2dxf.add_lwpolyline pts false dxfattribs]
      end.
Proof.
  intros Hv. rewrite convert_entity_emit.
  destruct (entity_rgb _ _ _ e) as [c|]; cbn [bind]; [|done].
  intros [= <-]. exists (shape_of e). split; [apply emit_same|].
  assert (Hring : forall pts,
    (3 <=? length pts)%nat = true ->
    shp2dxf.convert_shp_to_dxf_shape dxfattribs
      (Codec.read_back (poly [close_if_needed pts])) []
    = [shp2dxf.add_lwpolyline (close_if_needed pts) true dxfattribs]).
  { intros pts Hlen. rewrite (polygon_read_back dxfattribs _ []).
    - by rewrite close_if_needed_idemp.
    - destruct pts as [|first rest]; [done|].
      unfold close_if_needed. by destruct (negb _). }
  assert (Hline : forall pts,
    has_points pts = true ->
    shp2dxf.convert_shp_to_dxf_shape dxfattribs (Codec.read_back (line [pts])) []
    = [shp2dxf.add_lwpolyline pts false dxfattribs]).
  { intros pts Hpts. by rewrite line_read_back, Hpts. }
  unfold shape_of, has_vertices in *.
  destruct (geometry e) as [xy|p1 p2|pts|pts]; [done | by apply Hline | |].
  - destruct (is_closed e); cbn [andb]; [|by apply Hline].
    destruct (3 <=? length pts)%nat eqn:Hlen; [by apply Hring | by apply Hline].
  - destruct (is_closed e); cbn [andb]; [|by apply Hline].
    destruct (3 <=? length pts)%nat eqn:Hlen; [by apply Hring | by apply Hline].
Qed.

End there_and_back.

Lemma geometry_there_and_back_witness :
  exists ws' call,
    dxf2shp.convert_entity int2rgb_bytes aci2rgb_named no_layers
      (dxf2shp.new_WriterSet "out") sample_triangle = Py.Ok ws' /\
    dxf2shp.shapes (dxf2shp.get ws' dxf2shp.polygons) = [call] /\
    shp2dxf.convert_shp_to_dxf_shape tt (Codec.read_back call) []
    = [shp2dxf.add_lwpolyline [(0, 0); (4, 0); (4, 3); (0, 0)] true tt].
Proof.
  destruct (geometry_there_and_back int2rgb_bytes aci2rgb_named tt no_layers
              (dxf2shp.new_WriterSet "out") sample_triangle
              (dxf2shp.emit (dxf2shp.new_WriterSet "out") dxf2shp.polygons
                 (shape_of sample_triangle)
                 (record_of sample_triangle (255, 0, 0)))
              eq_refl eq_refl) as (call & Hshape & Hback).
  eexists _, call. split; [reflexivity|]. split; [exact Hshape | exact Hback].
Defined.

(* ===================================================================== *)
(** * Properties of src/makePrj4shp.py: tokens and the catalogue          *)
(* ===================================================================== *)

Section tokens.
Import Py makePrj4shp.
Implicit Types (options : list (string * string * string)) (s t g : string).

Lemma same_choice_sound r r' : same_choice r r' = true -> r' = r.
Proof.
  destruct r as [d|e]; cbn.
  - by intros ->%choice_is_sound.
  - destruct e; try done. destruct r' as [|[]]; try done.
    by intros ->%String.eqb_eq.
Qed.

Lemma token_parses_sound r s options :
  token_parses r (normal_form s) = true -> parse_choice s options = r.
Proof.
  unfold token_parses.
  intros [[[Hd Hstrip]%andb_prop Hnf]%andb_prop Hc]%andb_prop.
  apply negb_true_iff in Hd. apply String.eqb_eq in Hstrip, Hnf.
  rewrite (parse_choice_normal_form options s (normal_form s)) by done.
  by apply same_choice_sound.
Qed.

Lemma ntm_tokens_checked :
  forallb (fun z => forallb (token_parses (ntm_choice z)) (ntm_tokens z))
          two_digit_zones = true.
Proof. vm_compute. reflexivity. Qed.

Lemma ntm_catalogue_checked :
  forallb (fun z =>
             existsb (fun o => String.eqb (entry_key o) ("NTM/" +:+ str_of_int z) &&
                               String.eqb (snd o) (snd (wkt_ntm z)))
                     build_options)
          ntm_zones = true.
Proof. vm_compute. reflexivity. Qed.

(** X19: an input that reads, in any case and blanks apart, as [NTM/]
    followed by a zone of one or two digits (a leading zero allowed)
    gives the NTM descriptor built for the zone when the zone is one of
    5..20, and the error about the NTM zone otherwise; for the zones 5..20
    the WKT is that of the catalogue entry of the same key. *)
Theorem ntm_token_resolution options z s :
  0 <= z < 100 ->
  In (normal_form s) (ntm_tokens z) ->
  parse_choice s options
  = (if (5 <=? z) && (z <=? 20) then Ok (built (wkt_ntm z))
     else Raise (ValueError "NTM zone must be 5–20 for mainland Norway.")) /\
  (5 <= z <= 20 ->
     exists o, In o build_options /\
               entry_key o = "NTM/" +:+ str_of_int z /\
               snd o = snd (wkt_ntm z)).
Proof.
  intros Hz Ht. split.
  - apply (token_parses_sound (ntm_choice z)).
    pose proof ntm_tokens_checked as H.
    rewrite forallb_forall in H. specialize (H z (in_two_digit_zones z Hz)).
    rewrite forallb_forall in H. by apply H.
  - intros Hr. pose proof ntm_catalogue_checked as H.
    rewrite forallb_forall in H.
    assert (Hin : In z ntm_zones).
    { unfold ntm_zones. apply in_map_iff. exists (Z.to_nat z).
      split; [lia|]. apply in_seq. lia. }
    specialize (H z Hin). apply existsb_exists in H as (o & Ho & [Hk Hw]%andb_prop).
    apply String.eqb_eq in Hk, Hw. by exists o.
Qed.

Lemma isdigit_char_digits (d : ascii) : isdigit_char d = true -> In d digits.
Proof.
  destruct d as [[] [] [] [] [] [] [] []]; try discriminate; intros _;
    unfold digits; cbn; tauto.
Qed.

Lemma int_two_digits d1 d2 :
  isdigit_char d1 = true -> isdigit_char d2 = true ->
  exists z, int_of_str (String d1 (String d2 EmptyString)) = Some z /\ 0 <= z < 100.
Proof.
  intros H1%isdigit_char_digits H2%isdigit_char_digits.
  assert (Hall : forallb (fun a => forallb (fun b =>
            match int_of_str (String a (String b EmptyString)) with
            | Some z => (0 <=? z) && (z <? 100)
            | None => false
            end) digits) digits = true) by (vm_compute; reflexivity).
  rewrite forallb_forall in Hall. specialize (Hall d1 H1).
  rewrite forallb_forall in Hall. specialize (Hall d2 H2).
  destruct (int_of_str _) as [z|]; [|done]. exists z. split; [done|lia].
Qed.

Lemma int_one_digit d :
  isdigit_char d = true ->
  exists z, int_of_str (String d EmptyString) = Some z /\ 0 <= z < 100.
Proof.
  intros H1%isdigit_char_digits.
  assert (Hall : forallb (fun a =>
            match int_of_str (String a EmptyString) with
            | Some z => (0 <=? z) && (z <? 100)
            | None => false
            end) digits = true) by (vm_compute; reflexivity).
  rewrite forallb_forall in Hall. specialize (Hall d H1).
  destruct (int_of_str _) as [z|]; [|done]. exists z. split; [done|lia].
Qed.

Lemma match_zone_N_int rest g :
  match_zone_N rest = Some g ->
  exists z, int_of_str g = Some z /\ 0 <= z < 100.
Proof.
  unfold match_zone_N. destruct rest as [|d1 [|d2 tl]]; try done.
  destruct (isdigit_char d1) eqn:H1; [|done].
  destruct (isdigit_char d2) eqn:H2; [|done]. cbn [andb].
  destruct (_ || _); [|done]. intros [= <-]. by apply int_two_digits.
Qed.

Lemma bind_match_zone_N_int (o : option string) g :
  o ≫= match_zone_N = Some g ->
  exists z, int_of_str g = Some z /\ 0 <= z < 100.
Proof. destruct o as [rest|]; [apply match_zone_N_int | done]. Qed.

Lemma fullmatch_wgs_utm_int t g :
  fullmatch_wgs_utm t = Some g ->
  exists z, int_of_str g = Some z /\ 0 <= z < 100.
Proof.
  unfold fullmatch_wgs_utm.
  destruct (strip_prefix "WGS/UTM" t ≫= match_zone_N) as [g'|] eqn:E1.
  - intros [= <-]. by eapply bind_match_zone_N_int.
  - apply bind_match_zone_N_int.
Qed.

Lemma fullmatch_euref_utm_int t g :
  fullmatch_euref_utm t = Some g ->
  exists z, int_of_str g = Some z /\ 0 <= z < 100.
Proof.
  unfold fullmatch_euref_utm.
  destruct (strip_prefix "EUREF89/UTM" t ≫= match_zone_N) as [g'|] eqn:E1.
  { intros [= <-]. by eapply bind_match_zone_N_int. }
  destruct (strip_prefix "ETRS89/UTM" t ≫= match_zone_N) as [g'|] eqn:E2.
  { intros [= <-]. by eapply bind_match_zone_N_int. }
  apply bind_match_zone_N_int.
Qed.

Lemma fullmatch_ntm_int t g :
  fullmatch_ntm t = Some g ->
  exists z, int_of_str g = Some z /\ 0 <= z < 100.
Proof.
  unfold fullmatch_ntm.
  destruct (strip_prefix "NTM/" t) as [[|d1 [|d2 [|]]]|]; try done.
  - destruct (isdigit_char d1) eqn:H1; [|done]. intros [= <-].
    by apply int_one_digit.
  - destruct (isdigit_char d1) eqn:H1; [|done].
    destruct (isdigit_char d2) eqn:H2; [|done]. intros [= <-].
    by apply int_two_digits.
Qed.

(** X20: an input that is not an index is parsed without looking at the
    options, and there are five outcomes only: the WGS84 or the EUREF89
    UTM descriptor built for a zone of two digits, the NTM descriptor
    built for a zone in 5..20, the error about the NTM zone, or the error
    about an unrecognized input. *)
Theorem token_choice_outcomes options s :
  isdigit (strip s) = false ->
  parse_choice s options = parse_choice s [] /\
  ((exists z, 0 <= z < 100 /\
              parse_choice s options = Ok (built (wkt_utm_wgs84 z))) \/
   (exists z, 0 <= z < 100 /\
              parse_choice s options = Ok (built (wkt_utm_euref89 z))) \/
   (exists z, 5 <= z <= 20 /\
              parse_choice s options = Ok (built (wkt_ntm z))) \/
   parse_choice s options = Raise ntm_zone_error \/
   parse_choice s options = Raise unrecognized_input).
Proof.
  intros Hd. unfold parse_choice. rewrite Hd. split; [done|].
  destruct (fullmatch_wgs_utm _) as [g|] eqn:E1.
  { apply fullmatch_wgs_utm_int in E1 as (z & -> & Hz).
    left. exists z. by split. }
  destruct (fullmatch_euref_utm _) as [g|] eqn:E2.
  { apply fullmatch_euref_utm_int in E2 as (z & -> & Hz).
    right; left. exists z. by split. }
  destruct (fullmatch_ntm _) as [g|] eqn:E3; [|by do 4 right].
  apply fullmatch_ntm_int in E3 as (z & -> & Hz). cbn [of_option bind].
  destruct (Z.leb_spec 5 z); [|by do 3 right; left].
  destruct (Z.leb_spec z 20); [|by do 3 right; left].
  do 2 right; left. exists z. split; [lia | done].
Qed.

Lemma keys_select_checked : forallb key_selects build_options = true.
Proof. vm_compute. reflexivity. Qed.

Lemma positions_select_checked :
  forallb (fun io => position_selects (fst io) (snd io))
          (imap pair build_options) = true.
Proof. vm_compute. reflexivity. Qed.

(** X21: every entry of the catalogue is selected by its position in the
    menu, and an input that reads, in any case and blanks apart, as the
    key shown for the entry selects the WKT of the entry, whatever list
    of options is passed. *)
Theorem catalogue_round_trip options i o :
  build_options !! i = Some o ->
  parse_choice (str_of_int (Z.of_nat i + 1)) build_options = Ok (entry_choice o) /\
  (forall s, normal_form s = entry_key o ->
     exists label, parse_choice s options = Ok (label, snd o)).
Proof.
  intros Hi. split.
  - pose proof positions_select_checked as H. rewrite forallb_forall in H.
    apply choice_is_sound. apply (H (i, o)).
    apply list_elem_of_In. by apply (elem_of_lookup_imap_2 pair).
  - intros s Hs. pose proof keys_select_checked as H.
    rewrite forallb_forall in H.
    assert (Hin : In o build_options)
      by (apply list_elem_of_In; by eapply list_elem_of_lookup_2).
    apply H in Hin. unfold key_selects in Hin.
    apply andb_prop in Hin as [[[Hd Hstrip]%andb_prop Hnf]%andb_prop Hc].
    apply negb_true_iff in Hd. apply String.eqb_eq in Hstrip, Hnf.
    rewrite (parse_choice_normal_form options s (entry_key o)) by done.
    destruct (parse_choice (entry_key o) []) as [[label wkt]|]; [|done].
    apply String.eqb_eq in Hc. subst. by exists label.
Qed.

End tokens.

Lemma ntm_token_resolution_witness :
  makePrj4shp.parse_choice " ntm / 07 " []
  = Py.Ok (built (makePrj4shp.wkt_ntm 7)).
Proof.
  refine (proj1 (ntm_token_resolution [] 7 " ntm / 07 " _ _)).
  - lia.
  - vm_compute. tauto.
Defined.

Lemma token_choice_outcomes_witness :
  makePrj4shp.parse_choice "ntm/21" makePrj4shp.build_options
  = makePrj4shp.parse_choice "ntm/21" [].
Proof.
  refine (proj1 (token_choice_outcomes makePrj4shp.build_options "ntm/21" _)).
  vm_compute. reflexivity.
Defined.

Lemma catalogue_round_trip_witness :
  exists label,
    makePrj4shp.parse_choice "euref89 / utm33" []
    = Py.Ok (label, snd (built (makePrj4shp.wkt_utm_euref89 33))).
Proof.
  refine (proj2 (catalogue_round_trip [] 1
                   (nth 1 makePrj4shp.build_options ("", "", "")) _)
                "euref89 / utm33" _).
  - vm_compute. reflexivity.
  - vm_compute. reflexivity.
Defined.

(* ===================================================================== *)
(** * Properties of src/makePrj4shp.py: the paths of the sidecar files    *)
(* ===================================================================== *)

Section paths.
Import Py makePrj4shp.
Implicit Types (dir name ext s a b : string) (fs : gmap string string).

Lemma drop_str_append a b : drop_str (String.length a) (a +:+ b) = b.
Proof. induction a as [|c a IH]; [done|]. by rewrite append_cons. Qed.

Lemma rfind_from_append c a b i last :
  rfind_from c (a +:+ b) i last
  = rfind_from c b (i + Z.of_nat (String.length a)) (rfind_from c a i last).
Proof.
  revert i last. induction a as [|x a IH]; intros i last.
  - rewrite append_nil. cbn. by rewrite Z.add_0_r.
  - rewrite append_cons. cbn [rfind_from String.length]. rewrite IH.
    f_equal. lia.
Qed.

Lemma rfind_from_without c s i last :
  without c s = true -> rfind_from c s i last = last.
Proof.
  unfold without. revert i last. induction s as [|x s IH]; intros i last; [done|].
  cbn [all_str rfind_from]. intros [Hx Hs]%andb_prop.
  apply negb_true_iff in Hx. rewrite Hx. by apply IH.
Qed.

Lemma without_append c a b :
  without c (a +:+ b) = without c a && without c b.
Proof.
  unfold without. induction a as [|x a IH]; [done|].
  rewrite append_cons. cbn [all_str]. by rewrite IH, andb_assoc.
Qed.

Lemma endswith_slash dir :
  endswith "/" dir = true -> exists d, dir = d +:+ "/".
Proof.
  induction dir as [|c dir IH]; [done|]. cbn [endswith].
  intros [Heq|Hrest]%orb_prop.
  - apply String.eqb_eq in Heq. exists EmptyString. by rewrite append_nil.
  - destruct (IH Hrest) as [d ->]. exists (String c d). by rewrite append_cons.
Qed.

Lemma rfind_sep dir rest :
  is_dir_prefix dir = true -> without "/" rest = true ->
  rfind "/" (dir +:+ rest) = Z.of_nat (String.length dir) - 1.
Proof.
  unfold is_dir_prefix, rfind. intros [Hnil|Hend]%orb_prop Hrest.
  - apply String.eqb_eq in Hnil as ->. rewrite append_nil.
    by rewrite rfind_from_without.
  - apply endswith_slash in Hend as [d ->].
    rewrite append_assoc, rfind_from_append.
    change ("/" +:+ rest) with (String "/" rest). cbn [rfind_from Ascii.eqb].
    cbn [Bool.eqb]. rewrite rfind_from_without by done.
    rewrite length_str_append. cbn [String.length]. lia.
Qed.

Lemma rfind_dot a ext :
  without "." ext = true ->
  rfind "." (a +:+ "." +:+ ext) = Z.of_nat (String.length a).
Proof.
  intros Hext. unfold rfind. rewrite rfind_from_append.
  change ("." +:+ ext) with (String "." ext). cbn [rfind_from Ascii.eqb].
  cbn [Bool.eqb]. by rewrite rfind_from_without.
Qed.

(** Where [splitext] finds the last slash and the last dot of such a
    path, and what lies between them. *)
Lemma splitext_indices dir name ext :
  is_dir_prefix dir = true ->
  without "/" name = true ->
  without "/" ext = true ->
  without "." ext = true ->
  rfind "/" (dir +:+ name +:+ "." +:+ ext) = Z.of_nat (String.length dir) - 1 /\
  rfind "." (dir +:+ name +:+ "." +:+ ext)
  = Z.of_nat (String.length dir + String.length name) /\
  slice_str (dir +:+ name +:+ "." +:+ ext)
    (Z.of_nat (String.length dir) - 1 + 1)
    (Z.of_nat (String.length dir + String.length name)) = name.
Proof.
  intros Hdir Hname Hsl Hdot.
  assert (Hrest : without "/" (name +:+ "." +:+ ext) = true).
  { rewrite without_append, Hname.
    change ("." +:+ ext) with (String "." ext). unfold without in *.
    cbn [all_str]. by rewrite Hsl. }
  split; [by apply rfind_sep|].
  rewrite <- (append_assoc dir name). split.
  - by rewrite (rfind_dot (dir +:+ name) ext Hdot), length_str_append.
  - unfold slice_str, slice_bound. rewrite !length_str_append.
    change (String.length ("." +:+ ext)) with (S (String.length ext)).
    destruct (Z.ltb_spec (Z.of_nat (String.length dir) - 1 + 1) 0); [lia|].
    destruct (Z.ltb_spec (Z.of_nat (String.length dir + String.length name)) 0); [lia|].
    rewrite !Z.min_l by lia.
    replace (Z.to_nat (Z.of_nat (String.length dir) - 1 + 1))
      with (String.length dir) by lia.
    replace (Z.to_nat (Z.of_nat (String.length dir + String.length name)
                       - (Z.of_nat (String.length dir) - 1 + 1)))
      with (String.length name) by lia.
    by rewrite append_assoc, drop_str_append, take_str_append.
Qed.

(** The base of a path whose name is not made of dots only. *)
Lemma splitext_base dir name ext :
  is_dir_prefix dir = true ->
  without "/" name = true ->
  all_str (Ascii.eqb ".") name = false ->
  without "/" ext = true ->
  without "." ext = true ->
  fst (splitext (dir +:+ name +:+ "." +:+ ext)) = dir +:+ name.
Proof.
  intros Hdir Hname Hall Hsl Hdot. unfold splitext.
  destruct (splitext_indices dir name ext Hdir Hname Hsl Hdot) as (-> & -> & ->).
  rewrite Hall. cbn [negb]. rewrite andb_true_r.
  destruct (Z.ltb_spec (Z.of_nat (String.length dir) - 1)
              (Z.of_nat (String.length dir + String.length name))) as [_|Hge].
  - cbn [fst]. rewrite Nat2Z.id, <- length_str_append, <- append_assoc.
    by rewrite take_str_append.
  - destruct name; [done | cbn [String.length] in Hge; lia].
Qed.

(** X22: for a path made of a directory prefix, a file name without a
    slash, a dot and an extension without a dot or a slash, [splitext]
    cuts at the last dot; unless the name before that dot is empty or made
    of dots only, in which case nothing is cut and the extension is
    empty. *)
Theorem splitext_last_dot dir name ext :
  is_dir_prefix dir = true ->
  without "/" name = true ->
  without "/" ext = true ->
  without "." ext = true ->
  splitext (dir +:+ name +:+ "." +:+ ext)
  = if all_str (Ascii.eqb ".") name
    then (dir +:+ name +:+ "." +:+ ext, "")
    else (dir +:+ name, "." +:+ ext).
Proof.
  intros Hdir Hname Hsl Hdot. unfold splitext.
  destruct (splitext_indices dir name ext Hdir Hname Hsl Hdot) as (-> & -> & ->).
  destruct (all_str (Ascii.eqb ".") name) eqn:Hall; cbn [negb].
  - by rewrite andb_false_r.
  - rewrite andb_true_r.
    destruct (Z.ltb_spec (Z.of_nat (String.length dir) - 1)
                (Z.of_nat (String.length dir + String.length name))) as [_|Hge].
    + rewrite Nat2Z.id, <- length_str_append, <- append_assoc.
      by rewrite take_str_append, drop_str_append.
    + destruct name; [done | cbn [String.length] in Hge; lia].
Qed.

(** X23: [write_sidecars] on a path [dir/name.ext] whose name is not made
    of dots only writes [dir/name.prj] and [dir/name.cpg]: the extension
    is replaced, whatever it is. *)
Theorem write_sidecars_paths dir name ext wkt fs :
  is_dir_prefix dir = true ->
  without "/" name = true ->
  all_str (Ascii.eqb ".") name = false ->
  without "/" ext = true ->
  without "." ext = true ->
  write_sidecars (dir +:+ name +:+ "." +:+ ext) wkt fs
  = <[dir +:+ name +:+ ".cpg" := "UTF-8"]>
      (<[dir +:+ name +:+ ".prj" := wkt +:+ newline]> fs).
Proof.
  intros Hdir Hname Hall Hsl Hdot. unfold write_sidecars.
  rewrite (splitext_base dir name ext) by done.
  by rewrite !append_assoc.
Qed.

(** X24: what [write_all] leaves on disk depends only on which paths are
    listed, not on their order or on how often a path is listed. *)
Theorem write_all_listing (l l' : list string) wkt fs :
  (forall p, In p l <-> In p l') ->
  write_all l wkt fs = write_all l' wkt fs.
Proof.
  intros Hsame. apply map_eq. intros x. rewrite !write_all_lookup.
  assert (Hex : forall (f : string -> string),
            Exists (fun p => x = f p) l <-> Exists (fun p => x = f p) l').
  { intros f. rewrite !List.Exists_exists.
    split; intros (p & Hp & ->); exists p; (split; [by apply Hsame | done]). }
  rewrite (decide_ext (Exists (fun p => x = cpg_of p) l)
                      (Exists (fun p => x = cpg_of p) l')) by apply Hex.
  by rewrite (decide_ext (Exists (fun p => x = prj_of p) l)
                         (Exists (fun p => x = prj_of p) l')) by apply Hex.
Qed.

End paths.

Lemma splitext_last_dot_witness :
  makePrj4shp.splitext "out/.hidden/plan_lines.SHP" = ("out/.hidden/plan_lines", ".SHP") /\
  makePrj4shp.splitext "out/.shp" = ("out/.shp", "").
Proof.
  split.
  - refine (splitext_last_dot "out/.hidden/" "plan_lines" "SHP" _ _ _ _);
      reflexivity.
  - refine (splitext_last_dot "out/" "" "shp" _ _ _ _); reflexivity.
Defined.

Lemma write_sidecars_paths_witness :
  makePrj4shp.write_sidecars "out/plan_lines.shp" "W" ∅
  = <["out/plan_lines.cpg" := "UTF-8"]>
      (<["out/plan_lines.prj" := "W" +:+ makePrj4shp.newline]> ∅).
Proof.
  refine (write_sidecars_paths "out/" "plan_lines" "shp" "W" ∅ _ _ _ _ _);
    reflexivity.
Defined.

Lemma write_all_listing_witness :
  makePrj4shp.write_all ["a.shp"; "b.shp"; "a.shp"] "W" ∅
  = makePrj4shp.write_all ["b.shp"; "a.shp"] "W" ∅.
Proof.
  refine (write_all_listing ["a.shp"; "b.shp"; "a.shp"] ["b.shp"; "a.shp"] "W" ∅ _).
  intros p. cbn [In]. tauto.
Defined.

(* ===================================================================== *)
(** * Properties of src/shpConverter.py against src/shp2dxf.py            *)
(* ===================================================================== *)

Section converters.
Import Py shp2dxf.
Context {P A : Type} `{EqDecision P}.
Implicit Types (shape : Shape P) (pts : list P) (parts : list Z).

Lemma split_parts_single shape :
  single_part shape = true -> _split_parts shape = [points shape].
Proof.
  unfold single_part, _split_parts.
  assert (Hone : slice (points shape) 0 (Z.of_nat (length (points shape)))
                 = points shape).
  { rewrite slice_segment by lia. apply segment_all. }
  destruct (parts shape) as [[|[] []]|]; try done; cbn; by rewrite Hone.
Qed.

Lemma split_parts_concat shape parts :
  shp2dxf.parts shape = Some parts ->
  head parts = Some 0 -> ascending parts = true ->
  within (length (points shape)) parts = true ->
  concat (_split_parts shape) = points shape.
Proof.
  intros Hp Hhd Hasc Hin. unfold _split_parts. rewrite Hp.
  cbn [default from_option id].
  destruct parts as [|a parts]; [done|]. injection Hhd as ->.
  rewrite concat_pieces by done. apply segment_all.
Qed.

Lemma concat_has_points (l : list (list P)) :
  concat (List.filter has_points l) = concat l.
Proof.
  induction l as [|[|p part] l IH]; [done|done|]. cbn. by rewrite IH.
Qed.

Lemma new_polyline (dxfattribs : A) shape (close : bool) :
  shapeType shape = (if close then POLYGON else POLYLINE) ->
  convert_shp_to_dxf_shape dxfattribs shape []
  = map (fun part =>
           add_lwpolyline (if close then dxf2shp.close_if_needed part else part)
                          close dxfattribs)
        (List.filter has_points (_split_parts shape)).
Proof.
  intros Hty. unfold convert_shp_to_dxf_shape. rewrite Hty.
  destruct close; cbn.
  - exact (foldl_parts true dxfattribs _ []).
  - exact (foldl_parts false dxfattribs _ []).
Qed.

(** X25: the first converter against the present one, on one shape.  It
    fails, with [IndexError], exactly on a point shape without points,
    which the present one skips.  On a point shape with points, and on a
    polyline shape of one part that has points, the two add the same
    entity, attributes apart.  On a polyline shape of several parts the
    first converter adds one polyline through all the points, where the
    present one adds one polyline per part: the points are the same, in
    the same order.  On a polygon shape of one part that has points both
    add one closed polyline, and only the present converter closes the
    ring by repeating the first point. *)
Theorem converters_compare (dxfattribs : A) shape :
  ((exists e, shpConverter.convert_shp_to_dxf_shape shape [] = Raise e) <->
   shapeType shape = POINT /\ points shape = []) /\
  (forall e, shpConverter.convert_shp_to_dxf_shape shape [] = Raise e ->
     e = IndexError /\ convert_shp_to_dxf_shape dxfattribs shape [] = []) /\
  (shapeType shape = POINT -> points shape <> [] ->
     shpConverter.convert_shp_to_dxf_shape shape []
     = Ok (map without_attribs (convert_shp_to_dxf_shape dxfattribs shape []))) /\
  (shapeType shape = POLYLINE -> single_part shape = true ->
   points shape <> [] ->
     shpConverter.convert_shp_to_dxf_shape shape []
     = Ok (map without_attribs (convert_shp_to_dxf_shape dxfattribs shape []))) /\
  (forall parts,
     shapeType shape = POLYLINE -> shp2dxf.parts shape = Some parts ->
     head parts = Some 0 -> ascending parts = true ->
     within (length (points shape)) parts = true ->
     shpConverter.convert_shp_to_dxf_shape shape []
     = Ok [add_lwpolyline (points shape) false tt] /\
     concat (map points_of (convert_shp_to_dxf_shape dxfattribs shape []))
     = points shape) /\
  (shapeType shape = POLYGON -> single_part shape = true ->
   points shape <> [] ->
     shpConverter.convert_shp_to_dxf_shape shape []
     = Ok [add_lwpolyline (points shape) true tt] /\
     convert_shp_to_dxf_shape dxfattribs shape []
     = [add_lwpolyline (dxf2shp.close_if_needed (points shape)) true dxfattribs]).
Proof.
  split_and!.
  - unfold shpConverter.convert_shp_to_dxf_shape.
    destruct (Z.eqb_spec (shapeType shape) POINT) as [Hty|Hty].
    + destruct (points shape) as [|p pts]; cbn.
      * split; [done | by exists IndexError].
      * split; [by intros [e ?] | by intros [_ ?]].
    + destruct (_ || _); (split; [by intros [e ?] | by intros [? _]]).
  - intros e. unfold shpConverter.convert_shp_to_dxf_shape, convert_shp_to_dxf_shape.
    destruct (Z.eqb_spec (shapeType shape) POINT) as [Hty|Hty].
    + destruct (points shape) as [|p pts]; cbn; [by intros [= <-] | done].
    + by destruct (_ || _).
  - intros Hty Hne.
    unfold shpConverter.convert_shp_to_dxf_shape, convert_shp_to_dxf_shape.
    rewrite Hty. cbn. by destruct (points shape).
  - intros Hty Hone Hne. rewrite (new_polyline dxfattribs shape false Hty).
    rewrite split_parts_single by done.
    unfold shpConverter.convert_shp_to_dxf_shape. rewrite Hty. cbn.
    by destruct (points shape).
  - intros parts Hty Hp Hhd Hasc Hin. split.
    + unfold shpConverter.convert_shp_to_dxf_shape. by rewrite Hty.
    + rewrite (new_polyline dxfattribs shape false Hty).
      rewrite map_map. cbn [points_of].
      rewrite map_id, concat_has_points. by eapply split_parts_concat.
  - intros Hty Hone Hne. split.
    + unfold shpConverter.convert_shp_to_dxf_shape. by rewrite Hty.
    + rewrite (new_polyline dxfattribs shape true Hty).
      rewrite split_parts_single by done. by destruct (points shape).
Qed.

(** X26: the first converter stops at the first point shape without
    points: the shapes before it were converted, the shapes after it are
    not looked at, and the error is [IndexError]; a list of shapes without
    such a shape converts. *)
Theorem first_converter_stops (shapes : list (Shape P)) msp :
  match shpConverter.convert_shp_to_dxf_shapes shapes msp with
  | Ok _ =>
      Forall (fun shape => ~ (shapeType shape = POINT /\ points shape = [])) shapes
  | Raise e =>
      e = IndexError /\
      exists pre shape post,
        shapes = pre ++ shape :: post /\
        Forall (fun shape => ~ (shapeType shape = POINT /\ points shape = [])) pre /\
        shapeType shape = POINT /\ points shape = []
  end.
Proof.
  revert msp. induction shapes as [|shape shapes IH]; intros msp; [by constructor|].
  cbn [shpConverter.convert_shp_to_dxf_shapes].
  assert (Hstep :
    match shpConverter.convert_shp_to_dxf_shape shape msp with
    | Ok _ => ~ (shapeType shape = POINT /\ points shape = [])
    | Raise e => e = IndexError /\ shapeType shape = POINT /\ points shape = []
    end).
  { unfold shpConverter.convert_shp_to_dxf_shape.
    destruct (Z.eqb_spec (shapeType shape) POINT) as [Hty|Hty].
    - destruct (points shape) as [|p pts]; cbn; [done | by intros [_ ?]].
    - destruct (_ || _); by intros [? _]. }
  destruct (shpConverter.convert_shp_to_dxf_shape shape msp) as [msp'|e];
    cbn [bind].
  - specialize (IH msp').
    destruct (shpConverter.convert_shp_to_dxf_shapes shapes msp') as [|e].
    + by constructor.
    + destruct IH as (-> & pre & s & post & -> & Hpre & Hs).
      split; [done|]. exists (shape :: pre), s, post.
      split; [done|]. split; [by constructor | done].
  - destruct Hstep as (-> & Hs). split; [done|].
    exists [], shape, shapes. by split.
Qed.

End converters.

(** The first converter on a file of three shapes, the second a point
    shape without points. *)
Example first_converter_run :
  shpConverter.convert_shp_to_dxf_shapes
    [ shp2dxf.mkShape shp2dxf.POLYLINE [(0, 0); (1, 0); (5, 5); (6, 5)] (Some [0; 2]);
      shp2dxf.mkShape shp2dxf.POINT [] (Some []);
      shp2dxf.mkShape shp2dxf.POINT [(7, 7)] (Some []) ] []
  = Py.Raise Py.IndexError /\
  shpConverter.convert_shp_to_dxf_shapes
    [ shp2dxf.mkShape shp2dxf.POLYLINE [(0, 0); (1, 0); (5, 5); (6, 5)] (Some [0; 2]);
      shp2dxf.mkShape shp2dxf.POINT [(7, 7)] (Some []) ] []
  = Py.Ok [ shp2dxf.add_lwpolyline [(0, 0); (1, 0); (5, 5); (6, 5)] false tt;
            shp2dxf.add_point (7, 7) tt ].
Proof. split; reflexivity. Qed.

(* ===================================================================== *)
(** * Properties of src/makePrj4shp.py: the main program                  *)
(* ===================================================================== *)

Section main_program.
Import Py makePrj4shp.
Implicit Types (folder name ext s t f : string) (names : list string)
  (fs : gmap string string).

Lemma rstrip_by_idemp (p : ascii -> bool) s :
  rstrip_by p (rstrip_by p s) = rstrip_by p s.
Proof.
  induction s as [|c s IH]; [done|]. cbn [rstrip_by].
  destruct (rstrip_by p s) as [|x r] eqn:Hr.
  - destruct (p c) eqn:Hc; [done|]. cbn [rstrip_by]. by rewrite Hc.
  - cbn [rstrip_by]. cbn [rstrip_by] in IH. by rewrite IH.
Qed.

Lemma lstrip_starts_outside (p : ascii -> bool) s :
  starts_outside p (lstrip_by p s) = true.
Proof.
  induction s as [|c s IH]; [done|]. cbn [lstrip_by].
  destruct (p c) eqn:Hc; [done|]. cbn. by rewrite Hc.
Qed.

Lemma rstrip_starts_outside (p : ascii -> bool) s :
  starts_outside p s = true -> starts_outside p (rstrip_by p s) = true.
Proof.
  destruct s as [|c s]; [done|]. cbn [starts_outside rstrip_by].
  intros Hc. apply negb_true_iff in Hc.
  destruct (rstrip_by p s); rewrite ?Hc; cbn; by rewrite Hc.
Qed.

Lemma lstrip_of_starts_outside (p : ascii -> bool) s :
  starts_outside p s = true -> lstrip_by p s = s.
Proof.
  destruct s as [|c s]; [done|]. cbn. intros Hc.
  apply negb_true_iff in Hc. by rewrite Hc.
Qed.

Lemma strip_strip s : strip (strip s) = strip s.
Proof.
  unfold strip.
  rewrite (lstrip_of_starts_outside isspace_char (rstrip_by _ _)).
  - apply rstrip_by_idemp.
  - apply rstrip_starts_outside, lstrip_starts_outside.
Qed.

Lemma parse_choice_strip s options :
  parse_choice (strip s) options = parse_choice s options.
Proof. unfold parse_choice. by rewrite strip_strip. Qed.

Lemma lower_append s t : lower (s +:+ t) = lower s +:+ lower t.
Proof.
  unfold lower. induction s as [|c s IH]; [done|].
  rewrite !append_cons. cbn [map_str]. by rewrite append_cons, IH.
Qed.

Lemma lower_shp ext :
  lower ext = "shp" -> without "/" ext = true /\ without "." ext = true.
Proof.
  unfold lower, without.
  destruct ext as [|a [|b [|c [|]]]]; try done. cbn [map_str all_str].
  intros [= Ha Hb Hc].
  assert (Hne : forall (x y : ascii),
            lower_char x <> y -> lower_char y = y ->
            negb (Ascii.eqb x y) = true).
  { intros x y Hxy Hy. destruct (Ascii.eqb_spec x y) as [->|]; [|done].
    congruence. }
  rewrite !Hne; try done; by rewrite ?Ha, ?Hb, ?Hc.
Qed.

Lemma selected name ext :
  lower ext = "shp" ->
  endswith ".shp" (lower (name +:+ "." +:+ ext)) = true.
Proof.
  intros Hext. rewrite !lower_append, Hext. by apply endswith_append.
Qed.

Lemma join_name folder name ext :
  without "/" name = true ->
  join folder (name +:+ "." +:+ ext) = dir_of folder +:+ name +:+ "." +:+ ext.
Proof.
  intros Hname. unfold join, dir_of.
  assert (Hstart : startswith "/" (name +:+ "." +:+ ext) = false).
  { destruct name as [|c name]; [done|]. rewrite append_cons.
    unfold without in Hname. cbn [all_str] in Hname.
    apply andb_prop in Hname as [Hc _]. apply negb_true_iff in Hc.
    cbn [startswith]. by rewrite Ascii.eqb_sym, Hc. }
  rewrite Hstart. destruct (_ || _); [done|]. by rewrite append_assoc.
Qed.

Lemma dir_of_prefix folder : is_dir_prefix (dir_of folder) = true.
Proof.
  unfold dir_of, is_dir_prefix.
  destruct (String.eqb folder "" || endswith "/" folder) eqn:E; [done|].
  apply orb_true_intro. right. by apply endswith_append.
Qed.

(** X27: [main] exits with code 1 when the target folder is not a
    directory, and with code 2, nothing written, when the typed choice is
    not accepted.  When the choice is accepted it exits with code 0,
    nothing written, if no name of the folder ends in [.shp] in some case;
    otherwise, for every name [name.ext] of the folder whose extension is
    [shp] in some case, the files [name.prj], with the chosen WKT and a
    newline, and [name.cpg], with "UTF-8", are in the folder afterwards. *)
Theorem main_sidecars folder names typed fs :
  main folder None typed fs = (exit 1, fs) /\
  match parse_choice typed build_options with
  | Raise _ => main folder (Some names) typed fs = (exit 2, fs)
  | Ok (label, wkt) =>
      (Forall (fun f => endswith ".shp" (lower f) = false) names ->
         main folder (Some names) typed fs = (exit 0, fs)) /\
      (forall name ext,
         In (name +:+ "." +:+ ext) names ->
         lower ext = "shp" ->
         without "/" name = true ->
         all_str (Ascii.eqb ".") name = false ->
         fst (main folder (Some names) typed fs) = returns /\
         snd (main folder (Some names) typed fs)
           !! (dir_of folder +:+ name +:+ ".prj") = Some (wkt +:+ newline) /\
         snd (main folder (Some names) typed fs)
           !! (dir_of folder +:+ name +:+ ".cpg") = Some "UTF-8")
  end.
Proof.
  split; [done|]. unfold main. rewrite parse_choice_strip.
  destruct (parse_choice typed build_options) as [[label wkt]|e]; [|done].
  split.
  - intros Hnone. unfold find_shapefiles.
    replace (List.filter _ names) with (@nil string); [done|].
    induction Hnone as [|f names Hf _ IH]; [done|].
    cbn [List.filter]. by rewrite Hf.
  - intros name ext Hin Hext Hname Hdots.
    destruct (lower_shp ext Hext) as [Hsl Hdot].
    assert (Hp : In (dir_of folder +:+ name +:+ "." +:+ ext)
                    (find_shapefiles folder names)).
    { unfold find_shapefiles. apply in_map_iff.
      exists (name +:+ "." +:+ ext). split; [by apply join_name|].
      apply filter_In. split; [done | by apply selected]. }
    assert (Hsplit : fst (splitext (dir_of folder +:+ name +:+ "." +:+ ext))
                     = dir_of folder +:+ name).
    { apply splitext_base; try done. apply dir_of_prefix. }
    destruct (find_shapefiles folder names) as [|p0 ps] eqn:Hfind; [done|].
    cbn [fst snd]. split; [done|].
    rewrite <- !(append_assoc (dir_of folder) name), !write_all_lookup.
    split.
    + rewrite decide_False.
      * rewrite decide_True; [done|]. apply List.Exists_exists.
        eexists. split; [exact Hp|]. unfold prj_of. by rewrite Hsplit.
      * intros (p & _ & Heq)%List.Exists_exists. by apply prj_ne_cpg in Heq.
    + rewrite decide_True; [done|]. apply List.Exists_exists.
      eexists. split; [exact Hp|]. unfold cpg_of. by rewrite Hsplit.
Qed.

End main_program.

(** [main] on a folder of three names, with a choice that is accepted and
    with one that is not. *)
Example main_run :
  let after :=
    makePrj4shp.main "out" (Some ["a_lines.shp"; "notes.txt"; "B.SHP"]) " utm33 " ∅ in
  fst after = makePrj4shp.returns /\
  snd after !! "out/a_lines.prj"
  = Some (snd (makePrj4shp.wkt_utm_euref89 33) +:+ makePrj4shp.newline) /\
  snd after !! "out/B.cpg" = Some "UTF-8" /\
  snd after !! "out/notes.prj" = None /\
  fst (makePrj4shp.main "out" (Some ["a_lines.shp"]) "utm" ∅) = makePrj4shp.exit 2 /\
  fst (makePrj4shp.main "out" (Some ["notes.txt"]) "utm33" ∅) = makePrj4shp.exit 0.
Proof. vm_compute. repeat split; reflexivity. Qed.
